(** * UEFORMAT importer: a shallow embedding of the binary reader

    The development follows [uef_model_reader.cc], [uef_model_reader.hh]
    and the face loop of [BuildUEModel] in [uef_importer.cc].

    Conventions of the embedding.
    - A byte buffer ([char *]) and the contents of a [FILE] are lists of
      bytes; a [std::string] is a list of bytes as well (it may hold NUL).
    - [int] is a 32-bit two's complement integer, read little-endian; a
      [float] is kept as its 32-bit pattern, the reader only copies it.
    - [long] cursors are integers; no buffer that fits in memory lets them
      reach the width of a 64-bit [long].
    - The reader functions thread the cursor ([long &Offset], or the file
      position) through a small state monad.  A run ends in [Normal], or in
      [Abnormal] when the C++ code performs an operation the model does not
      follow any further (a [memcpy] whose source leaves the buffer, a
      [resize] with a negative count, ...), or in [OutOfFuel] when a
      [while] loop was cut by the fuel of the model. *)

From Stdlib Require Import ZArith String List Bool Lia.
From coqutil Require Import Byte Word.LittleEndianList.
Import ListNotations.
Local Open Scope Z_scope.

(** ** Bytes, strings and machine integers *)

Definition bytes : Type := list byte.

(** A C++ string literal as the bytes of a [std::string]. *)
Definition lit (s : string) : bytes := list_byte_of_string s.

(** [operator==] of [std::string]: same length, same bytes. *)
Fixpoint bytes_eqb (a b : bytes) : bool :=
  match a, b with
  | [], [] => true
  | x :: a', y :: b' => Byte.eqb x y && bytes_eqb a' b'
  | _, _ => false
  end.

(** Two's complement reading of the low [w] bits. *)
Definition signed (w : Z) (z : Z) : Z :=
  (z + 2 ^ (w - 1)) mod 2 ^ w - 2 ^ (w - 1).

Definition int_of (bs : bytes) : Z := signed 32 (le_combine bs).
Definition short_of (bs : bytes) : Z := signed 16 (le_combine bs).
Definition int8_of (bs : bytes) : Z := signed 8 (le_combine bs).

(** The four bytes of an [int], as a writer of the format lays them out. *)
Definition int_bytes (n : Z) : bytes := le_split 4 n.

Definition sizeof_int : Z := 4.
Definition sizeof_char4 : Z := 4.
Definition sizeof_float2 : Z := 8.
Definition sizeof_float3 : Z := 12.
Definition sizeof_float4 : Z := 16.
(** [short], two bytes of padding, [int], [float]. *)
Definition sizeof_FWeightChunk : Z := 12.
Definition sizeof_FMorphTargetDataChunk : Z := 28.

(** ** The data model of [uef_model_reader.hh] *)

(** Bit pattern of an IEEE single. *)
Definition float : Type := Z.

Record float2 := mk_float2 { f2_x : float; f2_y : float }.
Record float3 := mk_float3 { f3_x : float; f3_y : float; f3_z : float }.
Record float4 :=
  mk_float4 { f4_x : float; f4_y : float; f4_z : float; f4_w : float }.
Record char4 := mk_char4 { c4_x : Z; c4_y : Z; c4_z : Z; c4_w : Z }.

Record FVertexColorChunk :=
  mk_FVertexColorChunk { vc_Name : bytes; vc_Data : list char4 }.

Record FWeightChunk := mk_FWeightChunk {
  WeightBoneIndex : Z;
  WeightVertexIndex : Z;
  WeightAmount : float }.

Record FBoneChunk := mk_FBoneChunk {
  BoneName : bytes;
  BoneParentIndex : Z;
  BonePos : float3;
  BoneRot : float4 }.

Record FSocketChunk := mk_FSocketChunk {
  SocketName : bytes;
  SocketParentName : bytes;
  SocketPos : float4;
  SocketRot : float4;
  SocketScale : float3 }.

Record FMaterialChunk := mk_FMaterialChunk {
  mat_Name : bytes;
  FirstIndex : Z;
  NumFaces : Z }.

Record FMorphTargetDataChunk := mk_FMorphTargetDataChunk {
  MorphPosition : float3;
  MorphNormals : float3;
  MorphVertexIndex : Z }.

Record FMorphTargetChunk := mk_FMorphTargetChunk {
  MorphName : bytes;
  MorphDeltas : list FMorphTargetDataChunk }.

(** The two size fields are written only on the compressed path; the local
    [Header] of [ReadUEFModelData] is not initialised, so on the
    uncompressed path they hold no determinate value ([None]). *)
Record FUEFormatHeader := mk_FUEFormatHeader {
  Identifier : bytes;
  FileVersionBytes : Z;
  ObjectName : bytes;
  IsCompressed : bool;
  CompressionType : bytes;
  CompressedSize : option Z;
  UncompressedSize : option Z }.

Record FLODData := mk_FLODData {
  LODName : bytes;
  Vertices : list float3;
  Indices : list Z;
  Normals : list float4;
  Tangents : list float3;
  VertexColors : list FVertexColorChunk;
  TextureCoordinates : list (list float2);
  Materials : list FMaterialChunk;
  Weights : list FWeightChunk;
  Morphs : list FMorphTargetChunk }.

Record FSkeletonData := mk_FSkeletonData {
  Bones : list FBoneChunk;
  Sockets : list FSocketChunk }.

Record FUEModelData := mk_FUEModelData {
  Header : FUEFormatHeader;
  LODs : list FLODData;
  Skeleton : FSkeletonData }.

Definition UEF_MAGIC : bytes := lit "UEFORMAT".

(** A default-constructed [FLODData]: every vector and string is empty. *)
Definition FLODData_default : FLODData :=
  mk_FLODData [] [] [] [] [] [] [] [] [] [].

(** [new FUEModelData()]: value-initialisation zeroes the scalars. *)
Definition FUEFormatHeader_zero : FUEFormatHeader :=
  mk_FUEFormatHeader [] 0 [] false [] (Some 0) (Some 0).

Definition FUEModelData_new : FUEModelData :=
  mk_FUEModelData FUEFormatHeader_zero [] (mk_FSkeletonData [] []).

(** Assignments to one member of a record. *)
Definition set_LODName (l : FLODData) (v : bytes) : FLODData :=
  mk_FLODData v (Vertices l) (Indices l) (Normals l) (Tangents l)
    (VertexColors l) (TextureCoordinates l) (Materials l) (Weights l)
    (Morphs l).
Definition set_Vertices (l : FLODData) (v : list float3) : FLODData :=
  mk_FLODData (LODName l) v (Indices l) (Normals l) (Tangents l)
    (VertexColors l) (TextureCoordinates l) (Materials l) (Weights l)
    (Morphs l).
Definition set_Indices (l : FLODData) (v : list Z) : FLODData :=
  mk_FLODData (LODName l) (Vertices l) v (Normals l) (Tangents l)
    (VertexColors l) (TextureCoordinates l) (Materials l) (Weights l)
    (Morphs l).
Definition set_Normals (l : FLODData) (v : list float4) : FLODData :=
  mk_FLODData (LODName l) (Vertices l) (Indices l) v (Tangents l)
    (VertexColors l) (TextureCoordinates l) (Materials l) (Weights l)
    (Morphs l).
Definition set_VertexColors (l : FLODData) (v : list FVertexColorChunk)
  : FLODData :=
  mk_FLODData (LODName l) (Vertices l) (Indices l) (Normals l) (Tangents l)
    v (TextureCoordinates l) (Materials l) (Weights l) (Morphs l).
Definition set_TextureCoordinates (l : FLODData) (v : list (list float2))
  : FLODData :=
  mk_FLODData (LODName l) (Vertices l) (Indices l) (Normals l) (Tangents l)
    (VertexColors l) v (Materials l) (Weights l) (Morphs l).
Definition set_Materials (l : FLODData) (v : list FMaterialChunk)
  : FLODData :=
  mk_FLODData (LODName l) (Vertices l) (Indices l) (Normals l) (Tangents l)
    (VertexColors l) (TextureCoordinates l) v (Weights l) (Morphs l).
Definition set_Weights (l : FLODData) (v : list FWeightChunk) : FLODData :=
  mk_FLODData (LODName l) (Vertices l) (Indices l) (Normals l) (Tangents l)
    (VertexColors l) (TextureCoordinates l) (Materials l) v (Morphs l).
Definition set_Morphs (l : FLODData) (v : list FMorphTargetChunk)
  : FLODData :=
  mk_FLODData (LODName l) (Vertices l) (Indices l) (Normals l) (Tangents l)
    (VertexColors l) (TextureCoordinates l) (Materials l) (Weights l) v.

Definition set_LODs (d : FUEModelData) (v : list FLODData) : FUEModelData :=
  mk_FUEModelData (Header d) v (Skeleton d).
Definition set_Header (d : FUEModelData) (h : FUEFormatHeader)
  : FUEModelData :=
  mk_FUEModelData h (LODs d) (Skeleton d).

(** ** Outcomes and the cursor monad *)

Inductive fault : Type :=
| OutOfBounds (Offset Size : Z)
    (** [memcpy] from [&Data[Offset]] of [Size] bytes, a range that is not
        inside the buffer: the code reads whatever lies there. *)
| LengthError (n : Z)
    (** [resize(n)] or [new char[n]] with a negative [n]. *)
| ShortRead (pos Size : Z)
    (** [fread] of [Size] bytes into storage that was never initialised,
        with fewer bytes left in the file; the return value of [fread] is
        not looked at and the storage is used afterwards. *)
| BadBool (b : Z)
    (** a byte other than 0 or 1 read into a [bool]. *).

Inductive outcome (A : Type) : Type :=
| Normal (a : A)
| Abnormal (f : fault)
| OutOfFuel.
Arguments Normal {A} a.
Arguments Abnormal {A} f.
Arguments OutOfFuel {A}.

(** A computation over a cursor: [long &Offset] or the position of a
    [FILE]. *)
Definition M (A : Type) : Type := Z -> outcome (A * Z).

Definition ret {A} (a : A) : M A := fun Offset => Normal (a, Offset).

Definition bind {A B} (c : M A) (k : A -> M B) : M B := fun Offset =>
  match c Offset with
  | Normal (a, Offset') => k a Offset'
  | Abnormal f => Abnormal f
  | OutOfFuel => OutOfFuel
  end.

Definition raise {A} (f : fault) : M A := fun _ => Abnormal f.

(** [Offset += n]. *)
Definition advance (n : Z) : M unit := fun Offset => Normal (tt, Offset + n).

Notation "x <- c ;; k" := (bind c (fun x => k))
  (at level 61, c at next level, right associativity).
Notation "c ;;; k" := (bind c (fun _ => k))
  (at level 61, right associativity).

(** A [for] loop that runs [n] times and fills one element per turn. *)
Fixpoint forM {A} (n : nat) (body : M A) : M (list A) :=
  match n with
  | O => ret []
  | S n' => a <- body ;; rest <- forM n' body ;; ret (a :: rest)
  end.

(** ** Primitive reads over the in-memory buffer *)

(** Number of bytes of a buffer, as a [long]. *)
Definition size (Data : bytes) : Z := Z.of_nat (List.length Data).

Definition in_buffer (Data : bytes) (Offset Size : Z) : bool :=
  (0 <=? Offset) && (0 <=? Size) && (Offset + Size <=? size Data).

Definition slice (Data : bytes) (Offset Size : Z) : bytes :=
  firstn (Z.to_nat Size) (skipn (Z.to_nat Offset) Data).

(** [ReadStruct(char *Data, long &Offset, void *Struct, long Size)]:
    [memcpy(Struct, &Data[Offset], Size); Offset += Size;] *)
Definition ReadStruct (Data : bytes) (Size : Z) : M bytes := fun Offset =>
  if in_buffer Data Offset Size
  then Normal (slice Data Offset Size, Offset + Size)
  else Abnormal (OutOfBounds Offset Size).

(** Reading one [int] through [ReadStruct(.., &n, sizeof(int))]. *)
Definition ReadInt (Data : bytes) : M Z :=
  bs <- ReadStruct Data sizeof_int ;; ret (int_of bs).

(** [v.resize(n)] with an [int] count: a negative count converts to a
    [size_t] above [max_size()]. *)
Definition resize (n : Z) : M unit :=
  if n <? 0 then raise (LengthError n) else ret tt.

(** [ReadString(std::string &str, char *Data, long &Offset)] *)
Definition ReadString (Data : bytes) : M bytes :=
  len <- ReadInt Data ;;
  resize len ;;;
  ReadStruct Data len.

(** ** Elements of the typed arrays *)

Definition float_of (bs : bytes) : float := le_combine bs.

Definition float2_of (bs : bytes) : float2 :=
  mk_float2 (float_of (slice bs 0 4)) (float_of (slice bs 4 4)).
Definition float3_of (bs : bytes) : float3 :=
  mk_float3 (float_of (slice bs 0 4)) (float_of (slice bs 4 4))
    (float_of (slice bs 8 4)).
Definition float4_of (bs : bytes) : float4 :=
  mk_float4 (float_of (slice bs 0 4)) (float_of (slice bs 4 4))
    (float_of (slice bs 8 4)) (float_of (slice bs 12 4)).
Definition char4_of (bs : bytes) : char4 :=
  mk_char4 (int8_of (slice bs 0 1)) (int8_of (slice bs 1 1))
    (int8_of (slice bs 2 1)) (int8_of (slice bs 3 1)).
Definition FWeightChunk_of (bs : bytes) : FWeightChunk :=
  mk_FWeightChunk (short_of (slice bs 0 2)) (int_of (slice bs 4 4))
    (float_of (slice bs 8 4)).
Definition FMorphTargetDataChunk_of (bs : bytes) : FMorphTargetDataChunk :=
  mk_FMorphTargetDataChunk (float3_of (slice bs 0 12))
    (float3_of (slice bs 12 12)) (int_of (slice bs 24 4)).

(** The [count] consecutive elements of [sz] bytes each that a [memcpy]
    into [v.data()] lays over a vector. *)
Fixpoint elements (sz count : nat) (bs : bytes) : list bytes :=
  match count with
  | O => []
  | S count' => firstn sz bs :: elements sz count' (skipn sz bs)
  end.

(** [v.resize(Num); ReadStruct(Data, Offset, v.data(), Num * sizeof(T));] *)
Definition ReadArray {A} (Data : bytes) (sizeof : Z) (of_bytes : bytes -> A)
    (Num : Z) : M (list A) :=
  resize Num ;;;
  bs <- ReadStruct Data (Num * sizeof) ;;
  ret (map of_bytes (elements (Z.to_nat sizeof) (Z.to_nat Num) bs)).

(** ** The chunk loop of [ReadLods] *)

(** One turn of the [VERTEXCOLORS] loop. *)
Definition ReadVertexColor (Data : bytes) : M FVertexColorChunk :=
  Name <- ReadString Data ;;
  vtxArraySize <- ReadInt Data ;;
  colors <- ReadArray Data sizeof_char4 char4_of vtxArraySize ;;
  ret (mk_FVertexColorChunk Name colors).

(** One turn of the [TEXCOORDS] loop. *)
Definition ReadTexCoords (Data : bytes) : M (list float2) :=
  vtxArraySize <- ReadInt Data ;;
  ReadArray Data sizeof_float2 float2_of vtxArraySize.

(** One turn of the [MATERIALS] loop. *)
Definition ReadMaterial (Data : bytes) : M FMaterialChunk :=
  Name <- ReadString Data ;;
  first <- ReadInt Data ;;
  faces <- ReadInt Data ;;
  ret (mk_FMaterialChunk Name first faces).

(** One turn of the [MORPHTARGETS] loop. *)
Definition ReadMorph (Data : bytes) : M FMorphTargetChunk :=
  Name <- ReadString Data ;;
  NumDeltas <- ReadInt Data ;;
  deltas <- ReadArray Data sizeof_FMorphTargetDataChunk
              FMorphTargetDataChunk_of NumDeltas ;;
  ret (mk_FMorphTargetChunk Name deltas).

(** [v.resize(Num); for (j = 0; j < Num; j++) v[j] = ...] *)
Definition ReadNested {A} (Num : Z) (body : M A) : M (list A) :=
  resize Num ;;; forM (Z.to_nat Num) body.

(** The [if]/[else if] chain on [HeaderType], with the cursor
    [LodsOffset] at the start of the payload. *)
Definition ReadChunkPayload (Data : bytes) (lod : FLODData)
    (HeaderType : bytes) (Num DataSize : Z) : M FLODData :=
  if bytes_eqb HeaderType (lit "VERTICES") then
    v <- ReadArray Data sizeof_float3 float3_of Num ;;
    ret (set_Vertices lod v)
  else if bytes_eqb HeaderType (lit "INDICES") then
    v <- ReadArray Data sizeof_int int_of Num ;;
    ret (set_Indices lod v)
  else if bytes_eqb HeaderType (lit "NORMALS") then
    v <- ReadArray Data sizeof_float4 float4_of Num ;;
    ret (set_Normals lod v)
  else if bytes_eqb HeaderType (lit "TANGENTS") then
    advance DataSize ;;; ret lod
  else if bytes_eqb HeaderType (lit "VERTEXCOLORS") then
    v <- ReadNested Num (ReadVertexColor Data) ;;
    ret (set_VertexColors lod v)
  else if bytes_eqb HeaderType (lit "TEXCOORDS") then
    v <- ReadNested Num (ReadTexCoords Data) ;;
    ret (set_TextureCoordinates lod v)
  else if bytes_eqb HeaderType (lit "MATERIALS") then
    v <- ReadNested Num (ReadMaterial Data) ;;
    ret (set_Materials lod v)
  else if bytes_eqb HeaderType (lit "WEIGHTS") then
    v <- ReadArray Data sizeof_FWeightChunk FWeightChunk_of Num ;;
    ret (set_Weights lod v)
  else if bytes_eqb HeaderType (lit "MORPHTARGETS") then
    v <- ReadNested Num (ReadMorph Data) ;;
    ret (set_Morphs lod v)
  else
    advance DataSize ;;; ret lod.

(** The body of [while (LodsOffset < Offset + LodsSize)]. *)
Definition ReadChunk (Data : bytes) (lod : FLODData) : M FLODData :=
  HeaderType <- ReadString Data ;;
  Num <- ReadInt Data ;;
  DataSize <- ReadInt Data ;;
  ReadChunkPayload Data lod HeaderType Num DataSize.

(** [while (LodsOffset < limit) { ... }], with [limit = Offset + LodsSize];
    the cursor of this computation is [LodsOffset]. *)
Fixpoint ReadLodChunks (fuel : nat) (Data : bytes) (limit : Z)
    (lod : FLODData) : M FLODData := fun LodsOffset =>
  if LodsOffset <? limit then
    match fuel with
    | O => OutOfFuel
    | S fuel' =>
        (lod' <- ReadChunk Data lod ;;
         ReadLodChunks fuel' Data limit lod') LodsOffset
    end
  else Normal (lod, LodsOffset).

(** The body of [for (int i = 0; i < numLods; i++)]: the chunk loop runs on
    its own cursor [LodsOffset], and [Offset += LodsSize] follows it. *)
Definition ReadLod (fuel : nat) (Data : bytes) (lod : FLODData)
  : M FLODData :=
  Name <- ReadString Data ;;
  LodsSize <- ReadInt Data ;;
  fun Offset =>
    match ReadLodChunks fuel Data (Offset + LodsSize)
            (set_LODName lod Name) Offset with
    | Normal (lod', _) => Normal (lod', Offset + LodsSize)
    | Abnormal f => Abnormal f
    | OutOfFuel => OutOfFuel
    end.

(** [lods.resize(n)] on the elements: a prefix is kept, the rest is
    default-constructed. *)
Definition vec_resize {A} (d : A) (n : nat) (v : list A) : list A :=
  firstn n v ++ repeat d (n - List.length v).

(** [v[i] = x] for an [i] inside the vector. *)
Fixpoint assign_at {A} (i : nat) (x : A) (v : list A) : list A :=
  match v, i with
  | [], _ => []
  | _ :: v', O => x :: v'
  | y :: v', S i' => y :: assign_at i' x v'
  end.

Fixpoint ReadLods_from (fuel : nat) (Data : bytes) (todo i : nat)
    (lods : list FLODData) : M (list FLODData) :=
  match todo with
  | O => ret lods
  | S todo' =>
      lod <- ReadLod fuel Data (nth i lods FLODData_default) ;;
      ReadLods_from fuel Data todo' (S i) (assign_at i lod lods)
  end.

(** [ReadLods(lods, numLods, DecompressedData, Offset)] *)
Definition ReadLods (fuel : nat) (Data : bytes) (lods : list FLODData)
    (numLods : Z) : M (list FLODData) :=
  resize numLods ;;;
  ReadLods_from fuel Data (Z.to_nat numLods) 0
    (vec_resize FLODData_default (Z.to_nat numLods) lods).

(** The body of [while (Offset < DecompressedSize)] in [ReadModel]. *)
Definition ReadSection (fuel : nat) (Data : bytes) (d : FUEModelData)
  : M FUEModelData :=
  SectionType <- ReadString Data ;;
  Num <- ReadInt Data ;;
  DataSize <- ReadInt Data ;;
  if bytes_eqb SectionType (lit "LODS") then
    lods <- ReadLods fuel Data (LODs d) Num ;;
    ret (set_LODs d lods)
  else
    advance DataSize ;;; ret d.

Fixpoint ReadModel_loop (fuel n : nat) (Data : bytes) (DecompressedSize : Z)
    (d : FUEModelData) : M FUEModelData := fun Offset =>
  if Offset <? DecompressedSize then
    match n with
    | O => OutOfFuel
    | S n' =>
        (d' <- ReadSection fuel Data d ;;
         ReadModel_loop fuel n' Data DecompressedSize d') Offset
    end
  else Normal (d, Offset).

(** [ReadModel(Data, DecompressedData, Offset, DecompressedSize)]; every
    [while] loop may take up to [fuel] turns. *)
Definition ReadModel (fuel : nat) (Data : bytes) (DecompressedSize : Z)
    (d : FUEModelData) : M FUEModelData :=
  ReadModel_loop fuel fuel Data DecompressedSize d.

(** ** Primitive reads over the [FILE] *)

(** [fread(ptr, Size, 1, File)]: the bytes that are left, at most [Size] of
    them, are delivered and the position moves past them. *)
Definition fread (File : bytes) (Size : Z) : M bytes := fun pos =>
  let got := slice File pos Size in Normal (got, pos + size got).

(** [fread] into a [std::string] that [resize(len)] has just filled with
    [len] NUL bytes: what the file does not deliver stays NUL. *)
Definition fread_string (File : bytes) (len : Z) : M bytes :=
  got <- fread File len ;;
  ret (got ++ repeat Byte.x00 (Z.to_nat len - List.length got)).

(** [fread] into storage that holds no value yet (a local [int], a member
    of the local [Header], a fresh [new char[]]). *)
Definition fread_raw (File : bytes) (Size : Z) : M bytes := fun pos =>
  if in_buffer File pos Size
  then Normal (slice File pos Size, pos + Size)
  else Abnormal (ShortRead pos Size).

(** [ReadString(std::string &str, FILE *File)] *)
Definition ReadString_FILE (File : bytes) : M bytes :=
  bs <- fread_raw File sizeof_int ;;
  let len := int_of bs in
  resize len ;;;
  fread_string File len.

(** [ReadString(std::string &str, FILE *File, size_t len)] *)
Definition ReadString_FILE_len (File : bytes) (len : Z) : M bytes :=
  fread_string File len.

(** [ReadStruct(FILE *File, void *Struct, int Size)] *)
Definition ReadStruct_FILE (File : bytes) (Size : Z) : M bytes :=
  fread_raw File Size.

(** [fread(&Header.FileVersionBytes, sizeof(char), 1, File)] *)
Definition ReadChar_FILE (File : bytes) : M Z :=
  bs <- fread_raw File 1 ;; ret (int8_of bs).

(** [fread(&Header.IsCompressed, sizeof(bool), 1, File)] *)
Definition ReadBool_FILE (File : bytes) : M bool :=
  bs <- fread_raw File 1 ;;
  let b := le_combine bs in
  if b =? 0 then ret false
  else if b =? 1 then ret true
  else raise (BadBool b).

(** [new char[n]] with an [int] count. *)
Definition new_array (n : Z) : M unit := resize n.

(** ** The container reader *)

(** What a call of [ReadUEFModelData] leaves behind: the lines it printed
    with [printf] and the pointer it returned ([None] is [nullptr]).  The
    timing lines the code writes to [std::cout] because [UEF_PERF] is 1 are
    not part of [printed]. *)
Record reading := mk_reading {
  printed : list string;
  returned : option FUEModelData }.

(** The guard of the version [if], as it is written:
    [!(Header.FileVersionBytes <= 5 || Header.FileVersionBytes > 3)]. *)
Definition version_rejected (v : Z) : bool :=
  negb ((v <=? 5) || (v >? 3)).

Definition lift {A} (o : outcome A) : M A := fun pos =>
  match o with
  | Normal a => Normal (a, pos)
  | Abnormal f => Abnormal f
  | OutOfFuel => OutOfFuel
  end.

Definition run {A} (c : M A) (start : Z) : outcome A :=
  match c start with
  | Normal (a, _) => Normal a
  | Abnormal f => Abnormal f
  | OutOfFuel => OutOfFuel
  end.

(** [long Offset = 0; if (Header.Identifier == "UEMODEL") ReadModel(...);
    return Data;] *)
Definition DecodePayload (fuel : nat) (DecompressedData : bytes)
    (DecompressedSize : Z) (d : FUEModelData) : outcome reading :=
  if bytes_eqb (Identifier (Header d)) (lit "UEMODEL") then
    run (d' <- ReadModel fuel DecompressedData DecompressedSize d ;;
         ret (mk_reading [] (Some d'))) 0
  else Normal (mk_reading [] (Some d)).

Section Container.

(** The decompression service, [ZSTD_decompress(dst, dstCapacity, src,
    srcSize)]: [Some out] when it writes the bytes [out] and returns their
    number, [None] when it returns an error code (as a [size_t], a value
    above every [int]). *)
Variable ZSTD_decompress : bytes -> Z -> option bytes.

(** The compressed branch, from [new char[Header.UncompressedSize]] on;
    the cursor is the file position. *)
Definition ReadCompressed (fuel : nat) (File : bytes) (d : FUEModelData)
    (CompressionType : bytes) (UncompressedSize CompressedSize : Z)
  : M reading :=
  new_array UncompressedSize ;;;
  new_array CompressedSize ;;;
  CompressedData <- ReadStruct_FILE File CompressedSize ;;
  if bytes_eqb CompressionType (lit "ZSTD") then
    match ZSTD_decompress CompressedData UncompressedSize with
    | Some out =>
        if negb (size out =? UncompressedSize)
        then ret (mk_reading ["Failed to decompress data\n"%string] None)
        else lift (DecodePayload fuel out UncompressedSize d)
    | None => ret (mk_reading ["Failed to decompress data\n"%string] None)
    end
  else ret (mk_reading ["Unsupported compression type\n"%string] None).

(** The uncompressed branch: the rest of the file is the payload. *)
Definition ReadUncompressed (fuel : nat) (File : bytes) (d : FUEModelData)
  : M reading := fun CurrentPos =>
  let EndPos := size File in
  let DecompressedSize := EndPos - CurrentPos in
  (DecompressedData <- ReadStruct_FILE File DecompressedSize ;;
   lift (DecodePayload fuel DecompressedData DecompressedSize d))
    CurrentPos.

(** The body of [ReadUEFModelData(FILE *File)], with the guard of the
    version [if] as the parameter [guard], so that the branch under the
    guard can be stated on its own. *)
Definition ReadUEFModelData_guarded (guard : Z -> bool) (fuel : nat)
    (File : bytes) : outcome reading :=
  let Data := FUEModelData_new in
  run
    (Magic <- ReadString_FILE_len File (size UEF_MAGIC) ;;
     if negb (bytes_eqb Magic UEF_MAGIC) then
       ret (mk_reading [] (Some Data))
     else
       Identifier <- ReadString_FILE File ;;
       FileVersionBytes <- ReadChar_FILE File ;;
       if guard FileVersionBytes then
         ret (mk_reading ["too old or too new file version\n"%string] None)
       else
         ObjectName <- ReadString_FILE File ;;
         IsCompressed <- ReadBool_FILE File ;;
         if IsCompressed then
           CompressionType <- ReadString_FILE File ;;
           usize <- ReadStruct_FILE File sizeof_int ;;
           csize <- ReadStruct_FILE File sizeof_int ;;
           let Header :=
             mk_FUEFormatHeader Identifier FileVersionBytes ObjectName
               true CompressionType (Some (int_of csize))
               (Some (int_of usize)) in
           ReadCompressed fuel File (set_Header Data Header)
             CompressionType (int_of usize) (int_of csize)
         else
           let Header :=
             mk_FUEFormatHeader Identifier FileVersionBytes ObjectName
               false [] None None in
           ReadUncompressed fuel File (set_Header Data Header))
    0.

(** [FUEModelData* ReadUEFModelData(FILE *File)] *)
Definition ReadUEFModelData (fuel : nat) (File : bytes) : outcome reading :=
  ReadUEFModelData_guarded version_rejected fuel File.

(** [FUEModelData* ReadUEFModelData(const std::string &FilePath)], over a
    file system that maps a path to the contents [fopen_s] finds there. *)
Definition ReadUEFModelData_path (fuel : nat)
    (files : string -> option bytes) (FilePath : string)
  : outcome reading :=
  match files FilePath with
  | None => Normal (mk_reading ["failed to open file\n"%string] None)
  | Some File => ReadUEFModelData fuel File
  end.

End Container.

(** ** The face loop of [BuildUEModel] *)

(** [for (int i = 0; i < lod.Materials.size(); i++)
      if (lod.Materials[i].FirstIndex > face_idx) { mat_index = i - 1; break; }]
    started with [mat_index = 0]; [mats] are the materials from index [i]
    on. *)
Fixpoint material_scan (mats : list FMaterialChunk) (i face_idx : Z) : Z :=
  match mats with
  | [] => 0
  | m :: rest =>
      if FirstIndex m >? face_idx then i - 1
      else material_scan rest (i + 1) face_idx
  end.

(** [mesh->faces_num], the third argument of [BKE_mesh_new_nomain]. *)
Definition faces_num (lod : FLODData) : Z :=
  Z.of_nat (List.length (Indices lod)) / 3.

(** The loop over [face_idx]: the pairs
    [(face_offsets[face_idx], material_indices.span[face_idx])]. *)
Fixpoint face_loop (todo : nat) (face_idx corner_index : Z)
    (mats : list FMaterialChunk) : list (Z * Z) :=
  match todo with
  | O => []
  | S todo' =>
      (corner_index, material_scan mats 0 face_idx)
        :: face_loop todo' (face_idx + 1) (corner_index + 3) mats
  end.

Definition BuildUEModel_faces (lod : FLODData) : list (Z * Z) :=
  face_loop (Z.to_nat (faces_num lod)) 0 0 (Materials lod).

Definition material_indices (lod : FLODData) : list Z :=
  map snd (BuildUEModel_faces lod).

(** ** Inputs in the layout of the format

    The byte sequences a writer of the format emits; they only serve to
    build inputs for the reader. *)

Definition string_bytes (s : bytes) : bytes := int_bytes (size s) ++ s.

(** A chunk or a section: tag, element count, declared byte length,
    payload. *)
Definition chunk_bytes (tag : bytes) (Num DataSize : Z) (payload : bytes)
  : bytes :=
  string_bytes tag ++ int_bytes Num ++ int_bytes DataSize ++ payload.

Definition lod_bytes (name : bytes) (LodsSize : Z) (chunks : bytes) : bytes :=
  string_bytes name ++ int_bytes LodsSize ++ chunks.

(** Magic, identifier, version byte, object name. *)
Definition header_bytes (ident : bytes) (ver : byte) (name : bytes) : bytes :=
  UEF_MAGIC ++ string_bytes ident ++ [ver] ++ string_bytes name.

(** ** Predicates and inputs of the statements *)

(** [tail_at Data Offset R]: the bytes of [Data] from [Offset] on are
    [R]. *)

Definition tail_at (Data : bytes) (Offset : Z) (R : bytes) : Prop :=
  0 <= Offset <= size Data /\ skipn (Z.to_nat Offset) Data = R.

(** A truncated input is turned down when the read neither returns a value
    nor goes on with bytes that are not there. *)
Definition turned_down {A} (o : outcome A) : Prop :=
  match o with
  | Normal _ => False
  | Abnormal (OutOfBounds _ _) => False
  | Abnormal (ShortRead _ _) => False
  | _ => True
  end.

(** A length prefix of 5 followed by the two bytes "ab". *)
Definition short_string : bytes :=
  int_bytes 5 ++ [Byte.x61; Byte.x62].


(** The triangle of scenario A: three vertices (0,0,0), (1,0,0), (0,1,0) as
    IEEE singles, and the indices 0, 1, 2. *)
Definition triangle_vertices : bytes :=
  concat (map int_bytes [0; 0; 0; 1065353216; 0; 0; 0; 1065353216; 0]).

(** One LOD with a VERTICES chunk of three elements, the bytes [verts], and
    an INDICES chunk with the values 0, 1, 2. *)
Definition scenario_A_chunks (verts : bytes) : bytes :=
  chunk_bytes (lit "VERTICES") 3 36 verts
    ++ chunk_bytes (lit "INDICES") 3 12
         (int_bytes 0 ++ int_bytes 1 ++ int_bytes 2).

Definition scenario_A_lod (LodName verts : bytes) : bytes :=
  lod_bytes LodName (size (scenario_A_chunks verts)) (scenario_A_chunks verts).

(** An uncompressed file with identifier "UEMODEL" and one LODS section. *)
Definition scenario_A_file (ver : byte) (Name LodName verts : bytes)
  : bytes :=
  header_bytes (lit "UEMODEL") ver Name ++ [Byte.x00]
    ++ chunk_bytes (lit "LODS") 1 (size (scenario_A_lod LodName verts))
         (scenario_A_lod LodName verts).

(** What the reader makes of that file. *)
Definition scenario_A_model (ver : byte) (Name LodName verts : bytes)
  : FUEModelData :=
  mk_FUEModelData
    (mk_FUEFormatHeader (lit "UEMODEL") (int8_of [ver]) Name false [] None
       None)
    [mk_FLODData LodName (map float3_of (elements 12 3 verts)) [0; 1; 2]
       [] [] [] [] [] [] []]
    (mk_FSkeletonData [] []).

(** Scenario D: 24 indices, two materials with [FirstIndex] 0 and 5. *)
Definition scenario_D : FLODData :=
  set_Materials
    (set_Indices FLODData_default (repeat 0 24))
    [mk_FMaterialChunk (lit "M0") 0 5; mk_FMaterialChunk (lit "M1") 5 3].

(** The file of scenario A with its first byte changed from 'U' to 'X'. *)
Definition bad_magic_file : bytes :=
  lit "XEFORMAT"
    ++ skipn 8 (scenario_A_file Byte.x04 (lit "Tri") (lit "LOD0")
                  triangle_vertices).

(** A decompression service that always answers with an error code, for
    the files that are not compressed. *)
Definition no_service : bytes -> Z -> option bytes := fun _ _ => None.

(** The failure kinds the description of the format names, and the one a
    reading stands for: a null pointer together with the line printed
    before it.  The reader has no other way to report a failure. *)
Inductive ErrorKind : Type :=
| InvalidMagic | UnsupportedFormat | UnsupportedVersion
| UnsupportedCompression | DecompressionSizeMismatch | TruncatedInput
| MalformedChunk | MalformedLOD | MalformedModel | FileOpenFailure.

Definition failure_of (r : reading) : option ErrorKind :=
  match returned r, printed r with
  | None, [msg] =>
      if String.eqb msg "too old or too new file version\n" then
        Some UnsupportedVersion
      else if String.eqb msg "Failed to decompress data\n" then
        Some DecompressionSizeMismatch
      else if String.eqb msg "Unsupported compression type\n" then
        Some UnsupportedCompression
      else if String.eqb msg "failed to open file\n" then
        Some FileOpenFailure
      else None
  | _, _ => None
  end.

(** The tags the [if]/[else if] chain of [ReadLods] names. *)
Definition chunk_tags : list bytes :=
  [lit "VERTICES"; lit "INDICES"; lit "NORMALS"; lit "TANGENTS";
   lit "VERTEXCOLORS"; lit "TEXCOORDS"; lit "MATERIALS"; lit "WEIGHTS";
   lit "MORPHTARGETS"].

(** The chunks that are stepped over: TANGENTS, and every tag the chain
    does not name. *)
Definition skipped (tag : bytes) : bool :=
  bytes_eqb tag (lit "TANGENTS") || negb (existsb (bytes_eqb tag) chunk_tags).

(** The element size of the chunks that are one flat array. *)
Definition flat_element_size (tag : bytes) : option Z :=
  if bytes_eqb tag (lit "VERTICES") then Some sizeof_float3
  else if bytes_eqb tag (lit "INDICES") then Some sizeof_int
  else if bytes_eqb tag (lit "NORMALS") then Some sizeof_float4
  else if bytes_eqb tag (lit "WEIGHTS") then Some sizeof_FWeightChunk
  else None.

(** C3 as stated, for the chunk that starts at [start]: whatever header is
    read there, the chunk leaves the cursor at the start of the payload plus
    the declared byte length. *)
Definition advances_by_byte_length (Data : bytes) (lod : FLODData)
    (start : Z) : Prop :=
  forall tag p1 Num p2 DataSize payload,
    ReadString Data start = Normal (tag, p1) ->
    ReadInt Data p1 = Normal (Num, p2) ->
    ReadInt Data p2 = Normal (DataSize, payload) ->
    exists lod', ReadChunk Data lod start = Normal (lod', payload + DataSize).

(** A VERTICES chunk of one element that declares a byte length of 100 and
    carries 100 bytes. *)
Definition misdeclared_chunk : bytes :=
  chunk_bytes (lit "VERTICES") 1 100 (repeat Byte.x00 100).

(** Scenario C: a chunk tagged UNKNOWNTAG with 16 bytes of payload, then the
    VERTICES chunk of the triangle. *)
Definition scenario_C_chunks : bytes :=
  chunk_bytes (lit "UNKNOWNTAG") 7 16 (repeat Byte.xff 16)
    ++ chunk_bytes (lit "VERTICES") 3 36 triangle_vertices.

Definition scenario_C_file : bytes :=
  let lod := lod_bytes (lit "LOD0") (size scenario_C_chunks)
               scenario_C_chunks in
  header_bytes (lit "UEMODEL") Byte.x04 (lit "Tri") ++ [Byte.x00]
    ++ chunk_bytes (lit "LODS") 1 (size lod) lod.

(** An LOD that declares a region of 32 bytes, just enough for the header
    of a VERTICES chunk and one vertex, while the chunk counts two
    vertices; a section with an empty type and no body follows the
    region. *)
Definition overshoot_lod_payload : bytes :=
  let one := int_bytes 1065353216 in
  let lod :=
    lod_bytes (lit "LOD0") 32
      (chunk_bytes (lit "VERTICES") 2 24 (one ++ one ++ one)) in
  chunk_bytes (lit "LODS") 1 (size lod) lod ++ chunk_bytes [] 0 0 [].

Definition overshoot_lod_file : bytes :=
  header_bytes (lit "UEMODEL") Byte.x04 (lit "Tri") ++ [Byte.x00]
    ++ overshoot_lod_payload.

(** A section that declares a body of 100 bytes at the very end of the
    payload. *)
Definition overshoot_section_file : bytes :=
  header_bytes (lit "UEMODEL") Byte.x04 (lit "Tri") ++ [Byte.x00]
    ++ chunk_bytes (lit "SKELETON") 0 100 [].

(** A file with a valid header, no section and so no LOD. *)
Definition empty_model_file : bytes :=
  header_bytes (lit "UEMODEL") Byte.x04 (lit "Tri") ++ [Byte.x00].

(** Scenario B: the header declares 100 uncompressed bytes for a payload of
    four compressed bytes, and the service delivers 90 bytes. *)
Definition scenario_B_file : bytes :=
  header_bytes (lit "UEMODEL") Byte.x04 (lit "Tri") ++ [Byte.x01]
    ++ string_bytes (lit "ZSTD") ++ int_bytes 100 ++ int_bytes 4
    ++ [Byte.x28; Byte.xb5; Byte.x2f; Byte.xfd].

Definition service_90 : bytes -> Z -> option bytes :=
  fun _ _ => Some (repeat Byte.x00 90).

(** The same header with a compression name the reader does not know. *)
Definition unknown_compression_file : bytes :=
  header_bytes (lit "UEMODEL") Byte.x04 (lit "Tri") ++ [Byte.x01]
    ++ string_bytes (lit "LZ4") ++ int_bytes 100 ++ int_bytes 4
    ++ [Byte.x28; Byte.xb5; Byte.x2f; Byte.xfd].

(** The three vertices of the triangle, as the reader stores them. *)
Definition triangle_points : list float3 :=
  [mk_float3 0 0 0; mk_float3 1065353216 0 0; mk_float3 0 1065353216 0].

(** What the reader makes of the file of scenario C. *)
Definition scenario_C_model : FUEModelData :=
  mk_FUEModelData
    (mk_FUEFormatHeader (lit "UEMODEL") 4 (lit "Tri") false [] None None)
    [mk_FLODData (lit "LOD0") triangle_points [] [] [] [] [] [] [] []]
    (mk_FSkeletonData [] []).

(** C4 as stated, for one file: the reader reports the given failure. *)
Definition reports (zstd : bytes -> Z -> option bytes) (fuel : nat)
    (File : bytes) (e : ErrorKind) : Prop :=
  exists r, ReadUEFModelData zstd fuel File = Normal r /\
            failure_of r = Some e.

(** ** Further predicates and inputs *)

(** The bytes of the entries of a MATERIALS chunk. *)
Definition material_bytes (m : FMaterialChunk) : bytes :=
  string_bytes (mat_Name m) ++ int_bytes (FirstIndex m)
    ++ int_bytes (NumFaces m).

Definition materials_bytes (mats : list FMaterialChunk) : bytes :=
  concat (map material_bytes mats).

(** The fields of a material fit the format. *)
Definition material_fits (m : FMaterialChunk) : Prop :=
  size (mat_Name m) < 2 ^ 31 /\
  - 2 ^ 31 <= FirstIndex m < 2 ^ 31 /\
  - 2 ^ 31 <= NumFaces m < 2 ^ 31.

(** The bytes of the elements of an INDICES and of a VERTICES chunk. *)
Definition indices_bytes (idx : list Z) : bytes := concat (map int_bytes idx).

Definition float3_bytes (v : float3) : bytes :=
  le_split 4 (f3_x v) ++ le_split 4 (f3_y v) ++ le_split 4 (f3_z v).

Definition vertices_bytes (vs : list float3) : bytes :=
  concat (map float3_bytes vs).

(** The three components are 32-bit patterns. *)
Definition float3_fits (v : float3) : Prop :=
  0 <= f3_x v < 2 ^ 32 /\ 0 <= f3_y v < 2 ^ 32 /\ 0 <= f3_z v < 2 ^ 32.

(** The LODs a call of the reader hands to its caller: those of the model
    behind the returned pointer, if there is one. *)
Definition decoded_lods (o : outcome reading)
  : outcome (option (list FLODData)) :=
  match o with
  | Normal r => Normal (option_map LODs (returned r))
  | Abnormal f => Abnormal f
  | OutOfFuel => OutOfFuel
  end.

(** Two runs over a model end alike: with the same fault, or with the same
    cursor and the same LODs. *)
Definition same_lods (o1 o2 : outcome (FUEModelData * Z)) : Prop :=
  match o1, o2 with
  | Normal (d1, p1), Normal (d2, p2) => LODs d1 = LODs d2 /\ p1 = p2
  | Abnormal f1, Abnormal f2 => f1 = f2
  | OutOfFuel, OutOfFuel => True
  | _, _ => False
  end.

(** The payload of the file of scenario C: what follows the 27 bytes of
    its header and the compression flag. *)
Definition scenario_C_payload : bytes := skipn 28 scenario_C_file.

(** ** The rest of [BuildUEModel] and its callers

    The Blender functions the importer calls are outside the repository's
    files; a run of the importer is described by the calls it makes, in
    order, with the arguments it passes. *)

(** [s.c_str()] as the callee reads it: the bytes before the first NUL. *)
Fixpoint c_str (s : bytes) : bytes :=
  match s with
  | [] => []
  | b :: rest => if Byte.eqb b Byte.x00 then [] else b :: c_str rest
  end.

(** [n.yzw()] *)
Definition yzw (n : float4) : float3 :=
  mk_float3 (f4_y n) (f4_z n) (f4_w n).

(** The mesh of one LOD when its turn of the loop ends: the four counts
    given to [BKE_mesh_new_nomain], the arrays copied into it, the entries
    the face loop writes, and the normals given to
    [BKE_mesh_set_custom_normals_from_verts], if it is called. *)
Record Mesh := mk_Mesh {
  verts_num : Z;
  edges_num : Z;
  mesh_faces_num : Z;
  corners_num : Z;
  vert_positions : list float3;
  corner_verts : list Z;
  mesh_faces : list (Z * Z);
  custom_normals : option (list float3) }.

Definition mesh_of (lod : FLODData) : Mesh :=
  mk_Mesh
    (Z.of_nat (List.length (Vertices lod))) 0 (faces_num lod)
    (Z.of_nat (List.length (Indices lod)))
    (Vertices lod) (Indices lod) (BuildUEModel_faces lod)
    (match Normals lod with
     | [] => None
     | _ :: _ => Some (map yzw (Normals lod))
     end).

(** The value of the local [Object *ob] at the end of a turn: the object
    created as number [i] by this call, or no determinate value. *)
Inductive object_ptr : Type :=
| object (i : nat)
| indeterminate.

Inductive call : Type :=
| BKE_object_add (name : bytes) (data : Mesh)
| BKE_object_add_from (name : bytes) (ob_src : nat) (data : Mesh)
| BKE_object_apply_mat4 (ob : object_ptr) (scale : float).

(** [for (const auto &lod : model.LODs)]: [parent] is the pointer of that
    name ([None] is [nullptr]), [n] counts the objects created so far,
    [alloc] tells whether [BKE_mesh_new_nomain] returns a mesh for the four
    counts.  The result is the calls made and the pointer returned. *)
Fixpoint BuildUEModel_loop (alloc : Z -> Z -> Z -> Z -> bool)
    (ObjectName : bytes) (scale : float) (lods : list FLODData)
    (parent : option nat) (n : nat) : list call * option nat :=
  match lods with
  | [] => ([], parent)
  | lod :: rest =>
      let mesh := mesh_of lod in
      if negb (alloc (verts_num mesh) (edges_num mesh) (mesh_faces_num mesh)
                 (corners_num mesh))
      then ([], None)
      else
        let name := c_str (ObjectName ++ LODName lod) in
        match parent with
        | None =>
            let (calls, result) :=
              BuildUEModel_loop alloc ObjectName scale rest (Some n) (S n) in
            (BKE_object_add name mesh
               :: BKE_object_apply_mat4 (object n) scale :: calls, result)
        | Some p =>
            let (calls, result) :=
              BuildUEModel_loop alloc ObjectName scale rest parent (S n) in
            (BKE_object_add_from name p mesh
               :: BKE_object_apply_mat4 indeterminate scale :: calls, result)
        end
  end.

(** [Object* BuildUEModel(C, model, import_params)] *)
Definition BuildUEModel (alloc : Z -> Z -> Z -> Z -> bool)
    (model : FUEModelData) (scale : float) : list call * option nat :=
  match LODs model with
  | [] => ([], None)
  | _ :: _ =>
      BuildUEModel_loop alloc (ObjectName (Header model)) scale (LODs model)
        None 0
  end.

(** [void importer_main(C, import_params)]: the lines printed by the
    reader and the calls made by the builder. *)
Definition importer_main (zstd : bytes -> Z -> option bytes) (fuel : nat)
    (files : string -> option bytes) (alloc : Z -> Z -> Z -> Z -> bool)
    (filepath : string) (scale : float)
  : outcome (list string * list call) :=
  match ReadUEFModelData_path zstd fuel files filepath with
  | Normal r =>
      match returned r with
      | None => Normal (printed r, [])
      | Some model => Normal (printed r, fst (BuildUEModel alloc model scale))
      end
  | Abnormal f => Abnormal f
  | OutOfFuel => OutOfFuel
  end.

(** [UEFORMAT_import(C, import_params)] *)
Definition UEFORMAT_import := importer_main.

Inductive operator_status : Type :=
| OPERATOR_CANCELLED
| OPERATOR_FINISHED.

(** [STRNCPY(import_params.filepath, path.c_str())] into an array of
    [FILE_MAX] characters: at most [FILE_MAX - 1] of them are kept. *)
Definition STRNCPY (FILE_MAX : nat) (path : string) : string :=
  substring 0 (FILE_MAX - 1) path.

(** [for (const auto &path : paths)]: one import after the other. *)
Fixpoint import_paths (zstd : bytes -> Z -> option bytes) (fuel : nat)
    (files : string -> option bytes) (alloc : Z -> Z -> Z -> Z -> bool)
    (FILE_MAX : nat) (scale : float) (paths : list string)
  : outcome (list (list string * list call)) :=
  match paths with
  | [] => Normal []
  | path :: rest =>
      match UEFORMAT_import zstd fuel files alloc (STRNCPY FILE_MAX path)
              scale with
      | Normal done =>
          match import_paths zstd fuel files alloc FILE_MAX scale rest with
          | Normal more => Normal (done :: more)
          | Abnormal f => Abnormal f
          | OutOfFuel => OutOfFuel
          end
      | Abnormal f => Abnormal f
      | OutOfFuel => OutOfFuel
      end
  end.

(** [wm_ueformat_import_exec(C, op)], given the paths found in the
    operator properties: the reports added with [BKE_report], what each
    import did, and the status returned. *)
Definition wm_ueformat_import_exec (zstd : bytes -> Z -> option bytes)
    (fuel : nat) (files : string -> option bytes)
    (alloc : Z -> Z -> Z -> Z -> bool) (FILE_MAX : nat) (scale : float)
    (paths : list string)
  : outcome (list string * list (list string * list call) * operator_status) :=
  match paths with
  | [] => Normal (["No filepath given"%string], [], OPERATOR_CANCELLED)
  | _ :: _ =>
      match import_paths zstd fuel files alloc FILE_MAX scale paths with
      | Normal done => Normal ([], done, OPERATOR_FINISHED)
      | Abnormal f => Abnormal f
      | OutOfFuel => OutOfFuel
      end
  end.

(** Two LODs of scenario A one after the other, and what [ReadLods] makes
    of them. *)
Definition two_lods : bytes :=
  scenario_A_lod (lit "LOD0") triangle_vertices
    ++ scenario_A_lod (lit "LOD1") triangle_vertices.

Definition two_lods_read : list FLODData :=
  [mk_FLODData (lit "LOD0") triangle_points [0; 1; 2] [] [] [] [] [] [] [];
   mk_FLODData (lit "LOD1") triangle_points [0; 1; 2] [] [] [] [] [] [] []].

(** ** The contents of the decoded chunks and their layout *)

Definition float2_bytes (v : float2) : bytes :=
  le_split 4 (f2_x v) ++ le_split 4 (f2_y v).

Definition float4_bytes (v : float4) : bytes :=
  le_split 4 (f4_x v) ++ le_split 4 (f4_y v) ++ le_split 4 (f4_z v)
    ++ le_split 4 (f4_w v).

Definition char4_bytes (c : char4) : bytes :=
  le_split 1 (c4_x c) ++ le_split 1 (c4_y c) ++ le_split 1 (c4_z c)
    ++ le_split 1 (c4_w c).

(** The two bytes of padding after the [short] are written as NUL. *)
Definition weight_bytes (w : FWeightChunk) : bytes :=
  le_split 2 (WeightBoneIndex w) ++ [Byte.x00; Byte.x00]
    ++ int_bytes (WeightVertexIndex w) ++ le_split 4 (WeightAmount w).

Definition delta_bytes (d : FMorphTargetDataChunk) : bytes :=
  float3_bytes (MorphPosition d) ++ float3_bytes (MorphNormals d)
    ++ int_bytes (MorphVertexIndex d).

Definition vertex_color_bytes (vc : FVertexColorChunk) : bytes :=
  string_bytes (vc_Name vc)
    ++ int_bytes (Z.of_nat (List.length (vc_Data vc)))
    ++ concat (map char4_bytes (vc_Data vc)).

Definition texcoords_bytes (uv : list float2) : bytes :=
  int_bytes (Z.of_nat (List.length uv)) ++ concat (map float2_bytes uv).

Definition morph_bytes (m : FMorphTargetChunk) : bytes :=
  string_bytes (MorphName m)
    ++ int_bytes (Z.of_nat (List.length (MorphDeltas m)))
    ++ concat (map delta_bytes (MorphDeltas m)).

(** The values that the fields of the format can hold. *)
Definition float2_fits (v : float2) : Prop :=
  0 <= f2_x v < 2 ^ 32 /\ 0 <= f2_y v < 2 ^ 32.

Definition float4_fits (v : float4) : Prop :=
  0 <= f4_x v < 2 ^ 32 /\ 0 <= f4_y v < 2 ^ 32 /\
  0 <= f4_z v < 2 ^ 32 /\ 0 <= f4_w v < 2 ^ 32.

Definition char4_fits (c : char4) : Prop :=
  - 128 <= c4_x c < 128 /\ - 128 <= c4_y c < 128 /\
  - 128 <= c4_z c < 128 /\ - 128 <= c4_w c < 128.

Definition weight_fits (w : FWeightChunk) : Prop :=
  - 2 ^ 15 <= WeightBoneIndex w < 2 ^ 15 /\
  - 2 ^ 31 <= WeightVertexIndex w < 2 ^ 31 /\
  0 <= WeightAmount w < 2 ^ 32.

Definition delta_fits (d : FMorphTargetDataChunk) : Prop :=
  float3_fits (MorphPosition d) /\ float3_fits (MorphNormals d) /\
  - 2 ^ 31 <= MorphVertexIndex d < 2 ^ 31.

Definition count_fits {A} (xs : list A) : Prop :=
  Z.of_nat (List.length xs) < 2 ^ 31.

Definition vertex_color_fits (vc : FVertexColorChunk) : Prop :=
  size (vc_Name vc) < 2 ^ 31 /\ count_fits (vc_Data vc) /\
  Forall char4_fits (vc_Data vc).

Definition texcoords_fits (uv : list float2) : Prop :=
  count_fits uv /\ Forall float2_fits uv.

Definition morph_fits (m : FMorphTargetChunk) : Prop :=
  size (MorphName m) < 2 ^ 31 /\ count_fits (MorphDeltas m) /\
  Forall delta_fits (MorphDeltas m).

(** What one decoded chunk carries. *)
Inductive chunk_data : Type :=
| VERTICES_data (v : list float3)
| INDICES_data (v : list Z)
| NORMALS_data (v : list float4)
| VERTEXCOLORS_data (v : list FVertexColorChunk)
| TEXCOORDS_data (v : list (list float2))
| MATERIALS_data (v : list FMaterialChunk)
| WEIGHTS_data (v : list FWeightChunk)
| MORPHTARGETS_data (v : list FMorphTargetChunk).

Definition chunk_tag (c : chunk_data) : bytes :=
  match c with
  | VERTICES_data _ => lit "VERTICES"
  | INDICES_data _ => lit "INDICES"
  | NORMALS_data _ => lit "NORMALS"
  | VERTEXCOLORS_data _ => lit "VERTEXCOLORS"
  | TEXCOORDS_data _ => lit "TEXCOORDS"
  | MATERIALS_data _ => lit "MATERIALS"
  | WEIGHTS_data _ => lit "WEIGHTS"
  | MORPHTARGETS_data _ => lit "MORPHTARGETS"
  end.

(** The element count of the chunk header. *)
Definition chunk_count (c : chunk_data) : Z :=
  match c with
  | VERTICES_data v => Z.of_nat (List.length v)
  | INDICES_data v => Z.of_nat (List.length v)
  | NORMALS_data v => Z.of_nat (List.length v)
  | VERTEXCOLORS_data v => Z.of_nat (List.length v)
  | TEXCOORDS_data v => Z.of_nat (List.length v)
  | MATERIALS_data v => Z.of_nat (List.length v)
  | WEIGHTS_data v => Z.of_nat (List.length v)
  | MORPHTARGETS_data v => Z.of_nat (List.length v)
  end.

(** The bytes the entries of the chunk occupy. *)
Definition chunk_payload (c : chunk_data) : bytes :=
  match c with
  | VERTICES_data v => vertices_bytes v
  | INDICES_data v => indices_bytes v
  | NORMALS_data v => concat (map float4_bytes v)
  | VERTEXCOLORS_data v => concat (map vertex_color_bytes v)
  | TEXCOORDS_data v => concat (map texcoords_bytes v)
  | MATERIALS_data v => materials_bytes v
  | WEIGHTS_data v => concat (map weight_bytes v)
  | MORPHTARGETS_data v => concat (map morph_bytes v)
  end.

(** The assignment to the LOD that the chunk stands for. *)
Definition chunk_store (c : chunk_data) (lod : FLODData) : FLODData :=
  match c with
  | VERTICES_data v => set_Vertices lod v
  | INDICES_data v => set_Indices lod v
  | NORMALS_data v => set_Normals lod v
  | VERTEXCOLORS_data v => set_VertexColors lod v
  | TEXCOORDS_data v => set_TextureCoordinates lod v
  | MATERIALS_data v => set_Materials lod v
  | WEIGHTS_data v => set_Weights lod v
  | MORPHTARGETS_data v => set_Morphs lod v
  end.

Definition chunk_fits (c : chunk_data) : Prop :=
  chunk_count c < 2 ^ 31 /\
  match c with
  | VERTICES_data v => Forall float3_fits v
  | INDICES_data v => Forall (fun i => - 2 ^ 31 <= i < 2 ^ 31) v
  | NORMALS_data v => Forall float4_fits v
  | VERTEXCOLORS_data v => Forall vertex_color_fits v
  | TEXCOORDS_data v => Forall texcoords_fits v
  | MATERIALS_data v => Forall material_fits v
  | WEIGHTS_data v => Forall weight_fits v
  | MORPHTARGETS_data v => Forall morph_fits v
  end.

(** A chunk whose header declares the bytes its entries occupy, and a run
    of such chunks. *)
Definition encode_chunk (c : chunk_data) : bytes :=
  chunk_bytes (chunk_tag c) (chunk_count c) (size (chunk_payload c))
    (chunk_payload c).

Definition encode_chunks (cs : list chunk_data) : bytes :=
  concat (map encode_chunk cs).



(** Chunks of five kinds, three of them nested: two normals, one colour
    layer of one colour, two UV layers of which the second is empty, the
    materials of scenario D and one morph target of one delta. *)
Definition following_chunks : list chunk_data :=
  [NORMALS_data
     [mk_float4 1065353216 0 0 1065353216;
      mk_float4 3212836864 0 1065353216 0];
   VERTEXCOLORS_data
     [mk_FVertexColorChunk (lit "COL0") [mk_char4 (-1) 0 127 (-128)]];
   TEXCOORDS_data [[mk_float2 0 1065353216]; []];
   MATERIALS_data (Materials scenario_D);
   MORPHTARGETS_data
     [mk_FMorphTargetChunk (lit "Smile")
        [mk_FMorphTargetDataChunk (mk_float3 0 1065353216 0)
           (mk_float3 0 0 1065353216) 2]]].

(** * Properties *)

(** ** Bytes and integers *)

Lemma bytes_eqb_eq (a b : bytes) : bytes_eqb a b = true <-> a = b.
Proof.
  revert b; induction a as [|x a IH]; intros [|y b]; simpl;
    try (split; [discriminate | congruence]); try tauto.
  rewrite andb_true_iff, IH. split.
  - intros [Hx Hab]. apply Byte.byte_dec_bl in Hx. congruence.
  - intros E. injection E as -> ->. split; [apply Byte.byte_dec_lb|]; reflexivity.
Qed.

Lemma bytes_eqb_refl (a : bytes) : bytes_eqb a a = true.
Proof. apply bytes_eqb_eq. reflexivity. Qed.

Lemma bytes_eqb_neq (a b : bytes) : a <> b -> bytes_eqb a b = false.
Proof.
  intros Hne. destruct (bytes_eqb a b) eqn:E; [|reflexivity].
  apply bytes_eqb_eq in E. contradiction.
Qed.

Lemma size_nonneg (bs : bytes) : 0 <= size bs.
Proof. unfold size. lia. Qed.

Lemma size_app (a b : bytes) : size (a ++ b) = size a + size b.
Proof. unfold size. rewrite length_app. lia. Qed.

Lemma size_cons (x : byte) (a : bytes) : size (x :: a) = 1 + size a.
Proof. unfold size. simpl length. lia. Qed.

Lemma size_int_bytes (n : Z) : size (int_bytes n) = 4.
Proof. reflexivity. Qed.

Lemma size_string_bytes (s : bytes) : size (string_bytes s) = 4 + size s.
Proof. unfold string_bytes. rewrite size_app, size_int_bytes. reflexivity. Qed.

Lemma to_nat_size (bs : bytes) : Z.to_nat (size bs) = List.length bs.
Proof. unfold size. apply Nat2Z.id. Qed.

(** An [int] survives the trip through its four bytes. *)
Lemma int_of_int_bytes (n : Z) :
  - 2 ^ 31 <= n < 2 ^ 31 -> int_of (int_bytes n) = n.
Proof.
  intros Hn. unfold int_of, int_bytes, signed.
  rewrite le_combine_split.
  change (Z.of_nat 4 * 8) with 32. change (32 - 1) with 31.
  rewrite Z.add_mod_idemp_l by (compute; discriminate).
  rewrite Z.mod_small; lia.
Qed.


Lemma tail_at_start (Data : bytes) : tail_at Data 0 Data.
Proof. split; [pose proof (size_nonneg Data); lia | reflexivity]. Qed.

Lemma tail_at_size (Data : bytes) (Offset : Z) (R : bytes) :
  tail_at Data Offset R -> size Data = Offset + size R.
Proof.
  intros [Hr E]. subst R. unfold size in *. rewrite length_skipn. lia.
Qed.

Lemma tail_at_step (Data : bytes) (Offset : Z) (bs R : bytes) :
  tail_at Data Offset (bs ++ R) ->
  slice Data Offset (size bs) = bs /\
  in_buffer Data Offset (size bs) = true /\
  tail_at Data (Offset + size bs) R.
Proof.
  intros H. pose proof (tail_at_size _ _ _ H) as Hs.
  destruct H as [Hr E]. rewrite size_app in Hs.
  pose proof (size_nonneg bs). pose proof (size_nonneg R).
  repeat split; try lia.
  - unfold slice. rewrite E, to_nat_size, firstn_app, firstn_all.
    rewrite Nat.sub_diag. simpl. apply app_nil_r.
  - unfold in_buffer. rewrite !andb_true_iff, !Z.leb_le. lia.
  - rewrite Z2Nat.inj_add by lia. rewrite Nat.add_comm, <- skipn_skipn, E.
    rewrite to_nat_size, skipn_app, skipn_all, Nat.sub_diag. reflexivity.
Qed.

Lemma ReadStruct_at (Data : bytes) (Offset : Z) (bs R : bytes) :
  tail_at Data Offset (bs ++ R) ->
  ReadStruct Data (size bs) Offset = Normal (bs, Offset + size bs).
Proof.
  intros H. destruct (tail_at_step _ _ _ _ H) as (Hs & Hb & _).
  unfold ReadStruct. rewrite Hb, Hs. reflexivity.
Qed.

Lemma ReadInt_at (Data : bytes) (Offset n : Z) (R : bytes) :
  tail_at Data Offset (int_bytes n ++ R) ->
  - 2 ^ 31 <= n < 2 ^ 31 ->
  ReadInt Data Offset = Normal (n, Offset + 4).
Proof.
  intros H Hn. unfold ReadInt, bind.
  change sizeof_int with (size (int_bytes n)).
  rewrite (ReadStruct_at _ _ _ _ H). unfold ret.
  rewrite int_of_int_bytes by assumption. reflexivity.
Qed.

Lemma tail_at_int (Data : bytes) (Offset n : Z) (R : bytes) :
  tail_at Data Offset (int_bytes n ++ R) -> tail_at Data (Offset + 4) R.
Proof. intros H. apply (tail_at_step _ _ _ _ H). Qed.

Lemma ReadString_at (Data : bytes) (Offset : Z) (s R : bytes) :
  tail_at Data Offset (string_bytes s ++ R) ->
  size s < 2 ^ 31 ->
  ReadString Data Offset = Normal (s, Offset + 4 + size s).
Proof.
  intros H Hs. pose proof (size_nonneg s).
  unfold string_bytes in H. rewrite <- app_assoc in H.
  unfold ReadString, bind.
  rewrite (ReadInt_at _ _ _ _ H) by lia.
  unfold resize. destruct (Z.ltb_spec (size s) 0); [lia|].
  unfold ret. apply tail_at_int in H.
  apply (ReadStruct_at _ _ _ _ H).
Qed.

Lemma tail_at_string (Data : bytes) (Offset : Z) (s R : bytes) :
  tail_at Data Offset (string_bytes s ++ R) ->
  tail_at Data (Offset + 4 + size s) R.
Proof.
  intros H. unfold string_bytes in H. rewrite <- app_assoc in H.
  apply tail_at_int in H. apply (tail_at_step _ _ _ _ H).
Qed.

(** ** Primitive reads on a truncated input *)


Lemma out_of_buffer (Data : bytes) (Offset Size : Z) :
  size Data - Offset < Size -> in_buffer Data Offset Size = false.
Proof.
  intros H. unfold in_buffer. rewrite !andb_false_iff, !Z.leb_gt. lia.
Qed.

Lemma slice_short (R : bytes) (len : Z) :
  size R <= len -> firstn (Z.to_nat len) R = R.
Proof. intros H. apply firstn_all2. unfold size in H. lia. Qed.

(** C1, as stated, fails: with two bytes left, a four-byte [ReadStruct]
    copies from outside the buffer; with a length prefix of 5 and two bytes
    of payload, the in-memory [ReadString] does the same and the [FILE]
    one returns a five-byte string.  None of them turns the input down. *)
Lemma C1_counterexample :
  ReadStruct [Byte.x61; Byte.x62] 4 0 = Abnormal (OutOfBounds 0 4) /\
  ~ turned_down (ReadStruct [Byte.x61; Byte.x62] 4 0) /\
  ReadString short_string 0 = Abnormal (OutOfBounds 4 5) /\
  ~ turned_down (ReadString short_string 0) /\
  ReadString_FILE short_string 0 =
    Normal ([Byte.x61; Byte.x62; Byte.x00; Byte.x00; Byte.x00], 6) /\
  ~ turned_down (ReadString_FILE short_string 0).
Proof.
  repeat split; try reflexivity; vm_compute; tauto.
Qed.

(** C1, amended: no primitive read compares what it needs with what is
    left.  Over the buffer, [ReadStruct] and [ReadInt] with fewer bytes left
    than they need copy from outside the buffer, and so does [ReadString]
    when the payload is shorter than its length prefix; over the file,
    [ReadString] resizes the string to the prefix, returns normally with the
    bytes that were left followed by NUL bytes, and stops at the end of the
    file. *)
Theorem C1_reads_are_unchecked (Data : bytes) (Offset : Z) :
  (forall Size, size Data - Offset < Size ->
     ReadStruct Data Size Offset = Abnormal (OutOfBounds Offset Size)) /\
  (size Data - Offset < 4 ->
     ReadInt Data Offset = Abnormal (OutOfBounds Offset 4)) /\
  (forall len R,
     tail_at Data Offset (int_bytes len ++ R) ->
     0 <= len < 2 ^ 31 -> size R < len ->
     ReadString Data Offset = Abnormal (OutOfBounds (Offset + 4) len) /\
     ReadString_FILE Data Offset =
       Normal (R ++ repeat Byte.x00 (Z.to_nat len - List.length R),
               size Data)).
Proof.
  split; [|split].
  - intros Size H. unfold ReadStruct. rewrite out_of_buffer by assumption.
    reflexivity.
  - intros H. unfold ReadInt, bind, ReadStruct.
    rewrite out_of_buffer by (unfold sizeof_int; lia). reflexivity.
  - intros len R H Hlen HR.
    pose proof (tail_at_size _ _ _ H) as Hsz.
    rewrite size_app, size_int_bytes in Hsz.
    destruct (tail_at_step _ _ _ _ H) as (Hs & Hb & Ht).
    rewrite size_int_bytes in Hs, Hb, Ht.
    assert (Hneg : (len <? 0) = false) by (apply Z.ltb_ge; lia).
    split.
    + unfold ReadString, bind. rewrite (ReadInt_at _ _ _ _ H) by lia.
      unfold resize. rewrite Hneg. unfold ret, ReadStruct.
      rewrite out_of_buffer by lia. reflexivity.
    + unfold ReadString_FILE, bind, fread_raw. unfold sizeof_int.
      rewrite Hb, Hs, int_of_int_bytes by lia.
      unfold resize. rewrite Hneg. unfold ret, fread_string, bind, fread.
      unfold slice. destruct Ht as [_ Ht]. rewrite Ht.
      rewrite slice_short by lia. unfold ret.
      f_equal. f_equal. lia.
Qed.

Lemma C1_reads_are_unchecked_witness :
  ReadStruct [Byte.x61; Byte.x62] 4 0 = Abnormal (OutOfBounds 0 4) /\
  ReadInt [Byte.x61; Byte.x62] 0 = Abnormal (OutOfBounds 0 4) /\
  ReadString short_string 0 = Abnormal (OutOfBounds (0 + 4) 5) /\
  ReadString_FILE short_string 0 =
    Normal ([Byte.x61; Byte.x62]
              ++ repeat Byte.x00
                   (Z.to_nat 5 - List.length [Byte.x61; Byte.x62]),
            size short_string).
Proof.
  destruct (C1_reads_are_unchecked [Byte.x61; Byte.x62] 0) as (H1 & H2 & _).
  destruct (C1_reads_are_unchecked short_string 0) as (_ & _ & H3).
  split; [apply H1; vm_compute; reflexivity|].
  split; [apply H2; vm_compute; reflexivity|].
  apply (H3 5 [Byte.x61; Byte.x62]).
  - apply tail_at_start.
  - lia.
  - vm_compute; reflexivity.
Defined.

(** ** The version gate *)

(** The guard is false for every value of the version byte. *)
Lemma version_rejected_false (v : Z) : version_rejected v = false.
Proof.
  unfold version_rejected. apply negb_false_iff, orb_true_iff.
  destruct (Z.leb_spec v 5); [left; reflexivity | right].
  apply Z.gtb_lt. lia.
Qed.

(** C2, evaluated: files with the version bytes 3, 0 and 6, all outside the
    supported range, are decoded into a model and nothing is printed; the
    guard of the version check holds for no version at all. *)
Theorem C2_unsupported_version_is_decoded :
  (forall zstd,
     ReadUEFModelData zstd 3
       (scenario_A_file Byte.x03 (lit "Tri") (lit "LOD0") triangle_vertices)
     = Normal
         (mk_reading []
            (Some (scenario_A_model Byte.x03 (lit "Tri") (lit "LOD0")
                     triangle_vertices)))) /\
  (forall zstd,
     ReadUEFModelData zstd 3
       (scenario_A_file Byte.x00 (lit "Tri") (lit "LOD0") triangle_vertices)
     = Normal
         (mk_reading []
            (Some (scenario_A_model Byte.x00 (lit "Tri") (lit "LOD0")
                     triangle_vertices)))) /\
  (forall zstd,
     ReadUEFModelData zstd 3
       (scenario_A_file Byte.x06 (lit "Tri") (lit "LOD0") triangle_vertices)
     = Normal
         (mk_reading []
            (Some (scenario_A_model Byte.x06 (lit "Tri") (lit "LOD0")
                     triangle_vertices)))) /\
  (forall v, version_rejected v = false).
Proof.
  repeat split; try (intros zstd; vm_compute; reflexivity).
  apply version_rejected_false.
Qed.

(** ** The face loop *)

(** When no material starts after the face, the scan ends without a hit
    and the index stays 0: the range of the last material is never
    assigned. *)
Lemma material_scan_no_hit (mats : list FMaterialChunk) (i face_idx : Z) :
  (forall m, In m mats -> FirstIndex m <= face_idx) ->
  material_scan mats i face_idx = 0.
Proof.
  revert i; induction mats as [|m mats IH]; intros i H; simpl.
  - reflexivity.
  - destruct (Z.gtb_spec (FirstIndex m) face_idx) as [Hgt|_].
    + specialize (H m (or_introl eq_refl)). lia.
    + apply IH. intros m' Hin. apply H. right. exact Hin.
Qed.

(** C5, evaluated on scenario D: the eight triangles all get material 0;
    the triangles 5 to 7 do not get material 1. *)
Theorem C5_scenario_D_all_material_0 :
  faces_num scenario_D = 8 /\
  material_indices scenario_D = [0; 0; 0; 0; 0; 0; 0; 0] /\
  material_indices scenario_D <> [0; 0; 0; 0; 0; 1; 1; 1].
Proof.
  split; [reflexivity|]. split; [reflexivity|]. discriminate.
Qed.

(** ** Stepping through the monad *)

Lemma bind_Normal {A B} (c : M A) (k : A -> M B) (Offset Offset' : Z) (a : A) :
  c Offset = Normal (a, Offset') -> bind c k Offset = k a Offset'.
Proof. intros E. unfold bind. rewrite E. reflexivity. Qed.

Lemma bind_Abnormal {A B} (c : M A) (k : A -> M B) (Offset : Z) (f : fault) :
  c Offset = Abnormal f -> bind c k Offset = Abnormal f.
Proof. intros E. unfold bind. rewrite E. reflexivity. Qed.

Lemma run_lift {A} (o : outcome A) (pos : Z) : run (lift o) pos = o.
Proof. unfold run, lift. destruct o; reflexivity. Qed.

Ltac step_with E := rewrite (bind_Normal _ _ _ _ _ E); cbv beta.

(** ** Reads over the [FILE] when the bytes are there *)

Lemma fread_raw_at (File : bytes) (pos : Z) (bs R : bytes) :
  tail_at File pos (bs ++ R) ->
  fread_raw File (size bs) pos = Normal (bs, pos + size bs).
Proof.
  intros H. destruct (tail_at_step _ _ _ _ H) as (Hs & Hb & _).
  unfold fread_raw. rewrite Hb, Hs. reflexivity.
Qed.

Lemma fread_string_at (File : bytes) (pos : Z) (s R : bytes) :
  tail_at File pos (s ++ R) ->
  fread_string File (size s) pos = Normal (s, pos + size s).
Proof.
  intros H. destruct (tail_at_step _ _ _ _ H) as (Hs & _ & _).
  unfold fread_string, bind, fread. rewrite Hs. unfold ret.
  rewrite to_nat_size, Nat.sub_diag. simpl repeat. rewrite app_nil_r.
  reflexivity.
Qed.

Lemma ReadString_FILE_at (File : bytes) (pos : Z) (s R : bytes) :
  tail_at File pos (string_bytes s ++ R) ->
  size s < 2 ^ 31 ->
  ReadString_FILE File pos = Normal (s, pos + 4 + size s).
Proof.
  intros H Hs. pose proof (size_nonneg s).
  unfold string_bytes in H. rewrite <- app_assoc in H.
  unfold ReadString_FILE.
  change sizeof_int with (size (int_bytes (size s))).
  step_with (fread_raw_at _ _ _ _ H).
  rewrite int_of_int_bytes by lia.
  unfold resize. destruct (Z.ltb_spec (size s) 0); [lia|].
  unfold bind at 1. unfold ret at 1.
  apply tail_at_int in H. rewrite size_int_bytes.
  apply (fread_string_at _ _ _ _ H).
Qed.

Lemma ReadChar_FILE_at (File : bytes) (pos : Z) (b : byte) (R : bytes) :
  tail_at File pos (b :: R) ->
  ReadChar_FILE File pos = Normal (int8_of [b], pos + 1).
Proof.
  intros H. unfold ReadChar_FILE.
  change 1 with (size [b]) at 1.
  step_with (fread_raw_at File pos [b] R H). reflexivity.
Qed.

Lemma ReadBool_FILE_false (File : bytes) (pos : Z) (R : bytes) :
  tail_at File pos (Byte.x00 :: R) ->
  ReadBool_FILE File pos = Normal (false, pos + 1).
Proof.
  intros H. unfold ReadBool_FILE.
  change 1 with (size [Byte.x00]) at 1.
  step_with (fread_raw_at File pos [Byte.x00] R H). reflexivity.
Qed.

Lemma ReadBool_FILE_true (File : bytes) (pos : Z) (R : bytes) :
  tail_at File pos (Byte.x01 :: R) ->
  ReadBool_FILE File pos = Normal (true, pos + 1).
Proof.
  intros H. unfold ReadBool_FILE.
  change 1 with (size [Byte.x01]) at 1.
  step_with (fread_raw_at File pos [Byte.x01] R H). reflexivity.
Qed.

Lemma tail_at_byte (Data : bytes) (Offset : Z) (b : byte) (R : bytes) :
  tail_at Data Offset (b :: R) -> tail_at Data (Offset + 1) R.
Proof. intros H. apply (tail_at_step Data Offset [b] R H). Qed.

Lemma tail_at_bytes (Data : bytes) (Offset : Z) (bs R : bytes) :
  tail_at Data Offset (bs ++ R) -> tail_at Data (Offset + size bs) R.
Proof. intros H. apply (tail_at_step _ _ _ _ H). Qed.

(** The rest of the file, as the uncompressed branch reads it. *)
Lemma fread_raw_rest (File : bytes) (pos : Z) (R : bytes) :
  tail_at File pos R ->
  fread_raw File (size File - pos) pos = Normal (R, size File) /\
  size File - pos = size R.
Proof.
  intros H. pose proof (tail_at_size _ _ _ H) as Hs.
  assert (E : size File - pos = size R) by lia.
  split; [|exact E]. rewrite E.
  rewrite <- (app_nil_r R) in H.
  rewrite (fread_raw_at _ _ _ _ H). f_equal. f_equal. lia.
Qed.

(** ** The header of a well-formed file *)

Section Header.

Variable ZSTD_decompress : bytes -> Z -> option bytes.
Variable guard : Z -> bool.
Variables (fuel : nat) (ident name : bytes) (ver : byte).
Hypothesis ident_fits : size ident < 2 ^ 31.
Hypothesis name_fits : size name < 2 ^ 31.
Hypothesis accepted : guard (int8_of [ver]) = false.

Ltac read_header File H :=
  unfold ReadUEFModelData_guarded, run, ReadString_FILE_len;
  pose proof (tail_at_start File) as H;
  unfold File at 2 in H; unfold header_bytes in H;
  rewrite <- ?app_assoc in H;
  step_with (fread_string_at _ _ _ _ H); apply tail_at_bytes in H;
  rewrite bytes_eqb_refl; cbn [negb];
  step_with (ReadString_FILE_at _ _ _ _ H ident_fits);
  apply tail_at_string in H;
  cbn [app] in H;
  step_with (ReadChar_FILE_at _ _ _ _ H); apply tail_at_byte in H;
  rewrite accepted;
  step_with (ReadString_FILE_at _ _ _ _ H name_fits);
  apply tail_at_string in H.

Lemma ReadUEFModelData_uncompressed (payload : bytes) :
  ReadUEFModelData_guarded ZSTD_decompress guard fuel
    (header_bytes ident ver name ++ [Byte.x00] ++ payload)
  = DecodePayload fuel payload (size payload)
      (set_Header FUEModelData_new
         (mk_FUEFormatHeader ident (int8_of [ver]) name false [] None None)).
Proof.
  set (File := header_bytes ident ver name ++ [Byte.x00] ++ payload).
  read_header File H.
  step_with (ReadBool_FILE_false _ _ _ H). apply tail_at_byte in H.
  unfold ReadUncompressed.
  destruct (fread_raw_rest _ _ _ H) as [E Es].
  unfold ReadStruct_FILE. rewrite Es in *.
  step_with E. apply run_lift.
Qed.

Lemma ReadUEFModelData_compressed (ctype cdata rest : bytes) (usize : Z) :
  size ctype < 2 ^ 31 -> 0 <= usize < 2 ^ 31 -> size cdata < 2 ^ 31 ->
  let File :=
    header_bytes ident ver name ++ [Byte.x01] ++ string_bytes ctype
      ++ int_bytes usize ++ int_bytes (size cdata) ++ cdata ++ rest in
  exists pos,
    tail_at File pos (cdata ++ rest) /\
    ReadUEFModelData_guarded ZSTD_decompress guard fuel File
    = run (ReadCompressed ZSTD_decompress fuel File
             (set_Header FUEModelData_new
                (mk_FUEFormatHeader ident (int8_of [ver]) name true ctype
                   (Some (size cdata)) (Some usize)))
             ctype usize (size cdata)) pos.
Proof.
  intros Hc Hu Hd File. pose proof (size_nonneg cdata) as Hd0.
  read_header File H.
  step_with (ReadBool_FILE_true _ _ _ H). apply tail_at_byte in H.
  step_with (ReadString_FILE_at _ _ _ _ H Hc). apply tail_at_string in H.
  unfold ReadStruct_FILE.
  change sizeof_int with (size (int_bytes usize)) at 1.
  step_with (fread_raw_at _ _ _ _ H). apply tail_at_int in H.
  rewrite size_int_bytes.
  change sizeof_int with (size (int_bytes (size cdata))) at 1.
  step_with (fread_raw_at _ _ _ _ H). apply tail_at_int in H.
  rewrite size_int_bytes.
  rewrite (int_of_int_bytes usize) by lia.
  rewrite (int_of_int_bytes (size cdata)) by lia.
  eexists. split; [exact H | reflexivity].
Qed.

End Header.

(** The compressed branch once the compressed bytes are in hand. *)
Lemma ReadCompressed_at (zstd : bytes -> Z -> option bytes) (fuel : nat)
    (File : bytes) (d : FUEModelData) (ctype cdata rest : bytes)
    (usize pos : Z) :
  tail_at File pos (cdata ++ rest) -> 0 <= usize ->
  run (ReadCompressed zstd fuel File d ctype usize (size cdata)) pos
  = if bytes_eqb ctype (lit "ZSTD") then
      match zstd cdata usize with
      | Some out =>
          if negb (size out =? usize)
          then Normal (mk_reading ["Failed to decompress data\n"%string] None)
          else DecodePayload fuel out usize d
      | None => Normal (mk_reading ["Failed to decompress data\n"%string] None)
      end
    else Normal (mk_reading ["Unsupported compression type\n"%string] None).
Proof.
  intros H Hu. pose proof (size_nonneg cdata) as Hd.
  unfold ReadCompressed, run, new_array, resize.
  destruct (Z.ltb_spec usize 0); [lia|].
  destruct (Z.ltb_spec (size cdata) 0); [lia|].
  unfold bind at 1. unfold ret at 1. unfold bind at 1. unfold ret at 1.
  unfold ReadStruct_FILE. step_with (fread_raw_at _ _ _ _ H).
  destruct (bytes_eqb ctype (lit "ZSTD")); [|reflexivity].
  destruct (zstd cdata usize) as [out|]; [|reflexivity].
  destruct (negb (size out =? usize)); [reflexivity|].
  unfold lift. destruct (DecodePayload fuel out usize d); reflexivity.
Qed.

(** What the reader does with a well-formed compressed file. *)
Lemma compressed_file_result (zstd : bytes -> Z -> option bytes)
    (guard : Z -> bool) (fuel : nat) (ident name ctype cdata rest : bytes)
    (ver : byte) (usize : Z) :
  size ident < 2 ^ 31 -> size name < 2 ^ 31 -> size ctype < 2 ^ 31 ->
  size cdata < 2 ^ 31 -> 0 <= usize < 2 ^ 31 ->
  guard (int8_of [ver]) = false ->
  ReadUEFModelData_guarded zstd guard fuel
    (header_bytes ident ver name ++ [Byte.x01] ++ string_bytes ctype
       ++ int_bytes usize ++ int_bytes (size cdata) ++ cdata ++ rest)
  = if bytes_eqb ctype (lit "ZSTD") then
      match zstd cdata usize with
      | Some out =>
          if negb (size out =? usize)
          then Normal (mk_reading ["Failed to decompress data\n"%string] None)
          else
            DecodePayload fuel out usize
              (set_Header FUEModelData_new
                 (mk_FUEFormatHeader ident (int8_of [ver]) name true ctype
                    (Some (size cdata)) (Some usize)))
      | None => Normal (mk_reading ["Failed to decompress data\n"%string] None)
      end
    else Normal (mk_reading ["Unsupported compression type\n"%string] None).
Proof.
  intros Hi Hn Hc Hd Hu Hg.
  destruct (ReadUEFModelData_compressed zstd guard fuel ident name ver
              Hi Hn Hg ctype cdata rest usize Hc Hu Hd) as (pos & Ht & E).
  rewrite E. apply (ReadCompressed_at _ _ _ _ _ _ _ _ _ Ht). lia.
Qed.

Lemma size_mismatch (out : bytes) (usize : Z) :
  size out <> usize -> negb (size out =? usize) = true.
Proof. intros H. apply negb_true_iff, Z.eqb_neq. exact H. Qed.

(** A ZSTD payload for which the service does not deliver the declared
    number of bytes, and a payload with another compression name. *)
Lemma compressed_file_rejected (zstd : bytes -> Z -> option bytes)
    (guard : Z -> bool) (fuel : nat) (ident name ctype cdata rest : bytes)
    (ver : byte) (usize : Z) :
  size ident < 2 ^ 31 -> size name < 2 ^ 31 -> size ctype < 2 ^ 31 ->
  size cdata < 2 ^ 31 -> 0 <= usize < 2 ^ 31 ->
  guard (int8_of [ver]) = false ->
  let File :=
    header_bytes ident ver name ++ [Byte.x01] ++ string_bytes ctype
      ++ int_bytes usize ++ int_bytes (size cdata) ++ cdata ++ rest in
  (ctype = lit "ZSTD" ->
   (forall out, zstd cdata usize = Some out -> size out <> usize) ->
   ReadUEFModelData_guarded zstd guard fuel File
   = Normal (mk_reading ["Failed to decompress data\n"%string] None)) /\
  (ctype <> lit "ZSTD" ->
   ReadUEFModelData_guarded zstd guard fuel File
   = Normal (mk_reading ["Unsupported compression type\n"%string] None)).
Proof.
  intros Hi Hn Hc Hd Hu Hg File. unfold File.
  rewrite (compressed_file_result zstd guard fuel ident name ctype cdata rest
             ver usize Hi Hn Hc Hd Hu Hg).
  split.
  - intros -> Hout. rewrite bytes_eqb_refl.
    destruct (zstd cdata usize) as [out|]; [|reflexivity].
    rewrite (size_mismatch _ _ (Hout out eq_refl)). reflexivity.
  - intros Hne. rewrite (bytes_eqb_neq _ _ Hne). reflexivity.
Qed.

(** ** Decompression failures *)

(** C8: for a compressed file with a well-formed header, a ZSTD payload for
    which the service does not deliver exactly the declared uncompressed
    size (another byte count, or an error) ends in a null pointer after
    "Failed to decompress data", the size-mismatch failure; any other
    compression name ends in a null pointer after "Unsupported compression
    type".  No model is returned in either case. *)
Theorem C8_decompression_failures (zstd : bytes -> Z -> option bytes)
    (fuel : nat) (ident name ctype cdata rest : bytes) (ver : byte)
    (usize : Z) :
  size ident < 2 ^ 31 -> size name < 2 ^ 31 -> size ctype < 2 ^ 31 ->
  size cdata < 2 ^ 31 -> 0 <= usize < 2 ^ 31 ->
  let File :=
    header_bytes ident ver name ++ [Byte.x01] ++ string_bytes ctype
      ++ int_bytes usize ++ int_bytes (size cdata) ++ cdata ++ rest in
  (ctype = lit "ZSTD" ->
   (forall out, zstd cdata usize = Some out -> size out <> usize) ->
   exists r,
     ReadUEFModelData zstd fuel File = Normal r /\
     returned r = None /\
     printed r = ["Failed to decompress data\n"%string] /\
     failure_of r = Some DecompressionSizeMismatch) /\
  (ctype <> lit "ZSTD" ->
   exists r,
     ReadUEFModelData zstd fuel File = Normal r /\
     returned r = None /\
     printed r = ["Unsupported compression type\n"%string] /\
     failure_of r = Some UnsupportedCompression).
Proof.
  intros Hi Hn Hc Hd Hu File.
  destruct (compressed_file_rejected zstd version_rejected fuel ident name
              ctype cdata rest ver usize Hi Hn Hc Hd Hu
              (version_rejected_false _)) as [Hz Ho].
  split.
  - intros Ht Hout. eexists. split; [exact (Hz Ht Hout)|].
    repeat split; reflexivity.
  - intros Ht. eexists. split; [exact (Ho Ht)|].
    repeat split; reflexivity.
Qed.

(** Scenario B, and the same file with the compression name "LZ4". *)
Lemma C8_decompression_failures_witness :
  (exists r,
     ReadUEFModelData service_90 3 scenario_B_file = Normal r /\
     returned r = None /\
     printed r = ["Failed to decompress data\n"%string] /\
     failure_of r = Some DecompressionSizeMismatch) /\
  (exists r,
     ReadUEFModelData service_90 3 unknown_compression_file = Normal r /\
     returned r = None /\
     printed r = ["Unsupported compression type\n"%string] /\
     failure_of r = Some UnsupportedCompression).
Proof.
  split.
  - apply (C8_decompression_failures service_90 3 (lit "UEMODEL") (lit "Tri")
             (lit "ZSTD") [Byte.x28; Byte.xb5; Byte.x2f; Byte.xfd] []
             Byte.x04 100);
      try (vm_compute; reflexivity); try lia; try reflexivity.
    intros out E. injection E as <-. vm_compute. discriminate.
  - apply (C8_decompression_failures service_90 3 (lit "UEMODEL") (lit "Tri")
             (lit "LZ4") [Byte.x28; Byte.xb5; Byte.x2f; Byte.xfd] []
             Byte.x04 100);
      try (vm_compute; reflexivity); try lia.
    vm_compute. discriminate.
Defined.

(** ** The failure modes at the interface *)

(** Eight bytes read into a NUL-filled string equal the magic only when the
    file starts with the magic. *)
Lemma padded_magic (File : bytes) :
  firstn 8 File
    ++ repeat Byte.x00 (8 - List.length (firstn 8 File)) = UEF_MAGIC ->
  firstn 8 File = UEF_MAGIC.
Proof.
  destruct File as [|b0 [|b1 [|b2 [|b3 [|b4 [|b5 [|b6 [|b7 File]]]]]]]];
    cbn; intros E; try (exact E); exfalso; revert E; unfold UEF_MAGIC;
    cbn; congruence.
Qed.

Lemma bad_magic (zstd : bytes -> Z -> option bytes) (guard : Z -> bool)
    (fuel : nat) (File : bytes) :
  firstn 8 File <> UEF_MAGIC ->
  ReadUEFModelData_guarded zstd guard fuel File
  = Normal (mk_reading [] (Some FUEModelData_new)).
Proof.
  intros Hne.
  unfold ReadUEFModelData_guarded, run, ReadString_FILE_len, fread_string.
  unfold bind at 1. unfold bind at 1. unfold fread, slice.
  change (Z.to_nat (size UEF_MAGIC)) with 8%nat.
  change (skipn (Z.to_nat 0) File) with File.
  unfold ret at 1.
  rewrite bytes_eqb_neq; [reflexivity|].
  intros E. apply Hne, padded_magic, E.
Qed.

(** C9, evaluated: a file whose magic reads "XEFORMAT" is answered with a
    pointer to the freshly constructed model and no message, whatever
    follows the eight bytes; the rest of the file is not read. *)
Theorem C9_bad_magic_returns_a_model :
  (forall zstd fuel,
     ReadUEFModelData zstd fuel bad_magic_file
     = Normal (mk_reading [] (Some FUEModelData_new))) /\
  (forall zstd fuel rest,
     ReadUEFModelData zstd fuel (lit "XEFORMAT" ++ rest)
     = Normal (mk_reading [] (Some FUEModelData_new))).
Proof.
  split.
  - intros zstd fuel. vm_compute. reflexivity.
  - intros zstd fuel rest. apply bad_magic. cbn. discriminate.
Qed.

(** A rejected version ends in a null pointer, whatever the guard is. *)
Lemma guarded_version (zstd : bytes -> Z -> option bytes) (guard : Z -> bool)
    (fuel : nat) (ident rest : bytes) (ver : byte) :
  size ident < 2 ^ 31 -> guard (int8_of [ver]) = true ->
  ReadUEFModelData_guarded zstd guard fuel
    (UEF_MAGIC ++ string_bytes ident ++ [ver] ++ rest)
  = Normal (mk_reading ["too old or too new file version\n"%string] None).
Proof.
  intros Hi Hg.
  set (File := UEF_MAGIC ++ string_bytes ident ++ [ver] ++ rest).
  unfold ReadUEFModelData_guarded, run, ReadString_FILE_len.
  pose proof (tail_at_start File) as H. unfold File at 2 in H.
  step_with (fread_string_at _ _ _ _ H). apply tail_at_bytes in H.
  rewrite bytes_eqb_refl. cbn [negb].
  step_with (ReadString_FILE_at _ _ _ _ H Hi). apply tail_at_string in H.
  cbn [app] in H.
  step_with (ReadChar_FILE_at _ _ _ _ H).
  rewrite Hg. reflexivity.
Qed.

Lemma empty_model_read (zstd : bytes -> Z -> option bytes) (fuel : nat) :
  ReadUEFModelData zstd fuel empty_model_file
  = Normal
      (mk_reading []
         (Some
            (set_Header FUEModelData_new
               (mk_FUEFormatHeader (lit "UEMODEL") 4 (lit "Tri") false []
                  None None)))).
Proof.
  unfold ReadUEFModelData, empty_model_file.
  change [Byte.x00] with ([Byte.x00] ++ @nil byte).
  rewrite ReadUEFModelData_uncompressed
    by first [apply version_rejected_false | vm_compute; reflexivity].
  destruct fuel; reflexivity.
Qed.

(** C10: the failure modes are not uniform.  A file that does not start
    with the magic gets a non-null pointer to the freshly constructed model
    (zeroed header, no LOD); a file that cannot be opened, a version the
    guard rejects (stated for any guard), a ZSTD payload of the wrong size
    and an unknown compression name all get a null pointer.  A valid file
    without sections gets a non-null model without LODs as well, so the
    pointer alone does not tell the two apart. *)
Theorem C10_failure_modes_differ (zstd : bytes -> Z -> option bytes)
    (fuel : nat) :
  (forall File,
     firstn 8 File <> UEF_MAGIC ->
     ReadUEFModelData zstd fuel File
     = Normal (mk_reading [] (Some FUEModelData_new))) /\
  (forall files FilePath,
     files FilePath = None ->
     exists r,
       ReadUEFModelData_path zstd fuel files FilePath = Normal r /\
       returned r = None) /\
  (forall guard ident ver rest,
     size ident < 2 ^ 31 -> guard (int8_of [ver]) = true ->
     exists r,
       ReadUEFModelData_guarded zstd guard fuel
         (UEF_MAGIC ++ string_bytes ident ++ [ver] ++ rest) = Normal r /\
       returned r = None) /\
  (forall ident name ctype cdata rest ver usize,
     size ident < 2 ^ 31 -> size name < 2 ^ 31 -> size ctype < 2 ^ 31 ->
     size cdata < 2 ^ 31 -> 0 <= usize < 2 ^ 31 ->
     (ctype = lit "ZSTD" ->
      forall out, zstd cdata usize = Some out -> size out <> usize) ->
     exists r,
       ReadUEFModelData zstd fuel
         (header_bytes ident ver name ++ [Byte.x01] ++ string_bytes ctype
            ++ int_bytes usize ++ int_bytes (size cdata) ++ cdata ++ rest)
       = Normal r /\
       returned r = None) /\
  (exists m,
     ReadUEFModelData zstd fuel empty_model_file
     = Normal (mk_reading [] (Some m)) /\
     LODs m = [] /\ LODs FUEModelData_new = []).
Proof.
  split; [|split; [|split; [|split]]].
  - intros File Hne. apply bad_magic, Hne.
  - intros files FilePath Hf. unfold ReadUEFModelData_path. rewrite Hf.
    eexists. split; reflexivity.
  - intros guard ident ver rest Hi Hg.
    rewrite (guarded_version zstd guard fuel ident rest ver Hi Hg).
    eexists. split; reflexivity.
  - intros ident name ctype cdata rest ver usize Hi Hn Hc Hd Hu Hout.
    destruct (compressed_file_rejected zstd version_rejected fuel ident name
                ctype cdata rest ver usize Hi Hn Hc Hd Hu
                (version_rejected_false _)) as [Hz Ho].
    unfold ReadUEFModelData.
    destruct (list_eq_dec Byte.byte_eq_dec ctype (lit "ZSTD")) as [E|E].
    + rewrite (Hz E (Hout E)). eexists. split; reflexivity.
    + rewrite (Ho E). eexists. split; reflexivity.
  - eexists. split; [apply empty_model_read|]. split; reflexivity.
Qed.

Lemma C10_failure_modes_differ_witness :
  ReadUEFModelData service_90 3 bad_magic_file
  = Normal (mk_reading [] (Some FUEModelData_new)) /\
  (exists r,
     ReadUEFModelData_path service_90 3 (fun _ => None) "missing.uemodel"
     = Normal r /\ returned r = None) /\
  (exists r,
     ReadUEFModelData_guarded service_90 (fun v => negb (v =? 4)) 3
       (UEF_MAGIC ++ string_bytes (lit "UEMODEL") ++ [Byte.x07] ++ [])
     = Normal r /\ returned r = None) /\
  (exists r,
     ReadUEFModelData service_90 3 scenario_B_file = Normal r /\
     returned r = None).
Proof.
  destruct (C10_failure_modes_differ service_90 3) as (H1 & H2 & H3 & H4 & _).
  split; [|split; [|split]].
  - apply H1. vm_compute. discriminate.
  - apply H2. reflexivity.
  - apply H3; vm_compute; reflexivity.
  - apply (H4 (lit "UEMODEL") (lit "Tri") (lit "ZSTD")
             [Byte.x28; Byte.xb5; Byte.x2f; Byte.xfd] [] Byte.x04 100);
      try (vm_compute; reflexivity); try lia.
    intros _ out E. injection E as <-. vm_compute. discriminate.
Defined.

(** ** One chunk *)

(** Comparisons between two literal tags are decided by evaluation. *)
Ltac eval_tags :=
  repeat match goal with
  | |- context [bytes_eqb (lit ?a) (lit ?b)] =>
      let v := eval vm_compute in (bytes_eqb (lit a) (lit b)) in
      change (bytes_eqb (lit a) (lit b)) with v
  end;
  cbv iota.

Lemma skipped_cases (tag : bytes) :
  skipped tag = true ->
  tag = lit "TANGENTS" \/ existsb (bytes_eqb tag) chunk_tags = false.
Proof.
  unfold skipped. intros H. apply orb_true_iff in H as [H|H].
  - left. apply bytes_eqb_eq, H.
  - right. apply negb_true_iff, H.
Qed.

Lemma skip_payload (Data : bytes) (lod : FLODData) (tag : bytes)
    (Num DataSize p : Z) :
  skipped tag = true ->
  ReadChunkPayload Data lod tag Num DataSize p = Normal (lod, p + DataSize).
Proof.
  intros H. apply skipped_cases in H as [-> | H].
  - unfold ReadChunkPayload. eval_tags. reflexivity.
  - unfold chunk_tags in H. cbn [existsb] in H.
    repeat (apply orb_false_iff in H; destruct H as [?E H]).
    unfold ReadChunkPayload.
    rewrite E, E0, E1, E2, E3, E4, E5, E6, E7. reflexivity.
Qed.

Lemma decoded_payload_ignores_byte_length (Data : bytes) (lod : FLODData)
    (tag : bytes) (Num DataSize DataSize' p : Z) :
  skipped tag = false ->
  ReadChunkPayload Data lod tag Num DataSize' p
  = ReadChunkPayload Data lod tag Num DataSize p.
Proof.
  unfold skipped, chunk_tags. cbn [existsb]. intros H.
  unfold ReadChunkPayload.
  repeat match goal with
  | |- context [bytes_eqb tag ?t] =>
      let E := fresh "E" in
      destruct (bytes_eqb tag t) eqn:E; rewrite ?E in H;
      try reflexivity; try (cbn in H; discriminate H)
  end.
Qed.

Lemma flat_tag_cases (tag : bytes) (sz : Z) :
  flat_element_size tag = Some sz ->
  (tag = lit "VERTICES" /\ sz = sizeof_float3) \/
  (tag = lit "INDICES" /\ sz = sizeof_int) \/
  (tag = lit "NORMALS" /\ sz = sizeof_float4) \/
  (tag = lit "WEIGHTS" /\ sz = sizeof_FWeightChunk).
Proof.
  unfold flat_element_size.
  repeat match goal with
  | |- context [bytes_eqb tag ?t] =>
      let E := fresh "E" in
      destruct (bytes_eqb tag t) eqn:E;
      [apply bytes_eqb_eq in E; intros [= <-]; tauto|]
  end.
  discriminate.
Qed.

Lemma ReadArray_in_buffer {A} (Data : bytes) (sizeof : Z)
    (of_bytes : bytes -> A) (Num p : Z) :
  0 <= Num -> in_buffer Data p (Num * sizeof) = true ->
  ReadArray Data sizeof of_bytes Num p
  = Normal (map of_bytes
              (elements (Z.to_nat sizeof) (Z.to_nat Num)
                 (slice Data p (Num * sizeof))),
            p + Num * sizeof).
Proof.
  intros HN Hb. unfold ReadArray, resize.
  destruct (Z.ltb_spec Num 0); [lia|].
  unfold bind at 1. unfold ret at 1.
  unfold bind, ReadStruct. rewrite Hb. reflexivity.
Qed.

Lemma flat_payload (Data : bytes) (lod : FLODData) (tag : bytes)
    (Num DataSize p sz : Z) :
  flat_element_size tag = Some sz ->
  0 <= Num -> in_buffer Data p (Num * sz) = true ->
  exists lod',
    ReadChunkPayload Data lod tag Num DataSize p
    = Normal (lod', p + Num * sz).
Proof.
  intros Hf HN Hb.
  destruct (flat_tag_cases _ _ Hf) as [[-> ->]|[[-> ->]|[[-> ->]|[-> ->]]]];
    unfold ReadChunkPayload; eval_tags;
    unfold bind at 1; rewrite (ReadArray_in_buffer _ _ _ _ _ HN Hb);
    eexists; reflexivity.
Qed.

(** C3, as stated, fails: a VERTICES chunk of one element that declares
    100 bytes, all present, leaves the cursor 12 bytes after the start of
    its payload at 20, not 100 bytes after it. *)
Lemma C3_counterexample :
  (exists lod',
     ReadChunk misdeclared_chunk FLODData_default 0 = Normal (lod', 20 + 12)) /\
  ~ advances_by_byte_length misdeclared_chunk FLODData_default 0.
Proof.
  split; [eexists; vm_compute; reflexivity|].
  intros H.
  destruct (H (lit "VERTICES") 12 1 16 100 20) as [lod' E];
    try (vm_compute; reflexivity).
  vm_compute in E. discriminate E.
Qed.

(** ** Chunks that are stepped over *)

Lemma ReadChunk_header (Data : bytes) (lod : FLODData) (tag : bytes)
    (start p1 Num p2 DataSize payload : Z) :
  ReadString Data start = Normal (tag, p1) ->
  ReadInt Data p1 = Normal (Num, p2) ->
  ReadInt Data p2 = Normal (DataSize, payload) ->
  ReadChunk Data lod start = ReadChunkPayload Data lod tag Num DataSize payload.
Proof.
  intros E1 E2 E3. unfold ReadChunk.
  step_with E1. step_with E2. step_with E3. reflexivity.
Qed.

Lemma ReadLodChunks_step (fuel : nat) (Data : bytes) (limit : Z)
    (lod : FLODData) (LodsOffset : Z) :
  LodsOffset < limit ->
  ReadLodChunks (S fuel) Data limit lod LodsOffset
  = bind (ReadChunk Data lod) (fun lod' => ReadLodChunks fuel Data limit lod')
      LodsOffset.
Proof.
  intros H. cbn [ReadLodChunks].
  destruct (Z.ltb_spec LodsOffset limit); [reflexivity | lia].
Qed.

Lemma ReadLodChunks_done (fuel : nat) (Data : bytes) (limit : Z)
    (lod : FLODData) (LodsOffset : Z) :
  limit <= LodsOffset ->
  ReadLodChunks fuel Data limit lod LodsOffset = Normal (lod, LodsOffset).
Proof.
  intros H. destruct fuel; cbn [ReadLodChunks];
    destruct (Z.ltb_spec LodsOffset limit); try reflexivity; lia.
Qed.

(** ** Declared lengths against consumed bytes *)

Lemma bind_inv {A B} (c : M A) (k : A -> M B) (Offset : Z) (x : B * Z) :
  bind c k Offset = Normal x ->
  exists a Offset', c Offset = Normal (a, Offset') /\ k a Offset' = Normal x.
Proof.
  unfold bind. destruct (c Offset) as [[a Offset']| |]; try discriminate.
  intros E. exists a, Offset'. split; [reflexivity | exact E].
Qed.

Lemma DecodePayload_returns (fuel : nat) (Data : bytes) (n : Z)
    (d : FUEModelData) (r : reading) :
  DecodePayload fuel Data n d = Normal r ->
  printed r = [] /\ returned r <> None.
Proof.
  unfold DecodePayload, run.
  destruct (bytes_eqb (Identifier (Header d)) (lit "UEMODEL")).
  - destruct (bind _ _ 0) as [[r' p]| |] eqn:E; try discriminate.
    intros [= <-]. apply bind_inv in E as (d' & p' & _ & E).
    injection E as <- _. split; [reflexivity | discriminate].
  - intros [= <-]. split; [reflexivity | discriminate].
Qed.

Lemma lift_DecodePayload (fuel : nat) (Data : bytes) (n : Z)
    (d : FUEModelData) (pos : Z) (x : reading * Z) :
  lift (DecodePayload fuel Data n d) pos = Normal x ->
  returned (fst x) <> None.
Proof.
  unfold lift. destruct (DecodePayload fuel Data n d) as [r| |] eqn:E;
    try discriminate.
  intros [= <-]. apply (DecodePayload_returns _ _ _ _ _ E).
Qed.

(** A null pointer only ever follows one of the two messages of the
    compressed branch. *)
Lemma null_return_cases (zstd : bytes -> Z -> option bytes) (fuel : nat)
    (File : bytes) (r : reading) :
  ReadUEFModelData zstd fuel File = Normal r ->
  returned r = None ->
  printed r = ["Failed to decompress data\n"%string] \/
  printed r = ["Unsupported compression type\n"%string].
Proof.
  unfold ReadUEFModelData, ReadUEFModelData_guarded, run.
  destruct (bind _ _ 0) as [[r' p]| |] eqn:E; try discriminate.
  intros [= <-] Hnull.
  apply bind_inv in E as (Magic & p1 & _ & E).
  destruct (negb (bytes_eqb Magic UEF_MAGIC)).
  { injection E as <- _. discriminate Hnull. }
  apply bind_inv in E as (Identifier & p2 & _ & E).
  apply bind_inv in E as (ver & p3 & _ & E).
  rewrite version_rejected_false in E.
  apply bind_inv in E as (ObjectName & p4 & _ & E).
  apply bind_inv in E as ([|] & p5 & _ & E).
  - apply bind_inv in E as (ctype & p6 & _ & E).
    apply bind_inv in E as (usize & p7 & _ & E).
    apply bind_inv in E as (csize & p8 & _ & E).
    unfold ReadCompressed in E.
    apply bind_inv in E as (? & p9 & _ & E).
    apply bind_inv in E as (? & p10 & _ & E).
    apply bind_inv in E as (cdata & p11 & _ & E).
    destruct (bytes_eqb ctype (lit "ZSTD")).
    + destruct (zstd cdata (int_of usize)) as [out|].
      * destruct (negb (size out =? int_of usize)).
        -- injection E as <- _. left. reflexivity.
        -- apply lift_DecodePayload in E. contradiction.
      * injection E as <- _. left. reflexivity.
    + injection E as <- _. right. reflexivity.
  - unfold ReadUncompressed in E.
    apply bind_inv in E as (payload & p6 & _ & E).
    apply lift_DecodePayload in E. contradiction.
Qed.

Lemma ReadModel_done (fuel : nat) (Data : bytes) (DecompressedSize : Z)
    (d : FUEModelData) (Offset : Z) :
  DecompressedSize <= Offset ->
  ReadModel fuel Data DecompressedSize d Offset = Normal (d, Offset).
Proof.
  intros H. unfold ReadModel. destruct fuel; cbn [ReadModel_loop];
    destruct (Z.ltb_spec Offset DecompressedSize); try reflexivity; lia.
Qed.

Lemma ReadLod_cursor (fuel : nat) (Data : bytes) (lod lod' : FLODData)
    (Offset Offset' : Z) :
  ReadLod fuel Data lod Offset = Normal (lod', Offset') ->
  exists Name p1 LodsSize p2,
    ReadString Data Offset = Normal (Name, p1) /\
    ReadInt Data p1 = Normal (LodsSize, p2) /\
    Offset' = p2 + LodsSize.
Proof.
  unfold ReadLod. intros E.
  apply bind_inv in E as (Name & p1 & E1 & E).
  apply bind_inv in E as (LodsSize & p2 & E2 & E).
  exists Name, p1, LodsSize, p2. split; [exact E1|]. split; [exact E2|].
  destruct (ReadLodChunks fuel Data (p2 + LodsSize) (set_LODName lod Name) p2)
    as [[l q]| |]; try discriminate.
  injection E as _ <-. reflexivity.
Qed.

(** C4, as stated, fails.  In the first file the LOD declares a region of
    32 bytes, the VERTICES decode reads 12 bytes past its end (the second
    vertex is the header of the next section) and the chunk loop stops 12
    bytes after the region; in the second file a section declares 100 bytes
    where none is left and the cursor ends 100 bytes after the buffer.  Both
    files are decoded into a model and no failure is reported. *)
Lemma C4_counterexample :
  (exists m,
     ReadUEFModelData no_service 3 overshoot_lod_file
     = Normal (mk_reading [] (Some m)) /\
     map Vertices (LODs m)
     = [[mk_float3 1065353216 1065353216 1065353216; mk_float3 0 0 0]]) /\
  ~ reports no_service 3 overshoot_lod_file MalformedLOD /\
  (exists lod',
     ReadLodChunks 3 overshoot_lod_payload (28 + 32) FLODData_default 28
     = Normal (lod', 28 + 32 + 12)) /\
  (exists m,
     ReadUEFModelData no_service 3 overshoot_section_file
     = Normal (mk_reading [] (Some m)) /\ LODs m = []) /\
  ~ reports no_service 3 overshoot_section_file MalformedModel /\
  ReadModel 3 (chunk_bytes (lit "SKELETON") 0 100 []) 20 FUEModelData_new 0
  = Normal (FUEModelData_new, 20 + 100).
Proof.
  split; [eexists; split; vm_compute; reflexivity|].
  split; [intros (r & E & F); vm_compute in E; injection E as <-;
          discriminate F|].
  split; [eexists; vm_compute; reflexivity|].
  split; [eexists; split; vm_compute; reflexivity|].
  split; [intros (r & E & F); vm_compute in E; injection E as <-;
          discriminate F|].
  vm_compute. reflexivity.
Qed.

(** C4, amended: the reader compares no declared length with the bytes it
    consumed and reports no malformed chunk, LOD or model: a null pointer
    only follows one of the two messages of the compressed branch.  The
    chunk loop of an LOD stops at the first chunk boundary at or past the
    declared end of the region, the cursor after an LOD is the start of its
    region plus the declared length wherever the chunk loop stopped, and the
    section loop stops as soon as the cursor is at or past the end of the
    buffer. *)
Theorem C4_no_length_check (fuel : nat) (Data : bytes) :
  (forall zstd File r,
     ReadUEFModelData zstd fuel File = Normal r ->
     returned r = None ->
     printed r = ["Failed to decompress data\n"%string] \/
     printed r = ["Unsupported compression type\n"%string]) /\
  (forall limit lod LodsOffset,
     limit <= LodsOffset ->
     ReadLodChunks fuel Data limit lod LodsOffset = Normal (lod, LodsOffset)) /\
  (forall lod lod' Offset Offset',
     ReadLod fuel Data lod Offset = Normal (lod', Offset') ->
     exists Name p1 LodsSize p2,
       ReadString Data Offset = Normal (Name, p1) /\
       ReadInt Data p1 = Normal (LodsSize, p2) /\
       Offset' = p2 + LodsSize) /\
  (forall DecompressedSize d Offset,
     DecompressedSize <= Offset ->
     ReadModel fuel Data DecompressedSize d Offset = Normal (d, Offset)).
Proof.
  split; [|split; [|split]].
  - intros zstd File r. apply null_return_cases.
  - intros limit lod LodsOffset. apply ReadLodChunks_done.
  - intros lod lod' Offset Offset'. apply ReadLod_cursor.
  - intros DecompressedSize d Offset. apply ReadModel_done.
Qed.

Lemma C4_no_length_check_witness :
  (printed (mk_reading ["Failed to decompress data\n"%string] None)
   = ["Failed to decompress data\n"%string] \/
   printed (mk_reading ["Failed to decompress data\n"%string] None)
   = ["Unsupported compression type\n"%string]) /\
  ReadLodChunks 3 overshoot_lod_payload (28 + 32) FLODData_default 72
  = Normal (FLODData_default, 72) /\
  (exists Name p1 LodsSize p2,
     ReadString overshoot_lod_payload 16 = Normal (Name, p1) /\
     ReadInt overshoot_lod_payload p1 = Normal (LodsSize, p2) /\
     60 = p2 + LodsSize) /\
  ReadModel 3 overshoot_lod_payload 72 FUEModelData_new 72
  = Normal (FUEModelData_new, 72).
Proof.
  destruct (C4_no_length_check 3 overshoot_lod_payload)
    as (H1 & H2 & H3 & H4).
  split; [|split; [|split]].
  - apply (H1 service_90 scenario_B_file); vm_compute; reflexivity.
  - apply H2. lia.
  - apply (H3 FLODData_default
             (mk_FLODData (lit "LOD0")
                [mk_float3 1065353216 1065353216 1065353216;
                 mk_float3 0 0 0] [] [] [] [] [] [] [] []) 16 60).
    vm_compute. reflexivity.
  - apply H4. lia.
Defined.

(** ** Decoding well-formed chunks *)

Lemma ReadArray_at {A} (Data : bytes) (sizeof : Z) (of_bytes : bytes -> A)
    (Num Offset : Z) (bs R : bytes) :
  tail_at Data Offset (bs ++ R) -> 0 <= Num -> size bs = Num * sizeof ->
  ReadArray Data sizeof of_bytes Num Offset
  = Normal (map of_bytes (elements (Z.to_nat sizeof) (Z.to_nat Num) bs),
            Offset + size bs).
Proof.
  intros H HN Hs. unfold ReadArray, resize.
  destruct (Z.ltb_spec Num 0); [lia|].
  unfold bind at 1. unfold ret at 1. rewrite <- Hs.
  step_with (ReadStruct_at _ _ _ _ H). reflexivity.
Qed.

Ltac size_lits :=
  repeat match goal with
  | |- context [size (lit ?s)] =>
      let v := eval vm_compute in (size (lit s)) in
      change (size (lit s)) with v
  end.

(** The header of a chunk or a section, read from its bytes. *)
Lemma chunk_header_at (Data : bytes) (Offset : Z) (tag : bytes)
    (Num DataSize : Z) (R : bytes) :
  tail_at Data Offset (chunk_bytes tag Num DataSize R) ->
  size tag < 2 ^ 31 ->
  - 2 ^ 31 <= Num < 2 ^ 31 -> - 2 ^ 31 <= DataSize < 2 ^ 31 ->
  ReadString Data Offset = Normal (tag, Offset + 4 + size tag) /\
  ReadInt Data (Offset + 4 + size tag)
  = Normal (Num, Offset + 4 + size tag + 4) /\
  ReadInt Data (Offset + 4 + size tag + 4)
  = Normal (DataSize, Offset + 4 + size tag + 4 + 4) /\
  tail_at Data (Offset + 4 + size tag + 4 + 4) R.
Proof.
  intros H Ht HN HD. unfold chunk_bytes in H.
  split; [apply (ReadString_at _ _ _ _ H Ht)|]. apply tail_at_string in H.
  split; [apply (ReadInt_at _ _ _ _ H HN)|]. apply tail_at_int in H.
  split; [apply (ReadInt_at _ _ _ _ H HD)|]. apply tail_at_int in H.
  exact H.
Qed.

Lemma ReadChunk_VERTICES (Data : bytes) (lod : FLODData) (Offset : Z)
    (Num DataSize : Z) (verts R : bytes) :
  tail_at Data Offset (chunk_bytes (lit "VERTICES") Num DataSize (verts ++ R)) ->
  0 <= Num < 2 ^ 31 -> - 2 ^ 31 <= DataSize < 2 ^ 31 ->
  size verts = Num * sizeof_float3 ->
  ReadChunk Data lod Offset
  = Normal (set_Vertices lod
              (map float3_of (elements 12 (Z.to_nat Num) verts)),
            Offset + 20 + size verts) /\
  tail_at Data (Offset + 20 + size verts) R.
Proof.
  intros H HN HD Hs.
  destruct (chunk_header_at _ _ _ _ _ _ H) as (E1 & E2 & E3 & Ht);
    try lia; [vm_compute; reflexivity|].
  rewrite (ReadChunk_header _ _ _ _ _ _ _ _ _ E1 E2 E3).
  revert Ht. size_lits. intros Ht.
  replace (Offset + 4 + 8 + 4 + 4) with (Offset + 20) in * by lia.
  split; [|apply (tail_at_bytes _ _ _ _ Ht)].
  unfold ReadChunkPayload. eval_tags.
  step_with (ReadArray_at Data sizeof_float3 float3_of Num _ _ _ Ht
               (proj1 HN) Hs).
  reflexivity.
Qed.

Lemma ReadChunk_INDICES (Data : bytes) (lod : FLODData) (Offset : Z)
    (Num DataSize : Z) (idx R : bytes) :
  tail_at Data Offset (chunk_bytes (lit "INDICES") Num DataSize (idx ++ R)) ->
  0 <= Num < 2 ^ 31 -> - 2 ^ 31 <= DataSize < 2 ^ 31 ->
  size idx = Num * sizeof_int ->
  ReadChunk Data lod Offset
  = Normal (set_Indices lod (map int_of (elements 4 (Z.to_nat Num) idx)),
            Offset + 19 + size idx) /\
  tail_at Data (Offset + 19 + size idx) R.
Proof.
  intros H HN HD Hs.
  destruct (chunk_header_at _ _ _ _ _ _ H) as (E1 & E2 & E3 & Ht);
    try lia; [vm_compute; reflexivity|].
  rewrite (ReadChunk_header _ _ _ _ _ _ _ _ _ E1 E2 E3).
  revert Ht. size_lits. intros Ht.
  replace (Offset + 4 + 7 + 4 + 4) with (Offset + 19) in * by lia.
  split; [|apply (tail_at_bytes _ _ _ _ Ht)].
  unfold ReadChunkPayload. eval_tags.
  step_with (ReadArray_at Data sizeof_int int_of Num _ _ _ Ht
               (proj1 HN) Hs).
  reflexivity.
Qed.

Lemma chunk_bytes_app (tag : bytes) (Num DataSize : Z) (payload R : bytes) :
  chunk_bytes tag Num DataSize payload ++ R
  = chunk_bytes tag Num DataSize (payload ++ R).
Proof. unfold chunk_bytes. rewrite <- !app_assoc. reflexivity. Qed.

Lemma size_chunk_bytes (tag : bytes) (Num DataSize : Z) (payload : bytes) :
  size (chunk_bytes tag Num DataSize payload) = 12 + size tag + size payload.
Proof.
  unfold chunk_bytes.
  rewrite !size_app, size_string_bytes, !size_int_bytes. lia.
Qed.

Lemma size_scenario_A_chunks (verts : bytes) :
  size verts = 36 -> size (scenario_A_chunks verts) = 87.
Proof.
  intros Hs. unfold scenario_A_chunks.
  rewrite size_app, !size_chunk_bytes, Hs. reflexivity.
Qed.

(** The two chunks of scenario A, read by the chunk loop. *)
Lemma ReadLodChunks_scenario_A (fuel : nat) (Data : bytes) (lod : FLODData)
    (Offset : Z) (verts R : bytes) :
  tail_at Data Offset (scenario_A_chunks verts ++ R) -> size verts = 36 ->
  ReadLodChunks (S (S fuel)) Data (Offset + 87) lod Offset
  = Normal (set_Indices
              (set_Vertices lod (map float3_of (elements 12 3 verts)))
              [0; 1; 2],
            Offset + 87).
Proof.
  intros H Hs. unfold scenario_A_chunks in H.
  rewrite <- app_assoc, chunk_bytes_app in H.
  destruct (ReadChunk_VERTICES Data lod Offset 3 36 verts _ H) as [E1 H1];
    try lia; [rewrite Hs; reflexivity|].
  rewrite Hs in E1, H1.
  rewrite ReadLodChunks_step by lia. step_with E1.
  rewrite chunk_bytes_app in H1.
  destruct (ReadChunk_INDICES Data
              (set_Vertices lod
                 (map float3_of (elements 12 (Z.to_nat 3) verts)))
              (Offset + 20 + 36) 3 12
              (int_bytes 0 ++ int_bytes 1 ++ int_bytes 2) _ H1) as [E2 H2];
    try lia; [reflexivity|].
  rewrite ReadLodChunks_step by lia. step_with E2.
  rewrite ReadLodChunks_done
    by (change (size (int_bytes 0 ++ int_bytes 1 ++ int_bytes 2)) with 12;
        lia).
  change (size (int_bytes 0 ++ int_bytes 1 ++ int_bytes 2)) with 12.
  f_equal. f_equal. lia.
Qed.

Lemma ReadLod_scenario_A (fuel : nat) (Data : bytes) (lod : FLODData)
    (Offset : Z) (LodName verts R : bytes) :
  tail_at Data Offset (scenario_A_lod LodName verts ++ R) ->
  size LodName < 2 ^ 31 -> size verts = 36 ->
  ReadLod (S (S fuel)) Data lod Offset
  = Normal (set_Indices
              (set_Vertices (set_LODName lod LodName)
                 (map float3_of (elements 12 3 verts)))
              [0; 1; 2],
            Offset + 4 + size LodName + 4 + 87).
Proof.
  intros H Hn Hs. unfold scenario_A_lod, lod_bytes in H.
  rewrite (size_scenario_A_chunks _ Hs) in H.
  rewrite <- !app_assoc in H.
  unfold ReadLod.
  step_with (ReadString_at _ _ _ _ H Hn). apply tail_at_string in H.
  step_with (ReadInt_at _ _ _ _ H ltac:(lia)). apply tail_at_int in H.
  rewrite (ReadLodChunks_scenario_A fuel Data _ _ verts R H Hs).
  reflexivity.
Qed.

Lemma ReadModel_loop_step (fuel n : nat) (Data : bytes)
    (DecompressedSize : Z) (d : FUEModelData) (Offset : Z) :
  Offset < DecompressedSize ->
  ReadModel_loop fuel (S n) Data DecompressedSize d Offset
  = bind (ReadSection fuel Data d)
      (fun d' => ReadModel_loop fuel n Data DecompressedSize d') Offset.
Proof.
  intros H. cbn [ReadModel_loop].
  destruct (Z.ltb_spec Offset DecompressedSize); [reflexivity | lia].
Qed.

Lemma ReadModel_loop_done (fuel n : nat) (Data : bytes)
    (DecompressedSize : Z) (d : FUEModelData) (Offset : Z) :
  DecompressedSize <= Offset ->
  ReadModel_loop fuel n Data DecompressedSize d Offset = Normal (d, Offset).
Proof.
  intros H. destruct n; cbn [ReadModel_loop];
    destruct (Z.ltb_spec Offset DecompressedSize); try reflexivity; lia.
Qed.

(** The LODS section of scenario A. *)
Lemma ReadSection_scenario_A (fuel : nat) (d : FUEModelData)
    (LodName verts : bytes) :
  size LodName < 2 ^ 30 -> size verts = 36 -> LODs d = [] ->
  let payload :=
    chunk_bytes (lit "LODS") 1 (size (scenario_A_lod LodName verts))
      (scenario_A_lod LodName verts) in
  size payload = 111 + size LodName /\
  ReadSection (S (S fuel)) payload d 0
  = Normal (set_LODs d
              [mk_FLODData LodName (map float3_of (elements 12 3 verts))
                 [0; 1; 2] [] [] [] [] [] [] []],
            size payload).
Proof.
  intros Hn Hs Hd payload.
  pose proof (size_nonneg LodName) as Hn0.
  assert (Hlod : size (scenario_A_lod LodName verts) = 95 + size LodName).
  { unfold scenario_A_lod, lod_bytes.
    rewrite !size_app, size_string_bytes, size_int_bytes,
      (size_scenario_A_chunks _ Hs). lia. }
  assert (Hp : size payload = 111 + size LodName).
  { unfold payload. rewrite size_chunk_bytes, Hlod.
    change (size (lit "LODS")) with 4. lia. }
  split; [exact Hp|].
  pose proof (tail_at_start payload) as H. unfold payload at 2 in H.
  rewrite <- (app_nil_r (scenario_A_lod LodName verts)) in H at 2.
  destruct (chunk_header_at _ _ _ _ _ _ H) as (E1 & E2 & E3 & Ht);
    try lia; [vm_compute; reflexivity|].
  unfold ReadSection.
  step_with E1. step_with E2. step_with E3.
  eval_tags. rewrite Hd.
  unfold ReadLods, resize. change (1 <? 0) with false. cbv iota.
  unfold bind at 2. unfold ret at 1.
  change (Z.to_nat 1) with 1%nat.
  change (vec_resize FLODData_default 1 []) with [FLODData_default].
  cbn [ReadLods_from nth assign_at].
  assert (Hn' : size LodName < 2 ^ 31) by lia.
  unfold bind at 1. unfold bind at 1.
  rewrite (ReadLod_scenario_A fuel payload FLODData_default _ LodName verts
             [] Ht Hn' Hs).
  unfold ret. rewrite Hp. unfold set_LODs, set_Indices, set_Vertices,
    set_LODName. cbn [LODName Vertices Indices Normals Tangents VertexColors
    TextureCoordinates Materials Weights Morphs FLODData_default].
  f_equal. f_equal. change (size (lit "LODS")) with 4. lia.
Qed.

(** The payload of scenario A, read by [ReadModel]. *)
Lemma ReadModel_scenario_A (fuel : nat) (d : FUEModelData)
    (LodName verts : bytes) :
  size LodName < 2 ^ 30 -> size verts = 36 -> LODs d = [] ->
  let payload :=
    chunk_bytes (lit "LODS") 1 (size (scenario_A_lod LodName verts))
      (scenario_A_lod LodName verts) in
  ReadModel (S (S fuel)) payload (size payload) d 0
  = Normal (set_LODs d
              [mk_FLODData LodName (map float3_of (elements 12 3 verts))
                 [0; 1; 2] [] [] [] [] [] [] []],
            size payload).
Proof.
  intros Hn Hs Hd payload.
  destruct (ReadSection_scenario_A fuel d LodName verts Hn Hs Hd) as [Hp E].
  fold payload in Hp, E.
  pose proof (size_nonneg LodName) as Hn0.
  unfold ReadModel. rewrite ReadModel_loop_step by lia.
  step_with E. apply ReadModel_loop_done. lia.
Qed.

(** ** Scenario A *)

(** C7: an uncompressed file with identifier "UEMODEL" and one LOD that
    holds a VERTICES chunk of three elements and an INDICES chunk with the
    values 0, 1, 2 is decoded (two turns of fuel are enough) into a model
    with exactly one LOD: three positions, the indices [0; 1; 2], no normals
    and no materials.  The version byte, the two names and the bytes of the
    vertices are arbitrary. *)
Theorem C7_scenario_A (zstd : bytes -> Z -> option bytes) (fuel : nat)
    (ver : byte) (Name LodName verts : bytes) :
  size Name < 2 ^ 31 -> size LodName < 2 ^ 30 -> size verts = 36 ->
  ReadUEFModelData zstd (S (S fuel)) (scenario_A_file ver Name LodName verts)
  = Normal (mk_reading []
              (Some (scenario_A_model ver Name LodName verts))) /\
  exists lod,
    LODs (scenario_A_model ver Name LodName verts) = [lod] /\
    List.length (Vertices lod) = 3%nat /\
    Indices lod = [0; 1; 2] /\
    Normals lod = [] /\
    Materials lod = [].
Proof.
  intros HN HL Hs. split.
  - unfold ReadUEFModelData, scenario_A_file.
    rewrite ReadUEFModelData_uncompressed
      by first [assumption | apply version_rejected_false
               | vm_compute; reflexivity].
    unfold DecodePayload. cbn [Header Identifier set_Header].
    rewrite bytes_eqb_refl. unfold run.
    step_with (ReadModel_scenario_A fuel
                 (set_Header FUEModelData_new
                    (mk_FUEFormatHeader (lit "UEMODEL") (int8_of [ver]) Name
                       false [] None None))
                 LodName verts HL Hs eq_refl).
    reflexivity.
  - eexists. split; [reflexivity|].
    cbn [Vertices Indices Normals Materials]. repeat split.
Qed.

(** The triangle, version 4, with the least fuel. *)
Lemma C7_scenario_A_witness :
  ReadUEFModelData no_service 2
    (scenario_A_file Byte.x04 (lit "Tri") (lit "LOD0") triangle_vertices)
  = Normal
      (mk_reading []
         (Some (scenario_A_model Byte.x04 (lit "Tri") (lit "LOD0")
                  triangle_vertices))) /\
  exists lod,
    LODs (scenario_A_model Byte.x04 (lit "Tri") (lit "LOD0")
            triangle_vertices) = [lod] /\
    List.length (Vertices lod) = 3%nat /\
    Indices lod = [0; 1; 2] /\
    Normals lod = [] /\
    Materials lod = [].
Proof.
  apply (C7_scenario_A no_service 0 Byte.x04 (lit "Tri") (lit "LOD0")
           triangle_vertices); vm_compute; reflexivity.
Defined.

(** * Further properties of the reader *)

(** ** Primitive reads that succeed *)

Lemma size_slice (Data : bytes) (Offset Size : Z) :
  in_buffer Data Offset Size = true -> size (slice Data Offset Size) = Size.
Proof.
  unfold in_buffer, slice, size. rewrite !andb_true_iff, !Z.leb_le.
  intros [[H0 HS] Hend]. rewrite length_firstn, length_skipn. lia.
Qed.

Lemma ReadStruct_inside (Data : bytes) (Size Offset Offset' : Z)
    (bs : bytes) :
  ReadStruct Data Size Offset = Normal (bs, Offset') ->
  0 <= Offset /\ 0 <= Size /\ Offset' = Offset + Size /\
  Offset' <= size Data /\ size bs = Size /\ bs = slice Data Offset Size.
Proof.
  unfold ReadStruct. destruct (in_buffer Data Offset Size) eqn:Hb;
    [|discriminate].
  intros [= <- <-]. pose proof (size_slice _ _ _ Hb) as Hs.
  unfold in_buffer in Hb. rewrite !andb_true_iff, !Z.leb_le in Hb.
  repeat split; lia.
Qed.

(** X2: a length-prefixed string of fewer than 2^31 bytes, NUL bytes
    included, laid out at the cursor is read back unchanged by the
    in-memory [ReadString] and by the [FILE] one alike, and both leave the
    cursor right after its last byte. *)
Theorem X2_ReadString_round_trip (Data : bytes) (Offset : Z) (s R : bytes) :
  tail_at Data Offset (string_bytes s ++ R) ->
  size s < 2 ^ 31 ->
  ReadString Data Offset = Normal (s, Offset + 4 + size s) /\
  ReadString_FILE Data Offset = Normal (s, Offset + 4 + size s).
Proof.
  intros H Hs. split.
  - apply (ReadString_at _ _ _ _ H Hs).
  - apply (ReadString_FILE_at _ _ _ _ H Hs).
Qed.

Lemma X2_ReadString_round_trip_witness :
  ReadString (string_bytes [Byte.x61; Byte.x00; Byte.x62] ++ [Byte.xff]) 0
  = Normal ([Byte.x61; Byte.x00; Byte.x62],
            0 + 4 + size [Byte.x61; Byte.x00; Byte.x62]) /\
  ReadString_FILE
    (string_bytes [Byte.x61; Byte.x00; Byte.x62] ++ [Byte.xff]) 0
  = Normal ([Byte.x61; Byte.x00; Byte.x62],
            0 + 4 + size [Byte.x61; Byte.x00; Byte.x62]).
Proof.
  apply (X2_ReadString_round_trip
           (string_bytes [Byte.x61; Byte.x00; Byte.x62] ++ [Byte.xff]) 0
           [Byte.x61; Byte.x00; Byte.x62] [Byte.xff]).
  - apply tail_at_start.
  - vm_compute. reflexivity.
Defined.

(** X3: a negative length prefix makes both [ReadString] overloads end in
    the [resize] of the string, before any byte of a payload is copied. *)
Theorem X3_ReadString_negative_length (Data : bytes) (Offset len : Z)
    (R : bytes) :
  tail_at Data Offset (int_bytes len ++ R) ->
  - 2 ^ 31 <= len < 0 ->
  ReadString Data Offset = Abnormal (LengthError len) /\
  ReadString_FILE Data Offset = Abnormal (LengthError len).
Proof.
  intros H Hlen.
  assert (Hneg : (len <? 0) = true) by (apply Z.ltb_lt; lia).
  split.
  - unfold ReadString. step_with (ReadInt_at _ _ _ _ H ltac:(lia)).
    unfold resize. rewrite Hneg. reflexivity.
  - unfold ReadString_FILE.
    change sizeof_int with (size (int_bytes len)).
    step_with (fread_raw_at _ _ _ _ H).
    rewrite int_of_int_bytes by lia.
    unfold resize. rewrite Hneg. reflexivity.
Qed.

Lemma X3_ReadString_negative_length_witness :
  ReadString (int_bytes (-1) ++ [Byte.x61]) 0 = Abnormal (LengthError (-1)) /\
  ReadString_FILE (int_bytes (-1) ++ [Byte.x61]) 0
  = Abnormal (LengthError (-1)).
Proof.
  apply (X3_ReadString_negative_length (int_bytes (-1) ++ [Byte.x61]) 0 (-1)
           [Byte.x61]).
  - apply tail_at_start.
  - lia.
Defined.

(** ** Negative element counts *)

(** X4: a chunk whose payload is decoded (any of the eight tags other than
    TANGENTS that the reader names) and whose element count is negative
    ends in the [resize] of the target vector, whatever the buffer holds. *)
Theorem X4_negative_count (Data : bytes) (lod : FLODData) (tag : bytes)
    (Num DataSize p : Z) :
  skipped tag = false -> Num < 0 ->
  ReadChunkPayload Data lod tag Num DataSize p = Abnormal (LengthError Num).
Proof.
  unfold skipped, chunk_tags. cbn [existsb]. intros H HN.
  assert (Hneg : (Num <? 0) = true) by (apply Z.ltb_lt; lia).
  unfold ReadChunkPayload.
  repeat match goal with
  | |- context [bytes_eqb tag ?t] =>
      let E := fresh "E" in
      destruct (bytes_eqb tag t) eqn:E; rewrite ?E in H;
      try (cbn in H; discriminate H);
      try (unfold bind, ReadArray, ReadNested, bind, resize; rewrite Hneg;
           reflexivity)
  end.
Qed.

Lemma X4_negative_count_witness :
  ReadChunkPayload [] FLODData_default (lit "MATERIALS") (-1) 0 0
  = Abnormal (LengthError (-1)).
Proof.
  apply (X4_negative_count [] FLODData_default (lit "MATERIALS") (-1) 0 0).
  - reflexivity.
  - lia.
Defined.

(** ** Round trips of the array chunks *)

Lemma elements_concat {A} (enc : A -> bytes) (dec : bytes -> A) (sz : nat)
    (ok : A -> Prop) (xs : list A) :
  (forall x, ok x -> List.length (enc x) = sz /\ dec (enc x) = x) ->
  Forall ok xs ->
  map dec (elements sz (List.length xs) (concat (map enc xs))) = xs /\
  List.length (concat (map enc xs)) = (List.length xs * sz)%nat.
Proof.
  intros Henc Hall. induction Hall as [|x xs Hx Hall IH]; [split; reflexivity|].
  destruct (Henc x Hx) as [Hlen Hdec]. destruct IH as [IH1 IH2].
  cbn [map concat List.length elements]. split.
  - rewrite firstn_app, <- Hlen, firstn_all, Nat.sub_diag. cbn [firstn].
    rewrite app_nil_r, Hdec. f_equal.
    rewrite skipn_app, skipn_all, Nat.sub_diag. cbn [skipn app].
    rewrite Hlen. exact IH1.
  - rewrite length_app, IH2, Hlen. lia.
Qed.

Lemma int_of_le_split_round (n : Z) :
  - 2 ^ 31 <= n < 2 ^ 31 ->
  List.length (int_bytes n) = 4%nat /\ int_of (int_bytes n) = n.
Proof. intros H. split; [reflexivity | apply int_of_int_bytes, H]. Qed.

Lemma float_of_le_split (x : Z) :
  0 <= x < 2 ^ 32 -> float_of (le_split 4 x) = x.
Proof.
  intros H. unfold float_of. rewrite le_combine_split.
  change (Z.of_nat 4 * 8) with 32. apply Z.mod_small, H.
Qed.

Lemma float3_round (v : float3) :
  float3_fits v ->
  List.length (float3_bytes v) = 12%nat /\ float3_of (float3_bytes v) = v.
Proof.
  intros (Hx & Hy & Hz). destruct v as [x y z]. cbn [f3_x f3_y f3_z] in *.
  split; [reflexivity|].
  unfold float3_of, float3_bytes. cbn [f3_x f3_y f3_z].
  assert (E0 : slice (le_split 4 x ++ le_split 4 y ++ le_split 4 z) 0 4
               = le_split 4 x) by reflexivity.
  assert (E1 : slice (le_split 4 x ++ le_split 4 y ++ le_split 4 z) 4 4
               = le_split 4 y) by reflexivity.
  assert (E2 : slice (le_split 4 x ++ le_split 4 y ++ le_split 4 z) 8 4
               = le_split 4 z) by reflexivity.
  rewrite E0, E1, E2, !float_of_le_split by assumption. reflexivity.
Qed.

(** X5: a VERTICES chunk that carries the twelve bytes of each of its
    vertices is decoded into exactly those vertices, in order, whatever
    byte length its header declares; the other arrays of the LOD are kept
    and the cursor ends right after the last vertex. *)
Theorem X5_VERTICES_round_trip (Data : bytes) (lod : FLODData)
    (Offset DataSize : Z) (vs : list float3) (R : bytes) :
  tail_at Data Offset
    (chunk_bytes (lit "VERTICES") (Z.of_nat (List.length vs)) DataSize
       (vertices_bytes vs ++ R)) ->
  Forall float3_fits vs ->
  Z.of_nat (List.length vs) < 2 ^ 31 ->
  - 2 ^ 31 <= DataSize < 2 ^ 31 ->
  ReadChunk Data lod Offset
  = Normal (set_Vertices lod vs,
            Offset + 20 + 12 * Z.of_nat (List.length vs)).
Proof.
  intros H Hall Hlen HD.
  destruct (elements_concat float3_bytes float3_of 12 float3_fits vs
              float3_round Hall) as [Hdec Hsz].
  assert (Hs : size (vertices_bytes vs)
               = Z.of_nat (List.length vs) * sizeof_float3).
  { unfold size, vertices_bytes, sizeof_float3. rewrite Hsz. lia. }
  destruct (ReadChunk_VERTICES Data lod Offset _ DataSize _ R H) as [E _];
    try lia.
  rewrite E, Nat2Z.id. unfold vertices_bytes at 1. rewrite Hdec.
  rewrite Hs. unfold sizeof_float3. f_equal. f_equal. lia.
Qed.

Lemma X5_VERTICES_round_trip_witness :
  ReadChunk
    (chunk_bytes (lit "VERTICES") (Z.of_nat (List.length triangle_points)) 0
       (vertices_bytes triangle_points ++ []))
    FLODData_default 0
  = Normal (set_Vertices FLODData_default triangle_points,
            0 + 20 + 12 * Z.of_nat (List.length triangle_points)).
Proof.
  apply (X5_VERTICES_round_trip _ FLODData_default 0 0 triangle_points []).
  - apply tail_at_start.
  - repeat constructor; vm_compute; congruence.
  - vm_compute. reflexivity.
  - lia.
Defined.

(** X6: an INDICES chunk that carries the four bytes of each of its
    indices is decoded into exactly those indices, in order, whatever byte
    length its header declares. *)
Theorem X6_INDICES_round_trip (Data : bytes) (lod : FLODData)
    (Offset DataSize : Z) (idx : list Z) (R : bytes) :
  tail_at Data Offset
    (chunk_bytes (lit "INDICES") (Z.of_nat (List.length idx)) DataSize
       (indices_bytes idx ++ R)) ->
  Forall (fun i => - 2 ^ 31 <= i < 2 ^ 31) idx ->
  Z.of_nat (List.length idx) < 2 ^ 31 ->
  - 2 ^ 31 <= DataSize < 2 ^ 31 ->
  ReadChunk Data lod Offset
  = Normal (set_Indices lod idx,
            Offset + 19 + 4 * Z.of_nat (List.length idx)).
Proof.
  intros H Hall Hlen HD.
  destruct (elements_concat int_bytes int_of 4
              (fun i => - 2 ^ 31 <= i < 2 ^ 31) idx
              int_of_le_split_round Hall) as [Hdec Hsz].
  assert (Hs : size (indices_bytes idx)
               = Z.of_nat (List.length idx) * sizeof_int).
  { unfold size, indices_bytes, sizeof_int. rewrite Hsz. lia. }
  destruct (ReadChunk_INDICES Data lod Offset _ DataSize _ R H) as [E _];
    try lia.
  rewrite E, Nat2Z.id. unfold indices_bytes at 1. rewrite Hdec.
  rewrite Hs. unfold sizeof_int. f_equal. f_equal. lia.
Qed.

Lemma X6_INDICES_round_trip_witness :
  ReadChunk
    (chunk_bytes (lit "INDICES") (Z.of_nat (List.length [0; 1; 2; -1])) 16
       (indices_bytes [0; 1; 2; -1] ++ []))
    FLODData_default 0
  = Normal (set_Indices FLODData_default [0; 1; 2; -1],
            0 + 19 + 4 * Z.of_nat (List.length [0; 1; 2; -1])).
Proof.
  apply (X6_INDICES_round_trip _ FLODData_default 0 16 [0; 1; 2; -1] []).
  - apply tail_at_start.
  - repeat constructor; lia.
  - vm_compute. reflexivity.
  - lia.
Defined.

Lemma ReadMaterial_at (Data : bytes) (Offset : Z) (m : FMaterialChunk)
    (R : bytes) :
  tail_at Data Offset (material_bytes m ++ R) -> material_fits m ->
  ReadMaterial Data Offset = Normal (m, Offset + size (material_bytes m)) /\
  tail_at Data (Offset + size (material_bytes m)) R.
Proof.
  intros H (Hn & Hf & Hc). split; [|apply (tail_at_bytes _ _ _ _ H)].
  unfold material_bytes in *. rewrite <- !app_assoc in H.
  unfold ReadMaterial.
  step_with (ReadString_at _ _ _ _ H Hn). apply tail_at_string in H.
  step_with (ReadInt_at _ _ _ _ H Hf). apply tail_at_int in H.
  step_with (ReadInt_at _ _ _ _ H Hc).
  unfold ret. destruct m as [n f c]. cbn [mat_Name FirstIndex NumFaces].
  rewrite !size_app, size_string_bytes, !size_int_bytes.
  f_equal. f_equal. lia.
Qed.

Lemma forM_materials (Data : bytes) (mats : list FMaterialChunk) :
  forall Offset R,
    tail_at Data Offset (materials_bytes mats ++ R) ->
    Forall material_fits mats ->
    forM (List.length mats) (ReadMaterial Data) Offset
    = Normal (mats, Offset + size (materials_bytes mats)).
Proof.
  induction mats as [|m mats IH]; intros Offset R H Hall.
  - cbn. unfold ret. f_equal. f_equal. change (size []) with 0. lia.
  - inversion Hall as [|? ? Hm Hall']; subst.
    unfold materials_bytes in H. cbn [map concat] in H.
    rewrite <- app_assoc in H.
    destruct (ReadMaterial_at _ _ _ _ H Hm) as [E H'].
    cbn [List.length forM]. step_with E.
    step_with (IH _ R H' Hall'). unfold ret.
    unfold materials_bytes. cbn [map concat]. rewrite size_app.
    f_equal. f_equal. lia.
Qed.

(** X7: a MATERIALS chunk that carries, for each material, its name as a
    length-prefixed string and its two [int] fields is decoded into exactly
    those materials, in order, whatever byte length its header declares. *)
Theorem X7_MATERIALS_round_trip (Data : bytes) (lod : FLODData)
    (Offset DataSize : Z) (mats : list FMaterialChunk) (R : bytes) :
  tail_at Data Offset
    (chunk_bytes (lit "MATERIALS") (Z.of_nat (List.length mats)) DataSize
       (materials_bytes mats ++ R)) ->
  Forall material_fits mats ->
  Z.of_nat (List.length mats) < 2 ^ 31 ->
  - 2 ^ 31 <= DataSize < 2 ^ 31 ->
  ReadChunk Data lod Offset
  = Normal (set_Materials lod mats,
            Offset + 21 + size (materials_bytes mats)).
Proof.
  intros H Hall Hlen HD.
  destruct (chunk_header_at _ _ _ _ _ _ H) as (E1 & E2 & E3 & Ht);
    try lia; [vm_compute; reflexivity|].
  rewrite (ReadChunk_header _ _ _ _ _ _ _ _ _ E1 E2 E3).
  revert Ht. size_lits. intros Ht.
  replace (Offset + 4 + 9 + 4 + 4) with (Offset + 21) in * by lia.
  unfold ReadChunkPayload. eval_tags.
  unfold ReadNested, resize.
  destruct (Z.ltb_spec (Z.of_nat (List.length mats)) 0); [lia|].
  unfold bind at 2. unfold ret at 1. rewrite Nat2Z.id.
  step_with (forM_materials Data mats _ R Ht Hall). reflexivity.
Qed.

Lemma X7_MATERIALS_round_trip_witness :
  ReadChunk
    (chunk_bytes (lit "MATERIALS")
       (Z.of_nat (List.length (Materials scenario_D))) 0
       (materials_bytes (Materials scenario_D) ++ []))
    FLODData_default 0
  = Normal (set_Materials FLODData_default (Materials scenario_D),
            0 + 21 + size (materials_bytes (Materials scenario_D))).
Proof.
  apply (X7_MATERIALS_round_trip _ FLODData_default 0 0
           (Materials scenario_D) []).
  - apply tail_at_start.
  - repeat constructor; vm_compute; congruence.
  - vm_compute. reflexivity.
  - lia.
Defined.

(** ** Where a read that returns leaves the cursor *)

Lemma ReadInt_inside (Data : bytes) (Offset Offset' n : Z) :
  ReadInt Data Offset = Normal (n, Offset') ->
  0 <= Offset /\ Offset' = Offset + 4 /\ Offset' <= size Data.
Proof.
  intros E. apply bind_inv in E as (bs & o1 & E1 & E2).
  injection E2 as _ <-.
  destruct (ReadStruct_inside _ _ _ _ _ E1) as (? & ? & ? & ? & _).
  unfold sizeof_int in *. lia.
Qed.

Lemma ReadString_inside (Data : bytes) (Offset Offset' : Z) (s : bytes) :
  ReadString Data Offset = Normal (s, Offset') ->
  0 <= Offset /\ Offset' = Offset + 4 + size s /\ Offset' <= size Data.
Proof.
  intros E. apply bind_inv in E as (len & o1 & E1 & E).
  apply bind_inv in E as (u & o2 & E2 & E3).
  destruct (ReadInt_inside _ _ _ _ E1) as (? & ? & ?).
  unfold resize in E2. destruct (len <? 0); [discriminate E2|].
  injection E2 as _ <-.
  destruct (ReadStruct_inside _ _ _ _ _ E3) as (? & ? & ? & ? & ? & _).
  lia.
Qed.

(** ** A chunk that sends the cursor back *)

Lemma chunk_loop_spins (Data : bytes) (lod : FLODData) (start limit : Z) :
  ReadChunk Data lod start = Normal (lod, start) ->
  start < limit ->
  forall fuel, ReadLodChunks fuel Data limit lod start = OutOfFuel.
Proof.
  intros E Hlt fuel. induction fuel as [|fuel IH].
  - cbn [ReadLodChunks]. destruct (Z.ltb_spec start limit); [reflexivity|lia].
  - rewrite ReadLodChunks_step by assumption.
    rewrite (bind_Normal _ _ _ _ _ E). exact IH.
Qed.

(** X9: a stepped-over chunk whose declared byte length is the negative of
    the size of its own header sends the cursor back to the start of the
    chunk; when that start lies inside the LOD region, the chunk loop reads
    the same chunk again and again and never ends: no amount of fuel lets
    [ReadLodChunks] return. *)
Theorem X9_negative_byte_length_spins (Data : bytes) (lod : FLODData)
    (tag : bytes) (start p1 Num p2 DataSize payload limit : Z) :
  ReadString Data start = Normal (tag, p1) ->
  ReadInt Data p1 = Normal (Num, p2) ->
  ReadInt Data p2 = Normal (DataSize, payload) ->
  skipped tag = true ->
  payload + DataSize = start ->
  start < limit ->
  forall fuel, ReadLodChunks fuel Data limit lod start = OutOfFuel.
Proof.
  intros E1 E2 E3 Hs Hback Hlt. apply chunk_loop_spins; [|exact Hlt].
  rewrite (ReadChunk_header _ _ _ _ _ _ _ _ _ E1 E2 E3).
  rewrite (skip_payload _ _ _ _ _ _ Hs), Hback. reflexivity.
Qed.

Lemma X9_negative_byte_length_spins_witness :
  ReadLodChunks 1000 (chunk_bytes (lit "X") 0 (-13) []) 13
    FLODData_default 0 = OutOfFuel.
Proof.
  apply (X9_negative_byte_length_spins (chunk_bytes (lit "X") 0 (-13) [])
           FLODData_default (lit "X") 0 5 0 9 (-13) 13 13);
    try (vm_compute; reflexivity).
Defined.

(** ** The vector of LODs *)

Lemma length_assign_at {A} (i : nat) (x : A) (v : list A) :
  List.length (assign_at i x v) = List.length v.
Proof.
  revert i; induction v as [|y v IH]; intros [|i]; cbn; try reflexivity.
  rewrite IH. reflexivity.
Qed.

Lemma length_vec_resize {A} (d : A) (n : nat) (v : list A) :
  List.length (vec_resize d n v) = n.
Proof.
  unfold vec_resize. rewrite length_app, length_firstn, repeat_length. lia.
Qed.

Lemma ReadLods_from_length (fuel : nat) (Data : bytes) (todo : nat) :
  forall i lods lods' Offset Offset',
    ReadLods_from fuel Data todo i lods Offset = Normal (lods', Offset') ->
    List.length lods' = List.length lods.
Proof.
  induction todo as [|todo IH]; intros i lods lods' o o' E; cbn in E.
  - injection E as <- _. reflexivity.
  - apply bind_inv in E as (lod & o1 & _ & E).
    rewrite (IH _ _ _ _ _ E). apply length_assign_at.
Qed.

Lemma ReadLods_length (fuel : nat) (Data : bytes) (lods lods' : list FLODData)
    (numLods Offset Offset' : Z) :
  ReadLods fuel Data lods numLods Offset = Normal (lods', Offset') ->
  0 <= numLods /\ Z.of_nat (List.length lods') = numLods.
Proof.
  unfold ReadLods. intros E. apply bind_inv in E as (u & o1 & E1 & E).
  unfold resize in E1. destruct (Z.ltb_spec numLods 0); [discriminate E1|].
  rewrite (ReadLods_from_length _ _ _ _ _ _ _ _ E), length_vec_resize.
  lia.
Qed.

(** X10: when [ReadLods] returns, the vector holds exactly [numLods] LODs,
    however many it held before: a longer vector is cut, a shorter one is
    filled up, and [numLods] is not negative. *)
Theorem X10_ReadLods_length (fuel : nat) (Data : bytes)
    (lods lods' : list FLODData) (numLods Offset Offset' : Z) :
  ReadLods fuel Data lods numLods Offset = Normal (lods', Offset') ->
  0 <= numLods /\ Z.of_nat (List.length lods') = numLods.
Proof. apply ReadLods_length. Qed.

(** Two LODs read into an empty vector. *)
Lemma X10_ReadLods_length_witness :
  0 <= 2 /\ Z.of_nat (List.length two_lods_read) = 2.
Proof.
  apply (X10_ReadLods_length 2 two_lods [] two_lods_read 2 0
           (size two_lods)).
  vm_compute. reflexivity.
Defined.

(** ** An LOD without room for a chunk *)

(** X11: an LOD whose declared region length is zero or negative reads no
    chunk: the LOD record it overwrites keeps every array and only takes
    the new name, and the cursor moves by the declared length, backwards
    when it is negative. *)
Theorem X11_empty_region (fuel : nat) (Data : bytes) (lod : FLODData)
    (Name : bytes) (Offset p1 LodsSize p2 : Z) :
  ReadString Data Offset = Normal (Name, p1) ->
  ReadInt Data p1 = Normal (LodsSize, p2) ->
  LodsSize <= 0 ->
  ReadLod fuel Data lod Offset
  = Normal (set_LODName lod Name, p2 + LodsSize).
Proof.
  intros E1 E2 Hle. unfold ReadLod. step_with E1. step_with E2.
  rewrite ReadLodChunks_done by lia. reflexivity.
Qed.

Lemma X11_empty_region_witness :
  ReadLod 0 (lod_bytes (lit "LOD1") (-12) []) scenario_D 0
  = Normal (set_LODName scenario_D (lit "LOD1"), 12 + -12).
Proof.
  apply (X11_empty_region 0 (lod_bytes (lit "LOD1") (-12) []) scenario_D
           (lit "LOD1") 0 8 (-12) 12); try reflexivity. lia.
Defined.

(** ** Sections other than LODS *)

(** X12: a section whose type is not "LODS" (SKELETON and COLLISION
    included) leaves the model as it was and moves the cursor from the end
    of the section header by the declared byte length; inside the buffer
    the section loop then goes on from there. *)
Theorem X12_other_section_is_skipped (fuel n : nat) (Data : bytes)
    (d : FUEModelData) (SectionType : bytes)
    (Offset p1 Num p2 DataSize p3 : Z) :
  ReadString Data Offset = Normal (SectionType, p1) ->
  ReadInt Data p1 = Normal (Num, p2) ->
  ReadInt Data p2 = Normal (DataSize, p3) ->
  SectionType <> lit "LODS" ->
  ReadSection fuel Data d Offset = Normal (d, p3 + DataSize) /\
  (forall DecompressedSize,
     Offset < DecompressedSize ->
     ReadModel_loop fuel (S n) Data DecompressedSize d Offset
     = ReadModel_loop fuel n Data DecompressedSize d (p3 + DataSize)).
Proof.
  intros E1 E2 E3 Hne.
  assert (E : ReadSection fuel Data d Offset = Normal (d, p3 + DataSize)).
  { unfold ReadSection. step_with E1. step_with E2. step_with E3.
    rewrite (bytes_eqb_neq _ _ Hne). reflexivity. }
  split; [exact E|]. intros sz Hlt.
  rewrite ReadModel_loop_step by assumption.
  apply (bind_Normal _ _ _ _ _ E).
Qed.

Lemma X12_other_section_is_skipped_witness :
  ReadSection 1 (chunk_bytes (lit "SKELETON") 2 5 (repeat Byte.xff 5))
    FUEModelData_new 0 = Normal (FUEModelData_new, 20 + 5) /\
  ReadModel_loop 1 (S 0) (chunk_bytes (lit "SKELETON") 2 5 (repeat Byte.xff 5))
    25 FUEModelData_new 0
  = ReadModel_loop 1 0 (chunk_bytes (lit "SKELETON") 2 5 (repeat Byte.xff 5))
      25 FUEModelData_new (20 + 5).
Proof.
  destruct (X12_other_section_is_skipped 1 0
              (chunk_bytes (lit "SKELETON") 2 5 (repeat Byte.xff 5))
              FUEModelData_new (lit "SKELETON") 0 12 2 16 5 20) as [H1 H2];
    try reflexivity.
  - vm_compute. discriminate.
  - split; [exact H1|]. apply H2. lia.
Defined.

(** ** What the reader never fills in *)

Lemma chunk_payload_frame (Data : bytes) (lod lod' : FLODData) (tag : bytes)
    (Num DataSize p p' : Z) :
  ReadChunkPayload Data lod tag Num DataSize p = Normal (lod', p') ->
  Tangents lod' = Tangents lod /\ LODName lod' = LODName lod.
Proof.
  unfold ReadChunkPayload.
  repeat match goal with
  | |- context [bytes_eqb tag ?t] => destruct (bytes_eqb tag t)
  end;
    intros E; apply bind_inv in E as (v & o & _ & E);
    injection E as <- _; split; reflexivity.
Qed.

Lemma chunk_frame (Data : bytes) (lod lod' : FLODData) (p p' : Z) :
  ReadChunk Data lod p = Normal (lod', p') ->
  Tangents lod' = Tangents lod /\ LODName lod' = LODName lod.
Proof.
  unfold ReadChunk. intros E.
  apply bind_inv in E as (tag & o1 & _ & E).
  apply bind_inv in E as (Num & o2 & _ & E).
  apply bind_inv in E as (DataSize & o3 & _ & E).
  apply (chunk_payload_frame _ _ _ _ _ _ _ _ E).
Qed.

Lemma chunk_loop_frame (fuel : nat) (Data : bytes) (limit : Z) :
  forall lod lod' p p',
    ReadLodChunks fuel Data limit lod p = Normal (lod', p') ->
    Tangents lod' = Tangents lod /\ LODName lod' = LODName lod.
Proof.
  induction fuel as [|fuel IH]; intros lod lod' p p' E; cbn [ReadLodChunks] in E;
    destruct (p <? limit); try discriminate E;
    try (injection E as <- _; split; reflexivity).
  apply bind_inv in E as (lod1 & o & E1 & E).
  destruct (chunk_frame _ _ _ _ _ E1) as [H1 H2].
  destruct (IH _ _ _ _ E) as [H3 H4]. split; congruence.
Qed.

Lemma ReadLod_frame (fuel : nat) (Data : bytes) (lod lod' : FLODData)
    (p p' : Z) :
  ReadLod fuel Data lod p = Normal (lod', p') ->
  Tangents lod' = Tangents lod.
Proof.
  unfold ReadLod. intros E.
  apply bind_inv in E as (Name & o1 & _ & E).
  apply bind_inv in E as (LodsSize & o2 & _ & E).
  destruct (ReadLodChunks fuel Data (o2 + LodsSize) (set_LODName lod Name) o2)
    as [[l q]| |] eqn:EL; try discriminate E.
  injection E as <- _.
  destruct (chunk_loop_frame _ _ _ _ _ _ _ EL) as [H _]. exact H.
Qed.

Lemma Forall_assign_at {A} (P : A -> Prop) (i : nat) (x : A) (v : list A) :
  P x -> Forall P v -> Forall P (assign_at i x v).
Proof.
  intros Hx Hv. revert i. induction Hv as [|y v Hy Hv IH]; intros [|i]; cbn;
    constructor; auto.
Qed.

Lemma Forall_prefix {A} (P : A -> Prop) (n : nat) (v : list A) :
  Forall P v -> Forall P (firstn n v).
Proof.
  intros Hv. revert n. induction Hv as [|y v Hy Hv IH]; intros [|n]; cbn;
    constructor; auto.
Qed.

Lemma Forall_vec_resize {A} (P : A -> Prop) (d : A) (n : nat) (v : list A) :
  P d -> Forall P v -> Forall P (vec_resize d n v).
Proof.
  intros Hd Hv. unfold vec_resize. apply Forall_app. split.
  - apply Forall_prefix, Hv.
  - apply Forall_forall. intros x Hx. apply repeat_spec in Hx. subst.
    exact Hd.
Qed.

Lemma Forall_nth_default {A} (P : A -> Prop) (d : A) (i : nat) (v : list A) :
  P d -> Forall P v -> P (nth i v d).
Proof.
  intros Hd Hv. destruct (nth_in_or_default i v d) as [Hin| ->];
    [|exact Hd]. revert Hin. apply Forall_forall, Hv.
Qed.

Lemma ReadLods_from_tangents (fuel : nat) (Data : bytes) (todo : nat) :
  forall i lods lods' p p',
    Forall (fun l => Tangents l = []) lods ->
    ReadLods_from fuel Data todo i lods p = Normal (lods', p') ->
    Forall (fun l => Tangents l = []) lods'.
Proof.
  induction todo as [|todo IH]; intros i lods lods' p p' Hall E; cbn in E.
  - injection E as <- _. exact Hall.
  - apply bind_inv in E as (lod & o1 & E1 & E).
    apply (IH _ _ _ _ _ (Forall_assign_at _ _ _ _
             (eq_trans (ReadLod_frame _ _ _ _ _ _ E1)
                (Forall_nth_default (fun l => Tangents l = [])
                   FLODData_default i lods eq_refl Hall))
             Hall) E).
Qed.

Lemma ReadSection_frame (fuel : nat) (Data : bytes) (d d' : FUEModelData)
    (p p' : Z) :
  ReadSection fuel Data d p = Normal (d', p') ->
  Header d' = Header d /\ Skeleton d' = Skeleton d /\
  (Forall (fun l => Tangents l = []) (LODs d) ->
   Forall (fun l => Tangents l = []) (LODs d')).
Proof.
  unfold ReadSection. intros E.
  apply bind_inv in E as (ty & o1 & _ & E).
  apply bind_inv in E as (Num & o2 & _ & E).
  apply bind_inv in E as (DataSize & o3 & _ & E).
  destruct (bytes_eqb ty (lit "LODS")).
  - apply bind_inv in E as (lods & o4 & EL & E). injection E as <- _.
    repeat split. intros Hall. cbn [LODs set_LODs].
    unfold ReadLods in EL. apply bind_inv in EL as (u & o5 & _ & EL).
    apply (ReadLods_from_tangents _ _ _ _ _ _ _ _
             (Forall_vec_resize (fun l => Tangents l = []) FLODData_default
                _ _ eq_refl Hall) EL).
  - apply bind_inv in E as (u & o4 & _ & E). injection E as <- _.
    repeat split. auto.
Qed.

Lemma ReadModel_loop_frame (fuel n : nat) (Data : bytes) (sz : Z) :
  forall d d' p p',
    ReadModel_loop fuel n Data sz d p = Normal (d', p') ->
    Header d' = Header d /\ Skeleton d' = Skeleton d /\
    (Forall (fun l => Tangents l = []) (LODs d) ->
     Forall (fun l => Tangents l = []) (LODs d')).
Proof.
  induction n as [|n IH]; intros d d' p p' E; cbn [ReadModel_loop] in E;
    destruct (p <? sz); try discriminate E;
    try (injection E as <- _; repeat split; auto).
  apply bind_inv in E as (d1 & o & E1 & E).
  destruct (ReadSection_frame _ _ _ _ _ _ E1) as (H1 & H2 & H3).
  destruct (IH _ _ _ _ E) as (H4 & H5 & H6).
  repeat split; try congruence. auto.
Qed.

(** The model behind a returned pointer is the fresh one, or the fresh one
    with a header and the LODs [ReadModel] added. *)
Lemma DecodePayload_model (fuel : nat) (Data : bytes) (n : Z)
    (d : FUEModelData) (r : reading) :
  DecodePayload fuel Data n d = Normal r ->
  exists m,
    r = mk_reading [] (Some m) /\
    (m = d \/ exists p, ReadModel fuel Data n d 0 = Normal (m, p)).
Proof.
  unfold DecodePayload, run.
  destruct (bytes_eqb (Identifier (Header d)) (lit "UEMODEL")).
  - destruct (bind _ _ 0) as [[r' p]| |] eqn:E; try discriminate.
    intros [= <-]. apply bind_inv in E as (d' & p' & E1 & E).
    injection E as <- _. exists d'. split; [reflexivity|]. right.
    exists p'. exact E1.
  - intros [= <-]. exists d. split; [reflexivity | left; reflexivity].
Qed.

Lemma returned_model_cases (zstd : bytes -> Z -> option bytes) (fuel : nat)
    (File : bytes) (r : reading) (m : FUEModelData) :
  ReadUEFModelData zstd fuel File = Normal r ->
  returned r = Some m ->
  printed r = [] /\
  (m = FUEModelData_new \/
   exists h Data n,
     DecodePayload fuel Data n (set_Header FUEModelData_new h) = Normal r).
Proof.
  unfold ReadUEFModelData, ReadUEFModelData_guarded, run.
  destruct (bind _ _ 0) as [[r' p]| |] eqn:E; try discriminate.
  intros [= <-] Hret.
  apply bind_inv in E as (Magic & p1 & _ & E).
  destruct (negb (bytes_eqb Magic UEF_MAGIC)).
  { injection E as <- _. injection Hret as <-.
    split; [reflexivity | left; reflexivity]. }
  apply bind_inv in E as (Identifier & p2 & _ & E).
  apply bind_inv in E as (ver & p3 & _ & E).
  rewrite version_rejected_false in E.
  apply bind_inv in E as (ObjectName & p4 & _ & E).
  apply bind_inv in E as ([|] & p5 & _ & E).
  - apply bind_inv in E as (ctype & p6 & _ & E).
    apply bind_inv in E as (usize & p7 & _ & E).
    apply bind_inv in E as (csize & p8 & _ & E).
    unfold ReadCompressed in E.
    apply bind_inv in E as (? & p9 & _ & E).
    apply bind_inv in E as (? & p10 & _ & E).
    apply bind_inv in E as (cdata & p11 & _ & E).
    destruct (bytes_eqb ctype (lit "ZSTD")).
    + destruct (zstd cdata (int_of usize)) as [out|].
      * destruct (negb (size out =? int_of usize)).
        -- injection E as <- _. discriminate Hret.
        -- unfold lift in E.
           destruct (DecodePayload _ _ _ _) as [r1| |] eqn:ED;
             try discriminate E.
           injection E as <- _.
           destruct (DecodePayload_model _ _ _ _ _ ED) as (m' & -> & _).
           split; [reflexivity|]. right. eauto.
      * injection E as <- _. discriminate Hret.
    + injection E as <- _. discriminate Hret.
  - unfold ReadUncompressed in E.
    apply bind_inv in E as (payload & p6 & _ & E).
    unfold lift in E.
    destruct (DecodePayload _ _ _ _) as [r1| |] eqn:ED; try discriminate E.
    injection E as <- _.
    destruct (DecodePayload_model _ _ _ _ _ ED) as (m' & -> & _).
    split; [reflexivity|]. right. eauto.
Qed.

(** X13: whatever the file, a model the reader returns has an empty
    skeleton (no bone, no socket), and none of its LODs has tangents: a
    SKELETON section and a TANGENTS chunk are only ever stepped over. *)
Theorem X13_skeleton_and_tangents_stay_empty
    (zstd : bytes -> Z -> option bytes) (fuel : nat) (File : bytes)
    (r : reading) (m : FUEModelData) :
  ReadUEFModelData zstd fuel File = Normal r ->
  returned r = Some m ->
  Skeleton m = mk_FSkeletonData [] [] /\
  Forall (fun l => Tangents l = []) (LODs m).
Proof.
  intros E Hret.
  destruct (returned_model_cases _ _ _ _ _ E Hret) as [_ [->|(h & D & n & ED)]].
  - split; [reflexivity | constructor].
  - destruct (DecodePayload_model _ _ _ _ _ ED) as (m' & -> & Hm).
    injection Hret as ->.
    destruct Hm as [->|[p EM]].
    + split; [reflexivity | constructor].
    + destruct (ReadModel_loop_frame _ _ _ _ _ _ _ _ EM) as (_ & H2 & H3).
      split; [exact H2 | apply H3; constructor].
Qed.

Lemma X13_skeleton_and_tangents_stay_empty_witness :
  Skeleton scenario_C_model = mk_FSkeletonData [] [] /\
  Forall (fun l => Tangents l = []) (LODs scenario_C_model).
Proof.
  apply (X13_skeleton_and_tangents_stay_empty no_service 3 scenario_C_file
           (mk_reading [] (Some scenario_C_model)) scenario_C_model).
  - vm_compute. reflexivity.
  - reflexivity.
Defined.

(** ** The header of the returned model *)

(** X14: for an uncompressed file with a well-formed header, a call that
    returns at all returns a model and prints no message with [printf],
    and the header of the model holds the identifier, the version byte (as
    a signed [char]) and the object name of the file, with the compression
    flag off; decoding the payload never touches the header. *)
Theorem X14_header_is_kept (zstd : bytes -> Z -> option bytes) (fuel : nat)
    (ident name payload : bytes) (ver : byte) (r : reading) :
  size ident < 2 ^ 31 -> size name < 2 ^ 31 ->
  ReadUEFModelData zstd fuel
    (header_bytes ident ver name ++ [Byte.x00] ++ payload) = Normal r ->
  exists m,
    r = mk_reading [] (Some m) /\
    Header m
    = mk_FUEFormatHeader ident (int8_of [ver]) name false [] None None.
Proof.
  intros Hi Hn E. unfold ReadUEFModelData in E.
  rewrite ReadUEFModelData_uncompressed in E
    by first [assumption | apply version_rejected_false].
  destruct (DecodePayload_model _ _ _ _ _ E) as (m & -> & Hm).
  exists m. split; [reflexivity|].
  destruct Hm as [->|[p EM]]; [reflexivity|].
  destruct (ReadModel_loop_frame _ _ _ _ _ _ _ _ EM) as (H1 & _).
  rewrite H1. reflexivity.
Qed.

Lemma X14_header_is_kept_witness :
  exists m,
    mk_reading [] (Some scenario_C_model) = mk_reading [] (Some m) /\
    Header m
    = mk_FUEFormatHeader (lit "UEMODEL") (int8_of [Byte.x04]) (lit "Tri")
        false [] None None.
Proof.
  apply (X14_header_is_kept no_service 3 (lit "UEMODEL") (lit "Tri")
           scenario_C_payload Byte.x04);
    vm_compute; reflexivity.
Defined.

(** X15: an uncompressed file with a well-formed header whose identifier
    is not "UEMODEL" is answered with a model that holds the header and no
    LOD, whatever bytes follow the header: the payload is copied but never
    decoded, and no message is printed with [printf]. *)
Theorem X15_other_identifier (zstd : bytes -> Z -> option bytes) (fuel : nat)
    (ident name payload : bytes) (ver : byte) :
  size ident < 2 ^ 31 -> size name < 2 ^ 31 ->
  ident <> lit "UEMODEL" ->
  ReadUEFModelData zstd fuel
    (header_bytes ident ver name ++ [Byte.x00] ++ payload)
  = Normal
      (mk_reading []
         (Some
            (mk_FUEModelData
               (mk_FUEFormatHeader ident (int8_of [ver]) name false [] None
                  None)
               [] (mk_FSkeletonData [] [])))).
Proof.
  intros Hi Hn Hne. unfold ReadUEFModelData.
  rewrite ReadUEFModelData_uncompressed
    by first [assumption | apply version_rejected_false].
  unfold DecodePayload. cbn [Header Identifier set_Header].
  rewrite (bytes_eqb_neq _ _ Hne). reflexivity.
Qed.

Lemma X15_other_identifier_witness :
  ReadUEFModelData no_service 0
    (header_bytes (lit "UEANIM") Byte.x04 (lit "Run") ++ [Byte.x00]
       ++ [Byte.xff; Byte.xff])
  = Normal
      (mk_reading []
         (Some
            (mk_FUEModelData
               (mk_FUEFormatHeader (lit "UEANIM") (int8_of [Byte.x04])
                  (lit "Run") false [] None None)
               [] (mk_FSkeletonData [] [])))).
Proof.
  apply (X15_other_identifier no_service 0 (lit "UEANIM") (lit "Run")
           [Byte.xff; Byte.xff] Byte.x04);
    try (vm_compute; reflexivity).
  vm_compute. discriminate.
Defined.

(** ** Compressed against uncompressed *)

Lemma same_lods_refl (o : outcome (FUEModelData * Z)) : same_lods o o.
Proof. destruct o as [[d p]| |]; cbn; auto. Qed.

Lemma bind_same {A} (c : M A) (k1 k2 : A -> M FUEModelData) (p : Z) :
  (forall a o, same_lods (k1 a o) (k2 a o)) ->
  same_lods (bind c k1 p) (bind c k2 p).
Proof.
  intros Hk. unfold bind. destruct (c p) as [[a o]| |].
  - apply Hk.
  - reflexivity.
  - exact I.
Qed.

Lemma ReadSection_same (fuel : nat) (Data : bytes) (d1 d2 : FUEModelData)
    (p : Z) :
  LODs d1 = LODs d2 ->
  same_lods (ReadSection fuel Data d1 p) (ReadSection fuel Data d2 p).
Proof.
  intros HL. unfold ReadSection.
  apply bind_same. intros ty o1.
  apply bind_same. intros Num o2.
  apply bind_same. intros DataSize o3.
  destruct (bytes_eqb ty (lit "LODS")).
  - rewrite HL. apply bind_same. intros lods o4.
    split; reflexivity.
  - apply bind_same. intros u o4. split; [exact HL | reflexivity].
Qed.

Lemma ReadModel_loop_same (fuel n : nat) (Data : bytes) (sz : Z) :
  forall d1 d2 p,
    LODs d1 = LODs d2 ->
    same_lods (ReadModel_loop fuel n Data sz d1 p)
      (ReadModel_loop fuel n Data sz d2 p).
Proof.
  induction n as [|n IH]; intros d1 d2 p HL; cbn [ReadModel_loop];
    destruct (p <? sz); try exact I;
    try (split; [exact HL | reflexivity]).
  pose proof (ReadSection_same fuel Data d1 d2 p HL) as HS.
  unfold bind.
  destruct (ReadSection fuel Data d1 p) as [[e1 q1]| |];
    destruct (ReadSection fuel Data d2 p) as [[e2 q2]| |];
    try contradiction HS.
  - destruct HS as [HL' <-]. apply IH, HL'.
  - exact HS.
  - exact I.
Qed.

Lemma DecodePayload_same (fuel : nat) (Data : bytes) (n : Z)
    (d1 d2 : FUEModelData) :
  LODs d1 = LODs d2 ->
  Identifier (Header d1) = Identifier (Header d2) ->
  decoded_lods (DecodePayload fuel Data n d1)
  = decoded_lods (DecodePayload fuel Data n d2).
Proof.
  intros HL HI. unfold DecodePayload. rewrite HI.
  destruct (bytes_eqb (Identifier (Header d2)) (lit "UEMODEL")).
  - pose proof (ReadModel_loop_same fuel fuel Data n d1 d2 0 HL) as HS.
    unfold run, bind, ReadModel.
    destruct (ReadModel_loop fuel fuel Data n d1 0) as [[e1 q1]| |];
      destruct (ReadModel_loop fuel fuel Data n d2 0) as [[e2 q2]| |];
      try contradiction HS.
    + destruct HS as [HL' _]. cbn. rewrite HL'. reflexivity.
    + cbn in HS. subst. reflexivity.
    + reflexivity.
  - cbn. rewrite HL. reflexivity.
Qed.

(** X16: when the service turns the compressed bytes of a ZSTD file into a
    payload of exactly the declared uncompressed size, the caller gets the
    same LODs, or the same abnormal end, as from the uncompressed file with
    the same header fields and that payload; bytes that follow the
    compressed payload in the file are not looked at. *)
Theorem X16_compression_is_transparent (zstd : bytes -> Z -> option bytes)
    (fuel : nat) (ident name cdata rest payload : bytes) (ver : byte) :
  size ident < 2 ^ 31 -> size name < 2 ^ 31 -> size cdata < 2 ^ 31 ->
  size payload < 2 ^ 31 ->
  zstd cdata (size payload) = Some payload ->
  decoded_lods
    (ReadUEFModelData zstd fuel
       (header_bytes ident ver name ++ [Byte.x01]
          ++ string_bytes (lit "ZSTD") ++ int_bytes (size payload)
          ++ int_bytes (size cdata) ++ cdata ++ rest))
  = decoded_lods
      (ReadUEFModelData zstd fuel
         (header_bytes ident ver name ++ [Byte.x00] ++ payload)).
Proof.
  intros Hi Hn Hc Hp Hz. pose proof (size_nonneg payload) as Hp0.
  unfold ReadUEFModelData.
  rewrite compressed_file_result
    by first [assumption | apply version_rejected_false | lia
             | vm_compute; reflexivity].
  rewrite ReadUEFModelData_uncompressed
    by first [assumption | apply version_rejected_false].
  rewrite bytes_eqb_refl, Hz, Z.eqb_refl. cbn [negb].
  apply DecodePayload_same; reflexivity.
Qed.

Lemma X16_compression_is_transparent_witness :
  decoded_lods
    (ReadUEFModelData (fun _ _ => Some scenario_C_payload) 3
       (header_bytes (lit "UEMODEL") Byte.x04 (lit "Tri") ++ [Byte.x01]
          ++ string_bytes (lit "ZSTD")
          ++ int_bytes (size scenario_C_payload)
          ++ int_bytes (size [Byte.x28; Byte.xb5]) ++ [Byte.x28; Byte.xb5]
          ++ [Byte.xff]))
  = decoded_lods
      (ReadUEFModelData (fun _ _ => Some scenario_C_payload) 3
         (header_bytes (lit "UEMODEL") Byte.x04 (lit "Tri") ++ [Byte.x00]
            ++ scenario_C_payload)).
Proof.
  apply (X16_compression_is_transparent
           (fun _ _ => Some scenario_C_payload) 3 (lit "UEMODEL")
           (lit "Tri") [Byte.x28; Byte.xb5] [Byte.xff]
           scenario_C_payload Byte.x04);
    try (vm_compute; reflexivity).
Defined.

(** * Properties of the geometry builder and its callers *)

(** ** Material indices *)

Lemma material_scan_bounds (mats : list FMaterialChunk) (i f : Z) :
  material_scan mats i f = 0 \/
  i - 1 <= material_scan mats i f <= i + Z.of_nat (List.length mats) - 2.
Proof.
  revert i. induction mats as [|m mats IH]; intros i; cbn [material_scan].
  - left. reflexivity.
  - destruct (FirstIndex m >? f).
    + right. cbn [List.length]. lia.
    + destruct (IH (i + 1)) as [H|H]; [left; exact H|].
      right. cbn [List.length]. lia.
Qed.

Lemma face_loop_materials (mats : list FMaterialChunk) (P : Z -> Prop)
    (todo : nat) :
  (forall f, P (material_scan mats 0 f)) ->
  forall f c, Forall P (map snd (face_loop todo f c mats)).
Proof.
  intros HP. induction todo as [|todo IH]; intros f c; cbn; constructor.
  - apply HP.
  - apply IH.
Qed.

(** X17: every material index the face loop writes lies between -1 and the
    number of materials minus 2 (or is 0): with two or more materials the
    last material is assigned to no face at all. *)
Theorem X17_material_index_range (lod : FLODData) :
  Forall
    (fun r => - 1 <= r <= Z.max 0 (Z.of_nat (List.length (Materials lod)) - 2))
    (material_indices lod) /\
  (2 <= Z.of_nat (List.length (Materials lod)) ->
   ~ In (Z.of_nat (List.length (Materials lod)) - 1) (material_indices lod)).
Proof.
  assert (H : Forall
    (fun r => - 1 <= r <= Z.max 0 (Z.of_nat (List.length (Materials lod)) - 2))
    (material_indices lod)).
  { unfold material_indices, BuildUEModel_faces.
    apply face_loop_materials. intros f.
    destruct (material_scan_bounds (Materials lod) 0 f) as [->|Hb]; lia. }
  split; [exact H|]. intros Hlen Hin.
  rewrite Forall_forall in H. specialize (H _ Hin). lia.
Qed.

Lemma X17_material_index_range_witness :
  ~ In (Z.of_nat (List.length (Materials scenario_D)) - 1)
      (material_indices scenario_D).
Proof.
  apply (X17_material_index_range scenario_D). vm_compute. discriminate.
Defined.

Lemma material_scan_hit (pre : list FMaterialChunk) :
  forall (next : FMaterialChunk) (post : list FMaterialChunk) (i f : Z),
    (forall m, In m pre -> FirstIndex m <= f) ->
    f < FirstIndex next ->
    material_scan (pre ++ next :: post) i f
    = i + Z.of_nat (List.length pre) - 1.
Proof.
  induction pre as [|m pre IH]; intros next post i f Hpre Hnext;
    cbn [app material_scan List.length].
  - destruct (Z.gtb_spec (FirstIndex next) f); lia.
  - destruct (Z.gtb_spec (FirstIndex m) f) as [Hgt|_].
    + specialize (Hpre m (or_introl eq_refl)). lia.
    + rewrite IH by (auto with datatypes). lia.
Qed.

(** X18: when some material starts after the face, the face gets the index
    just before the first such material: the material in whose range the
    face lies if one starts at or before the face, and -1 if already the
    first material starts after the face. *)
Theorem X18_material_before_first_later_start (pre : list FMaterialChunk)
    (next : FMaterialChunk) (post : list FMaterialChunk) (f : Z) :
  (forall m, In m pre -> FirstIndex m <= f) ->
  f < FirstIndex next ->
  material_scan (pre ++ next :: post) 0 f = Z.of_nat (List.length pre) - 1.
Proof.
  intros Hpre Hnext. rewrite (material_scan_hit pre next post 0 f Hpre Hnext).
  lia.
Qed.

Lemma X18_material_before_first_later_start_witness :
  material_scan
    ([mk_FMaterialChunk [] 0 5; mk_FMaterialChunk [] 5 3]
       ++ mk_FMaterialChunk [] 8 2 :: [mk_FMaterialChunk [] 10 1]) 0 6
  = Z.of_nat
      (List.length [mk_FMaterialChunk [] 0 5; mk_FMaterialChunk [] 5 3]) - 1.
Proof.
  apply (X18_material_before_first_later_start
           [mk_FMaterialChunk [] 0 5; mk_FMaterialChunk [] 5 3]
           (mk_FMaterialChunk [] 8 2) [mk_FMaterialChunk [] 10 1] 6).
  - intros m [<-|[<-|[]]]; cbn; lia.
  - cbn. lia.
Defined.

(** ** Faces *)

Lemma face_loop_nth (mats : list FMaterialChunk) (todo : nat) :
  forall (f c : Z) (k : nat),
    (k < todo)%nat ->
    nth k (face_loop todo f c mats) (0, 0)
    = (c + 3 * Z.of_nat k, material_scan mats 0 (f + Z.of_nat k)).
Proof.
  induction todo as [|todo IH]; intros f c k Hk; [lia|].
  destruct k as [|k]; cbn [face_loop nth].
  - f_equal; [lia | f_equal; lia].
  - rewrite IH by lia. f_equal; [lia | f_equal; lia].
Qed.

Lemma length_face_loop (mats : list FMaterialChunk) (todo : nat) :
  forall f c, List.length (face_loop todo f c mats) = todo.
Proof.
  induction todo as [|todo IH]; intros f c; cbn; [reflexivity|].
  rewrite IH. reflexivity.
Qed.

(** X19: the face loop writes exactly [Indices.size() / 3] entries, one
    per whole triple of indices; entry [k] is the offset [3 k] together
    with the material index the scan finds for [k], and [3 k + 3] does not
    exceed the number of indices.  Fewer than three indices remain after
    the last whole triple. *)
Theorem X19_faces_are_triples (lod : FLODData) :
  List.length (BuildUEModel_faces lod) = Z.to_nat (faces_num lod) /\
  3 * faces_num lod <= Z.of_nat (List.length (Indices lod))
    < 3 * faces_num lod + 3 /\
  (forall k,
     (k < Z.to_nat (faces_num lod))%nat ->
     nth k (BuildUEModel_faces lod) (0, 0)
     = (3 * Z.of_nat k, material_scan (Materials lod) 0 (Z.of_nat k)) /\
     3 * Z.of_nat k + 3 <= Z.of_nat (List.length (Indices lod))).
Proof.
  unfold BuildUEModel_faces, faces_num.
  set (n := Z.of_nat (List.length (Indices lod))).
  assert (Hn : 0 <= n) by (unfold n; lia).
  pose proof (Z.div_mod n 3 ltac:(lia)) as Hd.
  pose proof (Z.mod_pos_bound n 3 ltac:(lia)) as Hm.
  split; [apply length_face_loop|]. split; [lia|].
  intros k Hk. split.
  - rewrite face_loop_nth by exact Hk. f_equal.
  - assert (Z.of_nat k < n / 3) by lia. lia.
Qed.

Lemma X19_faces_are_triples_witness :
  nth 7 (BuildUEModel_faces scenario_D) (0, 0)
  = (3 * Z.of_nat 7, material_scan (Materials scenario_D) 0 (Z.of_nat 7)) /\
  3 * Z.of_nat 7 + 3 <= Z.of_nat (List.length (Indices scenario_D)).
Proof.
  destruct (X19_faces_are_triples scenario_D) as (_ & _ & H).
  apply H. vm_compute. lia.
Defined.

(** ** Objects *)

Lemma BuildUEModel_loop_children (alloc : Z -> Z -> Z -> Z -> bool)
    (ObjectName : bytes) (scale : float) (p : nat) (rest : list FLODData) :
  (forall a b c d, alloc a b c d = true) ->
  forall n,
    BuildUEModel_loop alloc ObjectName scale rest (Some p) n
    = (flat_map
         (fun lod =>
            [BKE_object_add_from (c_str (ObjectName ++ LODName lod)) p
               (mesh_of lod);
             BKE_object_apply_mat4 indeterminate scale])
         rest,
       Some p).
Proof.
  intros Ha. induction rest as [|lod rest IH]; intros n;
    cbn [BuildUEModel_loop flat_map]; [reflexivity|].
  rewrite Ha. cbn [negb]. rewrite IH. reflexivity.
Qed.

(** X20: when every mesh is allocated, a model with at least one LOD makes
    [BuildUEModel] create one object per LOD, each named by the object name
    followed by the LOD name and cut at the first NUL: the first with
    [BKE_object_add], the others from it with [BKE_object_add_from]; the
    first object is returned.  The scale matrix is applied to the first
    object, and for every further LOD through the local pointer [ob] that
    was never assigned in that turn of the loop. *)
Theorem X20_objects_created (alloc : Z -> Z -> Z -> Z -> bool)
    (model : FUEModelData) (scale : float) (lod0 : FLODData)
    (rest : list FLODData) :
  (forall a b c d, alloc a b c d = true) ->
  LODs model = lod0 :: rest ->
  BuildUEModel alloc model scale
  = (BKE_object_add (c_str (ObjectName (Header model) ++ LODName lod0))
       (mesh_of lod0)
       :: BKE_object_apply_mat4 (object 0) scale
       :: flat_map
            (fun lod =>
               [BKE_object_add_from
                  (c_str (ObjectName (Header model) ++ LODName lod)) 0
                  (mesh_of lod);
                BKE_object_apply_mat4 indeterminate scale])
            rest,
     Some 0%nat).
Proof.
  intros Ha HL. unfold BuildUEModel. rewrite HL.
  cbn [BuildUEModel_loop]. rewrite Ha. cbn [negb].
  rewrite (BuildUEModel_loop_children alloc _ scale 0 rest Ha). reflexivity.
Qed.

Lemma X20_objects_created_witness :
  BuildUEModel (fun _ _ _ _ => true)
    (set_LODs scenario_C_model [scenario_D; FLODData_default]) 1008981770
  = (BKE_object_add
       (c_str (ObjectName
                 (Header
                    (set_LODs scenario_C_model
                       [scenario_D; FLODData_default]))
               ++ LODName scenario_D))
       (mesh_of scenario_D)
       :: BKE_object_apply_mat4 (object 0) 1008981770
       :: flat_map
            (fun lod =>
               [BKE_object_add_from
                  (c_str (ObjectName
                            (Header
                               (set_LODs scenario_C_model
                                  [scenario_D; FLODData_default]))
                          ++ LODName lod)) 0
                  (mesh_of lod);
                BKE_object_apply_mat4 indeterminate 1008981770])
            [FLODData_default],
     Some 0%nat).
Proof.
  apply (X20_objects_created (fun _ _ _ _ => true)
           (set_LODs scenario_C_model [scenario_D; FLODData_default])
           1008981770 scenario_D [FLODData_default]).
  - reflexivity.
  - reflexivity.
Defined.

(** ** Imports that create nothing *)

Lemma importer_main_null (zstd : bytes -> Z -> option bytes) (fuel : nat)
    (files : string -> option bytes) (alloc : Z -> Z -> Z -> Z -> bool)
    (filepath : string) (scale : float) (r : reading) :
  ReadUEFModelData_path zstd fuel files filepath = Normal r ->
  (returned r = None \/ exists m, returned r = Some m /\ LODs m = []) ->
  importer_main zstd fuel files alloc filepath scale
  = Normal (printed r, []).
Proof.
  intros E Hr. unfold importer_main. rewrite E.
  destruct Hr as [->|(m & -> & Hm)]; [reflexivity|].
  unfold BuildUEModel. rewrite Hm. reflexivity.
Qed.

(** X21: an import creates no object and touches no mesh when the file
    cannot be opened (one line is printed), when the file does not start
    with the magic (nothing is printed), and in general whenever the reader
    returns a null pointer or a model without LODs. *)
Theorem X21_failed_import_creates_nothing
    (zstd : bytes -> Z -> option bytes) (fuel : nat)
    (files : string -> option bytes) (alloc : Z -> Z -> Z -> Z -> bool)
    (filepath : string) (scale : float) :
  (files filepath = None ->
   importer_main zstd fuel files alloc filepath scale
   = Normal (["failed to open file\n"%string], [])) /\
  (forall File,
     files filepath = Some File -> firstn 8 File <> UEF_MAGIC ->
     importer_main zstd fuel files alloc filepath scale = Normal ([], [])) /\
  (forall r,
     ReadUEFModelData_path zstd fuel files filepath = Normal r ->
     (returned r = None \/ exists m, returned r = Some m /\ LODs m = []) ->
     importer_main zstd fuel files alloc filepath scale
     = Normal (printed r, [])).
Proof.
  split; [|split].
  - intros Hf.
    apply (importer_main_null _ _ _ _ _ _
             (mk_reading ["failed to open file\n"%string] None)).
    + unfold ReadUEFModelData_path. rewrite Hf. reflexivity.
    + left. reflexivity.
  - intros File Hf Hm.
    apply (importer_main_null _ _ _ _ _ _
             (mk_reading [] (Some FUEModelData_new))).
    + unfold ReadUEFModelData_path. rewrite Hf. apply bad_magic, Hm.
    + right. eexists. split; reflexivity.
  - intros r. apply importer_main_null.
Qed.

Lemma X21_failed_import_creates_nothing_witness :
  importer_main service_90 3 (fun _ => None) (fun _ _ _ _ => true)
    "missing.uemodel" 0
  = Normal (["failed to open file\n"%string], []) /\
  importer_main service_90 3 (fun _ => Some bad_magic_file)
    (fun _ _ _ _ => true) "bad.uemodel" 0 = Normal ([], []) /\
  importer_main service_90 3 (fun _ => Some scenario_B_file)
    (fun _ _ _ _ => true) "b.uemodel" 0
  = Normal (printed (mk_reading ["Failed to decompress data\n"%string] None),
            []).
Proof.
  destruct (X21_failed_import_creates_nothing service_90 3 (fun _ => None)
              (fun _ _ _ _ => true) "missing.uemodel" 0) as (H1 & _ & _).
  destruct (X21_failed_import_creates_nothing service_90 3
              (fun _ => Some bad_magic_file) (fun _ _ _ _ => true)
              "bad.uemodel" 0) as (_ & H2 & _).
  destruct (X21_failed_import_creates_nothing service_90 3
              (fun _ => Some scenario_B_file) (fun _ _ _ _ => true)
              "b.uemodel" 0) as (_ & _ & H3).
  split; [|split].
  - apply H1. reflexivity.
  - apply (H2 bad_magic_file); [reflexivity|]. vm_compute. discriminate.
  - apply (H3 (mk_reading ["Failed to decompress data\n"%string] None)).
    + vm_compute. reflexivity.
    + left. reflexivity.
Defined.

(** ** The operator *)

Lemma import_paths_missing (zstd : bytes -> Z -> option bytes) (fuel : nat)
    (files : string -> option bytes) (alloc : Z -> Z -> Z -> Z -> bool)
    (FILE_MAX : nat) (scale : float) (paths : list string) :
  (forall p, In p paths -> files (STRNCPY FILE_MAX p) = None) ->
  import_paths zstd fuel files alloc FILE_MAX scale paths
  = Normal (map (fun _ => (["failed to open file\n"%string], [])) paths).
Proof.
  induction paths as [|path paths IH]; intros Hf; [reflexivity|].
  cbn [import_paths map]. unfold UEFORMAT_import, importer_main,
    ReadUEFModelData_path.
  rewrite (Hf path (or_introl eq_refl)). cbn [returned printed].
  rewrite IH by (intros p Hp; apply Hf; right; exact Hp). reflexivity.
Qed.

(** X22: with at least one path the operator ends with
    [OPERATOR_FINISHED] and adds no report even when none of the files can
    be opened: each import prints its line and creates nothing.  Only an
    empty list of paths is reported and cancelled. *)
Theorem X22_operator_finishes_without_files
    (zstd : bytes -> Z -> option bytes) (fuel : nat)
    (files : string -> option bytes) (alloc : Z -> Z -> Z -> Z -> bool)
    (FILE_MAX : nat) (scale : float) (paths : list string) :
  paths <> [] ->
  (forall p, In p paths -> files (STRNCPY FILE_MAX p) = None) ->
  wm_ueformat_import_exec zstd fuel files alloc FILE_MAX scale paths
  = Normal ([],
            map (fun _ => (["failed to open file\n"%string], [])) paths,
            OPERATOR_FINISHED).
Proof.
  intros Hne Hf. unfold wm_ueformat_import_exec.
  destruct paths as [|path paths]; [contradiction|].
  rewrite (import_paths_missing _ _ _ _ _ _ _ Hf). reflexivity.
Qed.

Lemma X22_operator_finishes_without_files_witness :
  wm_ueformat_import_exec service_90 3 (fun _ => None) (fun _ _ _ _ => true)
    1024 0 ["a.uemodel"%string; "b.uemodel"%string]
  = Normal ([],
            map (fun _ => (["failed to open file\n"%string], []))
              ["a.uemodel"%string; "b.uemodel"%string],
            OPERATOR_FINISHED).
Proof.
  apply (X22_operator_finishes_without_files service_90 3 (fun _ => None)
           (fun _ _ _ _ => true) 1024 0
           ["a.uemodel"%string; "b.uemodel"%string]).
  - discriminate.
  - reflexivity.
Defined.

(** * Every decoded chunk, read back *)

(** ** Elements *)

Lemma int8_of_le_split (x : Z) :
  - 128 <= x < 128 -> int8_of (le_split 1 x) = x.
Proof.
  intros H. unfold int8_of, signed. rewrite le_combine_split.
  change (Z.of_nat 1 * 8) with 8. change (8 - 1) with 7.
  rewrite Z.add_mod_idemp_l by (compute; discriminate).
  change (2 ^ 7) with 128. change (2 ^ 8) with 256.
  rewrite Z.mod_small; lia.
Qed.

Lemma short_of_le_split (x : Z) :
  - 2 ^ 15 <= x < 2 ^ 15 -> short_of (le_split 2 x) = x.
Proof.
  intros H. unfold short_of, signed. rewrite le_combine_split.
  change (Z.of_nat 2 * 8) with 16. change (16 - 1) with 15.
  rewrite Z.add_mod_idemp_l by (compute; discriminate).
  rewrite Z.mod_small; lia.
Qed.

Lemma float2_round (v : float2) :
  float2_fits v ->
  List.length (float2_bytes v) = 8%nat /\ float2_of (float2_bytes v) = v.
Proof.
  intros (Hx & Hy). destruct v as [x y]. cbn [f2_x f2_y] in *.
  split; [reflexivity|].
  unfold float2_of, float2_bytes. cbn [f2_x f2_y].
  change (slice (le_split 4 x ++ le_split 4 y) 0 4) with (le_split 4 x).
  change (slice (le_split 4 x ++ le_split 4 y) 4 4) with (le_split 4 y).
  rewrite !float_of_le_split by assumption. reflexivity.
Qed.

Lemma float4_round (v : float4) :
  float4_fits v ->
  List.length (float4_bytes v) = 16%nat /\ float4_of (float4_bytes v) = v.
Proof.
  intros (Hx & Hy & Hz & Hw). destruct v as [x y z w].
  cbn [f4_x f4_y f4_z f4_w] in *. split; [reflexivity|].
  unfold float4_of, float4_bytes. cbn [f4_x f4_y f4_z f4_w].
  set (bs := le_split 4 x ++ le_split 4 y ++ le_split 4 z ++ le_split 4 w).
  change (slice bs 0 4) with (le_split 4 x).
  change (slice bs 4 4) with (le_split 4 y).
  change (slice bs 8 4) with (le_split 4 z).
  change (slice bs 12 4) with (le_split 4 w).
  rewrite !float_of_le_split by assumption. reflexivity.
Qed.

Lemma char4_round (c : char4) :
  char4_fits c ->
  List.length (char4_bytes c) = 4%nat /\ char4_of (char4_bytes c) = c.
Proof.
  intros (Hx & Hy & Hz & Hw). destruct c as [x y z w].
  cbn [c4_x c4_y c4_z c4_w] in *. split; [reflexivity|].
  unfold char4_of, char4_bytes. cbn [c4_x c4_y c4_z c4_w].
  set (bs := le_split 1 x ++ le_split 1 y ++ le_split 1 z ++ le_split 1 w).
  change (slice bs 0 1) with (le_split 1 x).
  change (slice bs 1 1) with (le_split 1 y).
  change (slice bs 2 1) with (le_split 1 z).
  change (slice bs 3 1) with (le_split 1 w).
  rewrite !int8_of_le_split by assumption. reflexivity.
Qed.

Lemma weight_round (w : FWeightChunk) :
  weight_fits w ->
  List.length (weight_bytes w) = 12%nat /\
  FWeightChunk_of (weight_bytes w) = w.
Proof.
  intros (Hb & Hv & Ha). destruct w as [b v a].
  cbn [WeightBoneIndex WeightVertexIndex WeightAmount] in *.
  split; [reflexivity|].
  unfold FWeightChunk_of, weight_bytes.
  cbn [WeightBoneIndex WeightVertexIndex WeightAmount].
  set (bs := le_split 2 b ++ [Byte.x00; Byte.x00] ++ int_bytes v
               ++ le_split 4 a).
  change (slice bs 0 2) with (le_split 2 b).
  change (slice bs 4 4) with (int_bytes v).
  change (slice bs 8 4) with (le_split 4 a).
  rewrite short_of_le_split, int_of_int_bytes, float_of_le_split
    by assumption.
  reflexivity.
Qed.

Lemma delta_round (d : FMorphTargetDataChunk) :
  delta_fits d ->
  List.length (delta_bytes d) = 28%nat /\
  FMorphTargetDataChunk_of (delta_bytes d) = d.
Proof.
  intros (Hp & Hn & Hi). destruct d as [p n i].
  cbn [MorphPosition MorphNormals MorphVertexIndex] in *.
  destruct (float3_round p Hp) as [_ Ep].
  destruct (float3_round n Hn) as [_ En].
  destruct p as [px py pz], n as [nx ny nz].
  split; [reflexivity|].
  unfold FMorphTargetDataChunk_of, delta_bytes.
  cbn [MorphPosition MorphNormals MorphVertexIndex].
  set (P := mk_float3 px py pz) in *. set (N := mk_float3 nx ny nz) in *.
  change (slice (float3_bytes P ++ float3_bytes N ++ int_bytes i) 0 12)
    with (float3_bytes P).
  change (slice (float3_bytes P ++ float3_bytes N ++ int_bytes i) 12 12)
    with (float3_bytes N).
  change (slice (float3_bytes P ++ float3_bytes N ++ int_bytes i) 24 4)
    with (int_bytes i).
  rewrite Ep, En, int_of_int_bytes by assumption. reflexivity.
Qed.

(** ** Arrays and entries laid out at the cursor *)

Lemma ReadArray_round {A} (Data : bytes) (enc : A -> bytes)
    (dec : bytes -> A) (ok : A -> Prop) (sz : nat) (xs : list A)
    (p : Z) (R : bytes) :
  (forall x, ok x -> List.length (enc x) = sz /\ dec (enc x) = x) ->
  Forall ok xs ->
  tail_at Data p (concat (map enc xs) ++ R) ->
  ReadArray Data (Z.of_nat sz) dec (Z.of_nat (List.length xs)) p
  = Normal (xs, p + size (concat (map enc xs))).
Proof.
  intros Henc Hall H.
  destruct (elements_concat enc dec sz ok xs Henc Hall) as [Hdec Hsz].
  rewrite (ReadArray_at Data (Z.of_nat sz) dec (Z.of_nat (List.length xs)) p
             (concat (map enc xs)) R H) by (unfold size; lia).
  rewrite !Nat2Z.id, Hdec. reflexivity.
Qed.

Lemma forM_entries {A} (Data : bytes) (enc : A -> bytes) (rd : M A)
    (ok : A -> Prop) :
  (forall x p R,
     ok x -> tail_at Data p (enc x ++ R) ->
     rd p = Normal (x, p + size (enc x))) ->
  forall xs p R,
    Forall ok xs ->
    tail_at Data p (concat (map enc xs) ++ R) ->
    forM (List.length xs) rd p
    = Normal (xs, p + size (concat (map enc xs))).
Proof.
  intros Hrd xs. induction xs as [|x xs IH]; intros p R Hall H.
  - cbn. unfold ret. f_equal. f_equal. change (size []) with 0. lia.
  - inversion Hall as [|? ? Hx Hall']; subst.
    cbn [map concat] in H. rewrite <- app_assoc in H.
    cbn [List.length forM].
    step_with (Hrd x p _ Hx H). apply tail_at_bytes in H.
    step_with (IH _ R Hall' H). unfold ret.
    cbn [map concat]. rewrite size_app. f_equal. f_equal. lia.
Qed.

Lemma ReadNested_entries {A} (Data : bytes) (enc : A -> bytes) (rd : M A)
    (ok : A -> Prop) (xs : list A) (p : Z) (R : bytes) :
  (forall x p R,
     ok x -> tail_at Data p (enc x ++ R) ->
     rd p = Normal (x, p + size (enc x))) ->
  Forall ok xs ->
  tail_at Data p (concat (map enc xs) ++ R) ->
  ReadNested (Z.of_nat (List.length xs)) rd p
  = Normal (xs, p + size (concat (map enc xs))).
Proof.
  intros Hrd Hall H. unfold ReadNested, resize.
  destruct (Z.ltb_spec (Z.of_nat (List.length xs)) 0); [lia|].
  unfold bind at 1. unfold ret at 1. rewrite Nat2Z.id.
  apply (forM_entries Data enc rd ok Hrd xs p R Hall H).
Qed.

Lemma ReadVertexColor_at (Data : bytes) (vc : FVertexColorChunk) (p : Z)
    (R : bytes) :
  vertex_color_fits vc -> tail_at Data p (vertex_color_bytes vc ++ R) ->
  ReadVertexColor Data p = Normal (vc, p + size (vertex_color_bytes vc)).
Proof.
  intros (Hn & Hc & Hall) H. unfold count_fits in Hc.
  destruct vc as [name data]. cbn [vc_Name vc_Data] in *.
  unfold vertex_color_bytes in *. cbn [vc_Name vc_Data] in *.
  rewrite <- !app_assoc in H. unfold ReadVertexColor.
  step_with (ReadString_at _ _ _ _ H Hn). apply tail_at_string in H.
  step_with (ReadInt_at _ _ _ _ H ltac:(lia)). apply tail_at_int in H.
  change sizeof_char4 with (Z.of_nat 4).
  step_with (ReadArray_round Data char4_bytes char4_of char4_fits 4 data _ R
               char4_round Hall H).
  unfold ret. rewrite !size_app, size_string_bytes, size_int_bytes.
  f_equal. f_equal. lia.
Qed.

Lemma ReadTexCoords_at (Data : bytes) (uv : list float2) (p : Z) (R : bytes) :
  texcoords_fits uv -> tail_at Data p (texcoords_bytes uv ++ R) ->
  ReadTexCoords Data p = Normal (uv, p + size (texcoords_bytes uv)).
Proof.
  intros (Hc & Hall) H. unfold count_fits in Hc.
  unfold texcoords_bytes in *. rewrite <- !app_assoc in H.
  unfold ReadTexCoords.
  step_with (ReadInt_at _ _ _ _ H ltac:(lia)). apply tail_at_int in H.
  change sizeof_float2 with (Z.of_nat 8).
  rewrite (ReadArray_round Data float2_bytes float2_of float2_fits 8 uv _ R
             float2_round Hall H).
  rewrite !size_app, size_int_bytes. f_equal. f_equal. lia.
Qed.

Lemma ReadMorph_at (Data : bytes) (m : FMorphTargetChunk) (p : Z) (R : bytes) :
  morph_fits m -> tail_at Data p (morph_bytes m ++ R) ->
  ReadMorph Data p = Normal (m, p + size (morph_bytes m)).
Proof.
  intros (Hn & Hc & Hall) H. unfold count_fits in Hc.
  destruct m as [name deltas]. cbn [MorphName MorphDeltas] in *.
  unfold morph_bytes in *. cbn [MorphName MorphDeltas] in *.
  rewrite <- !app_assoc in H. unfold ReadMorph.
  step_with (ReadString_at _ _ _ _ H Hn). apply tail_at_string in H.
  step_with (ReadInt_at _ _ _ _ H ltac:(lia)). apply tail_at_int in H.
  change sizeof_FMorphTargetDataChunk with (Z.of_nat 28).
  step_with (ReadArray_round Data delta_bytes FMorphTargetDataChunk_of
               delta_fits 28 deltas _ R delta_round Hall H).
  unfold ret. rewrite !size_app, size_string_bytes, size_int_bytes.
  f_equal. f_equal. lia.
Qed.

Lemma ReadMaterial_entry (Data : bytes) (m : FMaterialChunk) (p : Z)
    (R : bytes) :
  material_fits m -> tail_at Data p (material_bytes m ++ R) ->
  ReadMaterial Data p = Normal (m, p + size (material_bytes m)).
Proof. intros Hm H. apply (ReadMaterial_at _ _ _ _ H Hm). Qed.

(** The payload of any decoded chunk, laid out at the cursor, is stored
    into the LOD unchanged. *)
Lemma payload_decodes (Data : bytes) (lod : FLODData) (c : chunk_data)
    (DataSize p : Z) (R : bytes) :
  chunk_fits c ->
  tail_at Data p (chunk_payload c ++ R) ->
  ReadChunkPayload Data lod (chunk_tag c) (chunk_count c) DataSize p
  = Normal (chunk_store c lod, p + size (chunk_payload c)).
Proof.
  intros [Hcount Hall] H. unfold ReadChunkPayload.
  destruct c as [v|v|v|v|v|v|v|v];
    cbn [chunk_tag chunk_count chunk_payload chunk_store] in *; eval_tags.
  - change sizeof_float3 with (Z.of_nat 12).
    step_with (ReadArray_round Data float3_bytes float3_of float3_fits 12 v
                 p R float3_round Hall H). reflexivity.
  - change sizeof_int with (Z.of_nat 4).
    step_with (ReadArray_round Data int_bytes int_of
                 (fun i => - 2 ^ 31 <= i < 2 ^ 31) 4 v p R
                 int_of_le_split_round Hall H). reflexivity.
  - change sizeof_float4 with (Z.of_nat 16).
    step_with (ReadArray_round Data float4_bytes float4_of float4_fits 16 v
                 p R float4_round Hall H). reflexivity.
  - step_with (ReadNested_entries Data vertex_color_bytes
                 (ReadVertexColor Data) vertex_color_fits v p R
                 (fun x q S Hx Hq => ReadVertexColor_at Data x q S Hx Hq)
                 Hall H). reflexivity.
  - step_with (ReadNested_entries Data texcoords_bytes
                 (ReadTexCoords Data) texcoords_fits v p R
                 (fun x q S Hx Hq => ReadTexCoords_at Data x q S Hx Hq)
                 Hall H). reflexivity.
  - step_with (ReadNested_entries Data material_bytes
                 (ReadMaterial Data) material_fits v p R
                 (fun x q S Hx Hq => ReadMaterial_entry Data x q S Hx Hq)
                 Hall H). reflexivity.
  - change sizeof_FWeightChunk with (Z.of_nat 12).
    step_with (ReadArray_round Data weight_bytes FWeightChunk_of weight_fits
                 12 v p R weight_round Hall H). reflexivity.
  - step_with (ReadNested_entries Data morph_bytes
                 (ReadMorph Data) morph_fits v p R
                 (fun x q S Hx Hq => ReadMorph_at Data x q S Hx Hq)
                 Hall H). reflexivity.
Qed.

(** ** Whole chunks and runs of chunks *)


Lemma chunk_tag_decoded (c : chunk_data) : skipped (chunk_tag c) = false.
Proof. destruct c; reflexivity. Qed.





(** ** What a decoded chunk that returns has done *)

Lemma length_elements (sz count : nat) (bs : bytes) :
  List.length (elements sz count bs) = count.
Proof.
  revert bs. induction count as [|count IH]; intros bs; cbn;
    [reflexivity | rewrite IH; reflexivity].
Qed.

Lemma ReadArray_inv {A} (Data : bytes) (sizeof : Z) (dec : bytes -> A)
    (Num p p' : Z) (v : list A) :
  ReadArray Data sizeof dec Num p = Normal (v, p') ->
  0 <= Num /\ Z.of_nat (List.length v) = Num /\ p' = p + Num * sizeof.
Proof.
  unfold ReadArray. intros E.
  apply bind_inv in E as (u & o1 & E1 & E).
  unfold resize in E1. destruct (Z.ltb_spec Num 0); [discriminate E1|].
  injection E1 as _ <-.
  apply bind_inv in E as (bs & o2 & E2 & E).
  injection E as <- <-.
  destruct (ReadStruct_inside _ _ _ _ _ E2) as (_ & _ & -> & _).
  rewrite length_map, length_elements. lia.
Qed.

Lemma size_concat_fixed {A} (enc : A -> bytes) (sz : Z) (xs : list A) :
  (forall x, size (enc x) = sz) ->
  size (concat (map enc xs)) = Z.of_nat (List.length xs) * sz.
Proof.
  intros Henc. induction xs as [|x xs IH]; [reflexivity|].
  cbn [map concat List.length]. rewrite size_app, Henc, IH. lia.
Qed.

Lemma forM_inv {A} (rd : M A) (enc : A -> bytes) :
  (forall p a p', rd p = Normal (a, p') -> p' = p + size (enc a)) ->
  forall n p xs p',
    forM n rd p = Normal (xs, p') ->
    List.length xs = n /\ p' = p + size (concat (map enc xs)).
Proof.
  intros Hrd n. induction n as [|n IH]; intros p xs p' E; cbn [forM] in E.
  - injection E as <- <-. split; [reflexivity|].
    change (size (concat (map enc []))) with 0. lia.
  - apply bind_inv in E as (a & o1 & E1 & E).
    apply bind_inv in E as (rest & o2 & E2 & E).
    injection E as <- <-.
    destruct (IH _ _ _ E2) as [Hlen ->]. rewrite (Hrd _ _ _ E1).
    cbn [List.length map concat]. rewrite size_app.
    split; [congruence | lia].
Qed.

Lemma ReadNested_inv {A} (rd : M A) (enc : A -> bytes) (Num p p' : Z)
    (xs : list A) :
  (forall p a p', rd p = Normal (a, p') -> p' = p + size (enc a)) ->
  ReadNested Num rd p = Normal (xs, p') ->
  Z.of_nat (List.length xs) = Num /\ p' = p + size (concat (map enc xs)).
Proof.
  intros Hrd E. unfold ReadNested in E.
  apply bind_inv in E as (u & o1 & E1 & E).
  unfold resize in E1. destruct (Z.ltb_spec Num 0); [discriminate E1|].
  injection E1 as _ <-.
  destruct (forM_inv rd enc Hrd _ _ _ _ E) as [Hlen Hp].
  split; [lia | exact Hp].
Qed.

Lemma ReadVertexColor_inv (Data : bytes) (p p' : Z) (vc : FVertexColorChunk) :
  ReadVertexColor Data p = Normal (vc, p') ->
  p' = p + size (vertex_color_bytes vc).
Proof.
  unfold ReadVertexColor. intros E.
  apply bind_inv in E as (name & o1 & E1 & E).
  apply bind_inv in E as (n & o2 & E2 & E).
  apply bind_inv in E as (cs & o3 & E3 & E).
  injection E as <- <-.
  destruct (ReadString_inside _ _ _ _ E1) as (_ & -> & _).
  destruct (ReadInt_inside _ _ _ _ E2) as (_ & -> & _).
  destruct (ReadArray_inv _ _ _ _ _ _ _ E3) as (_ & Hlen & ->).
  unfold vertex_color_bytes. cbn [vc_Name vc_Data].
  rewrite !size_app, size_string_bytes, size_int_bytes.
  rewrite (size_concat_fixed char4_bytes 4) by reflexivity.
  unfold sizeof_char4. lia.
Qed.

Lemma ReadTexCoords_inv (Data : bytes) (p p' : Z) (uv : list float2) :
  ReadTexCoords Data p = Normal (uv, p') ->
  p' = p + size (texcoords_bytes uv).
Proof.
  unfold ReadTexCoords. intros E.
  apply bind_inv in E as (n & o1 & E1 & E).
  destruct (ReadInt_inside _ _ _ _ E1) as (_ & -> & _).
  destruct (ReadArray_inv _ _ _ _ _ _ _ E) as (_ & Hlen & ->).
  unfold texcoords_bytes. rewrite !size_app, size_int_bytes.
  rewrite (size_concat_fixed float2_bytes 8) by reflexivity.
  unfold sizeof_float2. lia.
Qed.

Lemma ReadMaterial_inv (Data : bytes) (p p' : Z) (m : FMaterialChunk) :
  ReadMaterial Data p = Normal (m, p') ->
  p' = p + size (material_bytes m).
Proof.
  unfold ReadMaterial. intros E.
  apply bind_inv in E as (name & o1 & E1 & E).
  apply bind_inv in E as (f & o2 & E2 & E).
  apply bind_inv in E as (c & o3 & E3 & E).
  injection E as <- <-.
  destruct (ReadString_inside _ _ _ _ E1) as (_ & -> & _).
  destruct (ReadInt_inside _ _ _ _ E2) as (_ & -> & _).
  destruct (ReadInt_inside _ _ _ _ E3) as (_ & -> & _).
  unfold material_bytes. cbn [mat_Name FirstIndex NumFaces].
  rewrite !size_app, size_string_bytes, !size_int_bytes. lia.
Qed.

Lemma ReadMorph_inv (Data : bytes) (p p' : Z) (m : FMorphTargetChunk) :
  ReadMorph Data p = Normal (m, p') ->
  p' = p + size (morph_bytes m).
Proof.
  unfold ReadMorph. intros E.
  apply bind_inv in E as (name & o1 & E1 & E).
  apply bind_inv in E as (n & o2 & E2 & E).
  apply bind_inv in E as (ds & o3 & E3 & E).
  injection E as <- <-.
  destruct (ReadString_inside _ _ _ _ E1) as (_ & -> & _).
  destruct (ReadInt_inside _ _ _ _ E2) as (_ & -> & _).
  destruct (ReadArray_inv _ _ _ _ _ _ _ E3) as (_ & Hlen & ->).
  unfold morph_bytes. cbn [MorphName MorphDeltas].
  rewrite !size_app, size_string_bytes, size_int_bytes.
  rewrite (size_concat_fixed delta_bytes 28)
    by (intros [[? ? ?] [? ? ?] ?]; reflexivity).
  unfold sizeof_FMorphTargetDataChunk. lia.
Qed.

(** A decoded chunk that returns has stored [Num] entries of its kind and
    moved the cursor by the bytes those entries occupy. *)
Lemma payload_inv (Data : bytes) (lod lod' : FLODData) (tag : bytes)
    (Num DataSize p p' : Z) :
  skipped tag = false ->
  ReadChunkPayload Data lod tag Num DataSize p = Normal (lod', p') ->
  exists c,
    chunk_tag c = tag /\ chunk_count c = Num /\
    lod' = chunk_store c lod /\ p' = p + size (chunk_payload c).
Proof.
  unfold skipped, chunk_tags. cbn [existsb]. intros H.
  unfold ReadChunkPayload.
  repeat match goal with
  | |- context [bytes_eqb tag ?t] =>
      let E := fresh "E" in
      destruct (bytes_eqb tag t) eqn:E; rewrite ?E in H;
      try (cbn in H; discriminate H);
      [apply bytes_eqb_eq in E; subst tag; intros EP;
       apply bind_inv in EP as (v & o & EV & EP); injection EP as <- <-|]
  end.
  - destruct (ReadArray_inv _ _ _ _ _ _ _ EV) as (_ & Hlen & ->).
    exists (VERTICES_data v). repeat split; try assumption.
    cbn [chunk_payload]. unfold vertices_bytes.
    rewrite (size_concat_fixed float3_bytes 12) by reflexivity.
    unfold sizeof_float3. lia.
  - destruct (ReadArray_inv _ _ _ _ _ _ _ EV) as (_ & Hlen & ->).
    exists (INDICES_data v). repeat split; try assumption.
    cbn [chunk_payload]. unfold indices_bytes.
    rewrite (size_concat_fixed int_bytes 4) by reflexivity.
    unfold sizeof_int. lia.
  - destruct (ReadArray_inv _ _ _ _ _ _ _ EV) as (_ & Hlen & ->).
    exists (NORMALS_data v). repeat split; try assumption.
    cbn [chunk_payload].
    rewrite (size_concat_fixed float4_bytes 16) by reflexivity.
    unfold sizeof_float4. lia.
  - destruct (ReadNested_inv _ vertex_color_bytes _ _ _ _
                (fun q a q' => ReadVertexColor_inv Data q q' a) EV) as [Hlen ->].
    exists (VERTEXCOLORS_data v). repeat split; assumption.
  - destruct (ReadNested_inv _ texcoords_bytes _ _ _ _
                (fun q a q' => ReadTexCoords_inv Data q q' a) EV) as [Hlen ->].
    exists (TEXCOORDS_data v). repeat split; assumption.
  - destruct (ReadNested_inv _ material_bytes _ _ _ _
                (fun q a q' => ReadMaterial_inv Data q q' a) EV) as [Hlen ->].
    exists (MATERIALS_data v). repeat split; assumption.
  - destruct (ReadArray_inv _ _ _ _ _ _ _ EV) as (_ & Hlen & ->).
    exists (WEIGHTS_data v). repeat split; try assumption.
    cbn [chunk_payload].
    rewrite (size_concat_fixed weight_bytes 12) by reflexivity.
    unfold sizeof_FWeightChunk. lia.
  - destruct (ReadNested_inv _ morph_bytes _ _ _ _
                (fun q a q' => ReadMorph_inv Data q q' a) EV) as [Hlen ->].
    exists (MORPHTARGETS_data v). repeat split; assumption.
  - exfalso. destruct (bytes_eqb tag (lit "TANGENTS")); cbn in H;
      discriminate H.
Qed.

(** ** C3 and C6: how far a chunk moves the cursor, and what follows a
    chunk that is stepped over *)

(** C3, amended: TANGENTS and every tag the reader does not name leave the
    cursor at the start of the payload plus the declared byte length.  The
    decoded chunks never look at the declared byte length; VERTICES,
    INDICES, NORMALS and WEIGHTS move the cursor by the element count times
    the element size (12, 4, 16 and 12 bytes).  Every decoded chunk that
    returns, flat or nested (VERTEXCOLORS, TEXCOORDS, MATERIALS,
    MORPHTARGETS), has stored as many entries as the header counts and has
    moved the cursor by the bytes those entries occupy; and it does return,
    with exactly the entries laid out, when the entries are in the buffer.
    It then ends at the declared byte length only if that is the number of
    bytes of the entries. *)
Theorem C3_chunk_advance (Data : bytes) (lod : FLODData) (tag : bytes)
    (Num DataSize p : Z) :
  (skipped tag = true ->
   ReadChunkPayload Data lod tag Num DataSize p
   = Normal (lod, p + DataSize)) /\
  (skipped tag = false ->
   forall DataSize',
     ReadChunkPayload Data lod tag Num DataSize' p
     = ReadChunkPayload Data lod tag Num DataSize p) /\
  (forall sz,
     flat_element_size tag = Some sz ->
     0 <= Num -> in_buffer Data p (Num * sz) = true ->
     exists lod',
       ReadChunkPayload Data lod tag Num DataSize p
       = Normal (lod', p + Num * sz)) /\
  (skipped tag = false ->
   forall lod' p',
     ReadChunkPayload Data lod tag Num DataSize p = Normal (lod', p') ->
     exists c,
       chunk_tag c = tag /\ chunk_count c = Num /\
       lod' = chunk_store c lod /\ p' = p + size (chunk_payload c)) /\
  (forall c R,
     chunk_tag c = tag -> chunk_count c = Num -> chunk_fits c ->
     tail_at Data p (chunk_payload c ++ R) ->
     ReadChunkPayload Data lod tag Num DataSize p
     = Normal (chunk_store c lod, p + size (chunk_payload c)) /\
     (DataSize <> size (chunk_payload c) ->
      forall lod',
        ReadChunkPayload Data lod tag Num DataSize p
        <> Normal (lod', p + DataSize))).
Proof.
  split; [|split; [|split; [|split]]].
  - apply skip_payload.
  - intros H DataSize'. apply decoded_payload_ignores_byte_length, H.
  - intros sz. apply flat_payload.
  - intros H lod' p'. apply payload_inv, H.
  - intros c R <- <- Hfit Ht.
    pose proof (payload_decodes Data lod c DataSize p R Hfit Ht) as E.
    split; [exact E|].
    intros Hne lod' E'. rewrite E in E'. injection E' as _ E'. lia.
Qed.

(** The UNKNOWNTAG chunk of scenario C, the VERTICES chunk that declares
    100 bytes, and the colour layer among the chunks of five kinds: its
    payload starts at byte 75 and its one entry occupies 16 bytes, whatever
    the header declares. *)
Lemma C3_chunk_advance_witness :
  ReadChunkPayload scenario_C_chunks FLODData_default (lit "UNKNOWNTAG") 7 16
    22 = Normal (FLODData_default, 22 + 16) /\
  ReadChunkPayload misdeclared_chunk FLODData_default (lit "VERTICES") 1 12 20
  = ReadChunkPayload misdeclared_chunk FLODData_default (lit "VERTICES") 1
      100 20 /\
  (exists lod',
     ReadChunkPayload misdeclared_chunk FLODData_default (lit "VERTICES") 1
       100 20 = Normal (lod', 20 + 1 * 12)) /\
  (exists c,
     chunk_tag c = lit "VERTEXCOLORS" /\ chunk_count c = 1 /\
     set_VertexColors FLODData_default
       [mk_FVertexColorChunk (lit "COL0") [mk_char4 (-1) 0 127 (-128)]]
     = chunk_store c FLODData_default /\
     91 = 75 + size (chunk_payload c)) /\
  ReadChunkPayload (encode_chunks following_chunks) FLODData_default
    (lit "VERTEXCOLORS") 1 400 75
  = Normal
      (set_VertexColors FLODData_default
         [mk_FVertexColorChunk (lit "COL0") [mk_char4 (-1) 0 127 (-128)]],
       75 + 16) /\
  (forall lod',
     ReadChunkPayload (encode_chunks following_chunks) FLODData_default
       (lit "VERTEXCOLORS") 1 400 75
     <> Normal (lod', 75 + 400)).
Proof.
  destruct (C3_chunk_advance scenario_C_chunks FLODData_default
              (lit "UNKNOWNTAG") 7 16 22) as (H1 & _ & _).
  destruct (C3_chunk_advance misdeclared_chunk FLODData_default
              (lit "VERTICES") 1 100 20) as (_ & H2 & H3 & _).
  destruct (C3_chunk_advance (encode_chunks following_chunks)
              FLODData_default (lit "VERTEXCOLORS") 1 400 75)
    as (_ & _ & _ & H4 & H5).
  split; [apply H1; reflexivity|].
  split; [apply H2; reflexivity|].
  split; [apply (H3 12); [reflexivity | lia | reflexivity]|].
  split; [apply H4; [reflexivity | vm_compute; reflexivity]|].
  destruct (H5 (VERTEXCOLORS_data
                  [mk_FVertexColorChunk (lit "COL0")
                     [mk_char4 (-1) 0 127 (-128)]])
              (skipn 91 (encode_chunks following_chunks)))
    as [H6 H7].
  - reflexivity.
  - reflexivity.
  - repeat constructor; vm_compute; congruence.
  - split; [vm_compute; split; congruence | vm_compute; reflexivity].
  - split; [exact H6|]. apply H7. vm_compute. congruence.
Defined.


